(** * WebpageDownloader: a shallow embedding of [fetch.py]

    The program fetches web pages, downloads the assets they refer to,
    rewrites the references to the local copies and keeps a JSON store of
    per-page metadata.  The embedding follows [fetch.py] function by
    function.  Python [str] and [bytes] are both strings of bytes here (text
    is held in its UTF-8 encoding), integers are [Z], a [dict] whose order
    matters is an association list, and the file system is a finite map
    from the paths the program spells to what they name.  The libraries
    the program calls ([validators], [requests], [bs4], [urllib], [json],
    [datetime]) are an interface the program is parameterised by. *)

From stdpp Require Import gmap strings list pretty.
From Stdlib Require Import ZArith Ascii.

Local Open Scope Z_scope.
Set Warnings "-register-all".

(** ** Strings and paths *)

Module Py.

(** [s.endswith(suffix)]: comparison is by characters, so by case too. *)
Fixpoint endswith (s suffix : string) : bool :=
  String.eqb s suffix ||
  match s with
  | EmptyString => false
  | String _ rest => endswith rest suffix
  end.

(** [s.endswith(t)] for a tuple [t] of suffixes. *)
Definition endswith_any (s : string) (suffixes : list string) : bool :=
  existsb (endswith s) suffixes.

(** [s.startswith(prefix)]. *)
Definition startswith (s prefix : string) : bool := String.prefix prefix s.

(** [s.split(c, 1)[0]]: the text before the first [c], all of [s] when
    there is none. *)
Fixpoint split_first (c : ascii) (s : string) : string :=
  match s with
  | EmptyString => EmptyString
  | String a rest =>
      if Ascii.eqb a c then EmptyString else String a (split_first c rest)
  end.

(** [sub in s] for strings. *)
Definition str_contains (sub s : string) : bool :=
  match String.index 0 sub s with
  | Some _ => true
  | None => false
  end.

(** [bool(s)] for a string: the empty string is false. *)
Definition truthy (s : string) : bool :=
  match s with
  | EmptyString => false
  | String _ _ => true
  end.

(** [bool(o)] for [o] that is [None] or a string, as [tag.get(name)]
    returns. *)
Definition truthy_opt (o : option string) : bool :=
  match o with
  | None => false
  | Some s => truthy s
  end.

End Py.

Module Path.

Definition sep : ascii := "/"%char.

(** The text after the last separator of [p] seen so far is [cur]. *)
Fixpoint after_last_sep (p cur : string) : string :=
  match p with
  | EmptyString => cur
  | String c rest =>
      if Ascii.eqb c sep then after_last_sep rest rest
      else after_last_sep rest cur
  end.

(** [os.path.basename(p)], that is [p[p.rfind('/') + 1:]]. *)
Definition basename (p : string) : string := after_last_sep p p.

(** [os.path.join(a, b)] for two components. *)
Definition join (a b : string) : string :=
  if Py.startswith b "/" then b
  else if negb (Py.truthy a) || Py.endswith a "/" then a +:+ b
  else a +:+ "/" +:+ b.

(** The text before the last separator of [p], [None] when [p] has no
    separator: the directory a file at [p] is created in. *)
Fixpoint parent (p : string) : option string :=
  match p with
  | EmptyString => None
  | String c rest =>
      match parent rest with
      | Some d => Some (String c d)
      | None => if Ascii.eqb c sep then Some EmptyString else None
      end
  end.

End Path.

(** ** Data *)

(** What [json.load] returns and [json.dump] takes.  A Python [dict] is a
    finite map: a key has at most one value.  A float is kept as its
    literal. *)
Inductive json : Type :=
  | JNull
  | JBool (b : bool)
  | JInt (n : Z)
  | JFloat (literal : string)
  | JStr (s : string)
  | JList (items : list json)
  | JDict (items : gmap string json).

(** A node of the tree [BeautifulSoup] builds: text, or a tag with its name,
    its attribute dict and its children. *)
Inductive node : Type :=
  | Text (s : string)
  | Tag (name : string) (attrs : gmap string string) (children : list node).

(** The answer to an HTTP request. *)
Record response : Type := Response {
  status_code : Z;
  content : string
}.

(** What a path names. *)
Inductive fnode : Type :=
  | Dir
  | File (data : string).

(** The exceptions the program lets through. *)
Inductive exn : Type :=
  | FileNotFoundError
  | FileExistsError
  | IsADirectoryError
  | NotADirectoryError
  | JSONDecodeError
  | TypeError
  | KeyError
  | ConnectionError.

(** One request sent: the URL and the headers. *)
Definition request : Type := string * list (string * string).

(** What the program can change or observe: the files under the working
    directory, the lines printed, the requests sent so far and the number
    of times the clock was read. *)
Record world : Type := World {
  fs : gmap string fnode;
  stdout : list string;
  network : list request;
  clock : nat
}.

#[global] Instance json_inhabited : Inhabited json := populate JNull.
#[global] Instance fnode_eq_dec : EqDecision fnode.
Proof. solve_decision. Defined.
#[global] Instance response_eq_dec : EqDecision response.
Proof. solve_decision. Defined.

(** ** The parsed document *)

(** The combinator behind an update of one tag of a forest: [j] counts tags
    in document order, and [upd] treats the tree that holds tag [j]. *)
Definition update_forest (size : node → nat) (upd : nat → node → node) :
    nat → list node → list node :=
  fix go (j : nat) (ns : list node) : list node :=
    match ns with
    | [] => []
    | c :: cs =>
        if (j <? size c)%nat then upd j c :: cs
        else c :: go (j - size c)%nat cs
    end.

Module Soup.

(** The [BeautifulSoup] object: the top-level nodes of the document. *)
Definition t : Type := list node.

(** A tag as the program sees it: its name and its attributes. *)
Abbreviation tag := (string * gmap string string)%type.

(** The tags of a tree in document order, the order of [find_all]. *)
Fixpoint tags_of (n : node) : list tag :=
  match n with
  | Text _ => []
  | Tag name attrs children => (name, attrs) :: flat_map tags_of children
  end.

Definition tags (s : t) : list tag := flat_map tags_of s.

(** A reference to a [Tag] object of the tree is its position among the
    tags in document order; the tree is the store the references point
    into. *)
Abbreviation ref := nat.

(** The positions, counted from [i], of the elements of [l] that satisfy
    [p]. *)
Fixpoint positions {A} (p : A → bool) (l : list A) (i : nat) : list nat :=
  match l with
  | [] => []
  | x :: rest =>
      if p x then i :: positions p rest (S i) else positions p rest (S i)
  end.

(** [soup.find_all(names)]: the tags named by one of [names], in document
    order. *)
Definition find_all (names : list string) (s : t) : list ref :=
  positions (λ t : tag, bool_decide (t.1 ∈ names)) (tags s) 0.

(** [soup.find(name)]: the first such tag, or [None]. *)
Definition find (name : string) (s : t) : option ref :=
  head (find_all [name] s).

(** [tag.name]. *)
Definition name (s : t) (r : ref) : option string :=
  fst <$> tags s !! r.

(** [tag.get(key)]: the value of the attribute, [None] when the tag does not
    have it. *)
Definition get (s : t) (r : ref) (key : string) : option string :=
  tags s !! r ≫= λ t, t.2 !! key.

(** [tag[key] = value] on the tag of a tree at position [i]. *)
Fixpoint set_node (key value : string) (i : nat) (n : node) : node :=
  match n with
  | Text s => Text s
  | Tag name attrs children =>
      match i with
      | O => Tag name (<[key:=value]> attrs) children
      | S j =>
          Tag name attrs
            (update_forest (λ c, length (tags_of c)) (set_node key value) j children)
      end
  end.

(** [tag[key] = value]: the tree with that one attribute of that one tag
    set. *)
Definition set (s : t) (r : ref) (key value : string) : t :=
  update_forest (λ c, length (tags_of c)) (set_node key value) r s.

End Soup.

(** ** Effects *)

(** A call returns a value or raises. *)
Inductive result (A : Type) : Type :=
  | Ok (a : A)
  | Raise (e : exn).
Arguments Ok {A} a.
Arguments Raise {A} e.

(** A computation of the program: it reads and changes the world, and what
    it did before raising stays done. *)
Definition M (A : Type) : Type := world → result A * world.

Definition raise {A} (e : exn) : M A := λ w, (Raise e, w).

#[global] Instance M_ret : MRet M := λ A a w, (Ok a, w).

#[global] Instance M_bind : MBind M := λ A B k c w,
  match c w with
  | (Ok a, w') => k a w'
  | (Raise e, w') => (Raise e, w')
  end.

Definition ret {A} (a : A) : M A := mret a.

Definition set_fs (f : gmap string fnode → gmap string fnode) (w : world) : world :=
  World (f (fs w)) (stdout w) (network w) (clock w).

Definition add_stdout (line : string) (w : world) : world :=
  World (fs w) (stdout w ++ [line]) (network w) (clock w).

Definition add_request (r : request) (w : world) : world :=
  World (fs w) (stdout w) (network w ++ [r]) (clock w).

Definition tick (w : world) : world :=
  World (fs w) (stdout w) (network w) (S (clock w)).

Module Os.

(** What [p] names: the empty path names nothing, [.] and [..] are
    directories, any other path is looked up as spelled. *)
Definition lookup (files : gmap string fnode) (p : string) : option fnode :=
  if decide (p = "") then None
  else if decide (p = "." ∨ p = "..") then Some Dir
  else files !! p.

(** [os.path.exists(p)]. *)
Definition path_exists (p : string) : M bool :=
  λ w, (Ok (bool_decide (is_Some (lookup (fs w) p))), w).

(** [os.makedirs(name)] for a name without separator, which is what the
    program passes (a basename): one [mkdir] in the working directory. *)
Definition makedirs (name : string) : M unit :=
  λ w, if decide (name = "") then (Raise FileNotFoundError, w)
       else match lookup (fs w) name with
            | Some _ => (Raise FileExistsError, w)
            | None => (Ok tt, set_fs (insert name Dir) w)
            end.

(** [with open(path, 'w' or 'wb') as file: file.write(data)]: the directory
    the file goes in must be one, the path must not name a directory, and
    the file is created or replaced. *)
Definition write_file (path data : string) : M unit :=
  λ w, if decide (path = "") then (Raise FileNotFoundError, w)
       else
         let put :=
           match lookup (fs w) path with
           | Some Dir => (Raise IsADirectoryError, w)
           | _ => (Ok tt, set_fs (insert path (File data)) w)
           end in
         match Path.parent path with
         | None | Some EmptyString => put
         | Some d =>
             match lookup (fs w) d with
             | None => (Raise FileNotFoundError, w)
             | Some (File _) => (Raise NotADirectoryError, w)
             | Some Dir => put
             end
         end.

(** [with open(path, 'r') as file: file.read()]. *)
Definition read_file (path : string) : M string :=
  λ w, match lookup (fs w) path with
       | None => (Raise FileNotFoundError, w)
       | Some Dir => (Raise IsADirectoryError, w)
       | Some (File data) => (Ok data, w)
       end.

End Os.

(** [print(line)]. *)
Definition print (line : string) : M unit :=
  λ w, (Ok tt, add_stdout line w).

(** ** The libraries

    What the program calls and does not define.  [http_get] is the remote
    side as one run sees it: the answer to a GET of a URL with given
    headers, [None] when the transport fails.  [datetime_str n] is the
    text of the clock at its [n]-th reading. *)
Class Libraries : Type := {
  validators_url : string → bool;
  http_get : string → list (string * string) → option response;
  html_parser : string → Soup.t;
  soup_str : Soup.t → string;
  urljoin : string → string → string;
  json_dumps : option nat → json → string;
  json_loads : string → option json;
  datetime_str : nat → string;
  py_str : json → string
}.

(** ** The program *)

Definition USER_AGENT_HEADER : list (string * string) :=
  [("User-Agent",
    "Mozilla/5.0 (X11; CrOS x86_64 8172.45.0) AppleWebKit/537.36 (KHTML, like Gecko) Chrome/51.0.2704.64 Safari/537.36")].

Definition METADATA_FILENAME : string := "metadata.json".

Definition POPULAR_EXTENSIONS : list string :=
  [".jpg"; ".jpeg"; ".png"; ".gif"; ".bmp"; ".svg"; ".webp"; ".mp4"; ".avi";
   ".mkv"; ".mov"; ".wmv"; ".flv"; ".webm"; ".js"; ".css"].

Definition ASSET_TAG_ATTRIBUTES : list (string * string) :=
  [("img", "src"); ("script", "src"); ("link", "href")].

(** [d[key]] for a dict literal. *)
Fixpoint dict_item (d : list (string * string)) (key : string) : option string :=
  match d with
  | [] => None
  | (k, v) :: rest => if String.eqb k key then Some v else dict_item rest key
  end.

(** [obj[key] = value] for [obj] out of [json.load] and a string key. *)
Definition setitem (obj : json) (key : string) (value : json) : M json :=
  match obj with
  | JDict d => ret (JDict (<[key:=value]> d))
  | _ => raise TypeError
  end.

(** [key in obj] for [obj] out of [json.load] and a string key. *)
Definition contains (key : string) (obj : json) : M bool :=
  match obj with
  | JDict d => ret (bool_decide (is_Some (d !! key)))
  | JList items =>
      ret (existsb (λ v, match v with JStr s => String.eqb s key | _ => false end) items)
  | JStr s => ret (Py.str_contains key s)
  | _ => raise TypeError
  end.

(** [obj[key]] for [obj] out of [json.load] and a string key. *)
Definition getitem (obj : json) (key : string) : M json :=
  match obj with
  | JDict d =>
      match d !! key with
      | Some v => ret v
      | None => raise KeyError
      end
  | _ => raise TypeError
  end.

Section Program.

Context `{Libraries}.

(** [requests.get(url, headers=headers)]. *)
Definition requests_get (url : string) (headers : list (string * string)) : M response :=
  λ w, match http_get url headers with
       | Some r => (Ok r, add_request (url, headers) w)
       | None => (Raise ConnectionError, add_request (url, headers) w)
       end.

(** [str(datetime.now())]. *)
Definition datetime_now : M string :=
  λ w, (Ok (datetime_str (clock w)), tick w).

(** [json.dump(obj, file, indent=indent)] inside [with open(path, 'w')]. *)
Definition json_dump (obj : json) (path : string) (indent : option nat) : M unit :=
  Os.write_file path (json_dumps indent obj).

(** [json.load(file)] inside [with open(path, 'r')]. *)
Definition json_load (path : string) : M json :=
  text ← Os.read_file path;
  match json_loads text with
  | Some v => ret v
  | None => raise JSONDecodeError
  end.

Definition is_valid_url (url : string) : bool := validators_url url.

Definition get_number_of_links (content : string) : Z :=
  let soup := html_parser content in
  let assets := Soup.find_all ["a"] soup in
  fold_left
    (λ count asset, if Py.truthy_opt (Soup.get soup asset "href") then count + 1 else count)
    assets 0.

(** The base URL the asset references are resolved against (lines 91, 92,
    97 and 98). *)
Definition base_url_of (url : string) (soup : Soup.t) : string :=
  let base_url := url in
  let base_tag := Soup.find "base" soup in
  match base_tag with
  | Some tag =>
      match Soup.get soup tag "href" with
      | Some href => if Py.truthy href then href else base_url
      | None => base_url
      end
  | None => base_url
  end.

(** The file name an asset URL gives (line 107). *)
Definition asset_file_name (full_url : string) : string :=
  Py.split_first "?" (Path.basename full_url).

(** One turn of the loop over the asset tags (lines 101 to 119); the soup
    is the loop's mutable object, handed from turn to turn. *)
Definition download_asset (base_url directory : string) (soup : Soup.t) (asset : Soup.ref) :
    M Soup.t :=
  match Soup.name soup asset ≫= dict_item ASSET_TAG_ATTRIBUTES with
  | None => raise KeyError
  | Some link_attribute =>
      match Soup.get soup asset link_attribute with
      | None => ret soup
      | Some asset_url =>
        if negb (Py.truthy asset_url) then ret soup
        else
        let full_url := urljoin base_url asset_url in
        let file_name := asset_file_name full_url in
        if negb (Py.endswith_any file_name POPULAR_EXTENSIONS) then ret soup
        else
          response ← requests_get full_url [];
          if negb (status_code response =? 200) then ret soup
          else
            let file_path := Path.join directory file_name in
            Os.write_file file_path (content response);;
            ret (Soup.set soup asset link_attribute file_path)
      end
  end.

(** The loop over the asset tags. *)
Fixpoint download_asset_loop (base_url directory : string) (assets : list Soup.ref)
    (soup : Soup.t) : M Soup.t :=
  match assets with
  | [] => ret soup
  | asset :: rest =>
      soup' ← download_asset base_url directory soup asset;
      download_asset_loop base_url directory rest soup'
  end.

(** The parsed document after the loop: [download_assets] up to its last
    line. *)
Definition download_assets_soup (url content : string) : M Soup.t :=
  let soup := html_parser content in
  let assets := Soup.find_all ASSET_TAG_ATTRIBUTES.*1 soup in
  let directory := Path.basename url in
  present ← Os.path_exists directory;
  (if negb present then Os.makedirs directory else ret tt);;
  download_asset_loop (base_url_of url soup) directory assets soup.

Definition download_assets (url content : string) : M string :=
  soup ← download_assets_soup url content;
  ret (soup_str soup).

Definition read_metadata_file : M json :=
  present ← Os.path_exists METADATA_FILENAME;
  (if negb present then json_dump (JDict ∅) METADATA_FILENAME None else ret tt);;
  json_load METADATA_FILENAME.

Definition store_metadata (url : string) (new_metadata : gmap string json) : M unit :=
  metadata ← read_metadata_file;
  let new_metadata := <["site":=JStr url]> new_metadata in
  now ← datetime_now;
  let new_metadata := <["last_fetch":=JStr now]> new_metadata in
  metadata ← setitem metadata url (JDict new_metadata);
  json_dump metadata METADATA_FILENAME (Some 2%nat).

(** One turn of the loop of [download] (lines 40 to 55). *)
Definition download_url (url : string) : M unit :=
  if negb (is_valid_url url) then print ("Invalid url: " +:+ url)
  else
    response ← requests_get url USER_AGENT_HEADER;
    if negb (status_code response =? 200)
    then print ("Failed to download url: " +:+ url +:+ "; Status code: "
                +:+ pretty (status_code response))
    else
      let link_count := get_number_of_links (content response) in
      content ← download_assets url (content response);
      let file_name := Path.basename url in
      Os.write_file (file_name +:+ ".html") content;;
      store_metadata file_name {["links" := JInt link_count]}.

Fixpoint download (urls : list string) : M unit :=
  match urls with
  | [] => ret tt
  | url :: rest => download_url url;; download rest
  end.

(** One turn of the loop of [fetch_metadata] (lines 166 to 171). *)
Definition fetch_metadata_url (metadata : json) (url : string) : M unit :=
  let base_url := Path.basename url in
  found ← contains base_url metadata;
  if negb found then print ("Data not found for url: " +:+ url)
  else
    record ← getitem metadata base_url;
    print (py_str record).

Fixpoint fetch_metadata_loop (metadata : json) (urls : list string) : M unit :=
  match urls with
  | [] => ret tt
  | url :: rest => fetch_metadata_url metadata url;; fetch_metadata_loop metadata rest
  end.

Definition fetch_metadata (urls : list string) : M unit :=
  metadata ← read_metadata_file;
  fetch_metadata_loop metadata urls.

(** [main] after the arguments are parsed. *)
Definition main (metadata : bool) (urls : list string) : M unit :=
  if metadata then fetch_metadata urls else download urls.

End Program.

(** ** Stand-ins for the libraries

    Small executable stand-ins, used to run the program on concrete pages.
    Each covers what the runs below need and says so: the theorems about
    the program hold for every [Libraries]. *)

Module Sample.

Definition dquote : ascii := ascii_of_nat 34.
Definition squote : ascii := ascii_of_nat 39.
Definition backslash : ascii := ascii_of_nat 92.
Definition newline : ascii := ascii_of_nat 10.

Definition quoted (q : ascii) (body : string) : string :=
  String q (body +:+ String q "").

(** *** URLs *)

(** A URL is taken as valid when it starts with an HTTP scheme and names a
    host. *)
Definition validators_url (url : string) : bool :=
  (Py.startswith url "http://" && (7 <? String.length url)%nat)
  || (Py.startswith url "https://" && (8 <? String.length url)%nat).

(** The text up to and including the last separator of [base]. *)
Definition directory_of (base : string) : string :=
  match Path.parent base with
  | Some d => d +:+ "/"
  | None => ""
  end.

(** [urljoin] on the references the runs use: a reference that carries a
    scheme is kept, any other is a relative path (without dot segments)
    and replaces the last segment of the base. *)
Definition urljoin (base url : string) : string :=
  if Py.str_contains "://" url then url else directory_of base +:+ url.

(** *** JSON *)

Fixpoint escape (s : string) : string :=
  match s with
  | EmptyString => EmptyString
  | String c rest =>
      if Ascii.eqb c dquote || Ascii.eqb c backslash
      then String backslash (String c (escape rest))
      else String c (escape rest)
  end.

(** [s[n:]]. *)
Fixpoint string_drop (n : nat) (s : string) : string :=
  match n, s with
  | S k, String _ rest => string_drop k rest
  | _, _ => s
  end.

Fixpoint spaces (n : nat) : string :=
  match n with
  | O => ""
  | S k => String " " (spaces k)
  end.

(** The items of a container between its brackets, as [json.dumps] lays
    them out at nesting depth [depth]. *)
Definition layout (indent : option nat) (depth : nat) (opening closing : string)
    (items : list string) : string :=
  match items, indent with
  | [], _ => opening +:+ closing
  | _, None => opening +:+ String.concat ", " items +:+ closing
  | _, Some k =>
      let pad n := String newline (spaces (k * n)) in
      opening +:+ pad (S depth) +:+ String.concat ("," +:+ pad (S depth)) items
      +:+ pad depth +:+ closing
  end.

(** [json.dumps(v, indent=indent)] for values whose strings are printable
    ASCII; the keys of a dict come in the order of the map. *)
Fixpoint dumps_at (indent : option nat) (depth : nat) (v : json) : string :=
  match v with
  | JNull => "null"
  | JBool b => if b then "true" else "false"
  | JInt n => pretty n
  | JFloat literal => literal
  | JStr s => quoted dquote (escape s)
  | JList items =>
      layout indent depth "[" "]" (map (dumps_at indent (S depth)) items)
  | JDict items =>
      layout indent depth "{" "}"
        (map (λ kv : string * string, quoted dquote (escape kv.1) +:+ ": " +:+ kv.2)
             (map_to_list (dumps_at indent (S depth) <$> items)))
  end.

Definition json_dumps (indent : option nat) (v : json) : string :=
  dumps_at indent 0 v.

Definition is_space (c : ascii) : bool :=
  Ascii.eqb c " " || Ascii.eqb c newline || Ascii.eqb c (ascii_of_nat 9)
  || Ascii.eqb c (ascii_of_nat 13).

Fixpoint skip_spaces (s : string) : string :=
  match s with
  | String c rest => if is_space c then skip_spaces rest else s
  | EmptyString => s
  end.

(** The body of a string literal after its opening quote, and what follows
    the closing quote. *)
Fixpoint read_string (s : string) : option (string * string) :=
  match s with
  | EmptyString => None
  | String c rest =>
      if Ascii.eqb c dquote then Some (EmptyString, rest)
      else if Ascii.eqb c backslash then
        match rest with
        | String e rest' =>
            prod_map (String e) id <$> read_string rest'
        | EmptyString => None
        end
      else prod_map (String c) id <$> read_string rest
  end.

Definition digit_of (c : ascii) : option Z :=
  let n := Z.of_nat (nat_of_ascii c) in
  if (48 <=? n) && (n <=? 57) then Some (n - 48) else None.

(** The digits at the front of [s], read as a number onto [acc]. *)
Fixpoint read_digits (acc : Z) (s : string) : Z * string :=
  match s with
  | String c rest =>
      match digit_of c with
      | Some d => read_digits (10 * acc + d) rest
      | None => (acc, s)
      end
  | EmptyString => (acc, s)
  end.

Inductive mode : Type :=
  | Value
  | Members (acc : gmap string json)
  | Elements (acc : list json).

(** [json.loads] on objects, arrays, strings, integers and the three
    literals; [fuel] bounds the steps. *)
Fixpoint parse (fuel : nat) (m : mode) (s : string) : option (json * string) :=
  match fuel with
  | O => None
  | S fuel =>
      match m, skip_spaces s with
      | Value, String c rest =>
          if Ascii.eqb c "{" then
            match skip_spaces rest with
            | String "}" rest' => Some (JDict ∅, rest')
            | _ => parse fuel (Members ∅) rest
            end
          else if Ascii.eqb c "[" then
            match skip_spaces rest with
            | String "]" rest' => Some (JList [], rest')
            | _ => parse fuel (Elements []) rest
            end
          else if Ascii.eqb c dquote then
            prod_map JStr id <$> read_string rest
          else if Ascii.eqb c "-" then
            match rest with
            | String d _ =>
                match digit_of d with
                | Some _ => Some (prod_map (λ n, JInt (- n)) id (read_digits 0 rest))
                | None => None
                end
            | EmptyString => None
            end
          else if bool_decide (is_Some (digit_of c)) then
            Some (prod_map JInt id (read_digits 0 (String c rest)))
          else if Py.startswith (String c rest) "null" then
            Some (JNull, string_drop 4 (String c rest))
          else if Py.startswith (String c rest) "true" then
            Some (JBool true, string_drop 4 (String c rest))
          else if Py.startswith (String c rest) "false" then
            Some (JBool false, string_drop 5 (String c rest))
          else None
      | Members acc, String c rest =>
          if Ascii.eqb c dquote then
            '(key, rest) ← read_string rest;
            match skip_spaces rest with
            | String ":" rest =>
                '(v, rest) ← parse fuel Value rest;
                match skip_spaces rest with
                | String "," rest => parse fuel (Members (<[key:=v]> acc)) rest
                | String "}" rest => Some (JDict (<[key:=v]> acc), rest)
                | _ => None
                end
            | _ => None
            end
          else None
      | Elements acc, rest =>
          '(v, rest) ← parse fuel Value rest;
          match skip_spaces rest with
          | String "," rest => parse fuel (Elements (acc ++ [v])) rest
          | String "]" rest => Some (JList (acc ++ [v]), rest)
          | _ => None
          end
      | _, EmptyString => None
      end
  end.

Definition json_loads (s : string) : option json :=
  '(v, rest) ← parse (S (String.length s)) Value s;
  match skip_spaces rest with
  | EmptyString => Some v
  | _ => None
  end.

(** [str(v)] for a value out of [json.load]: Python's own notation. *)
Fixpoint py_str (v : json) : string :=
  match v with
  | JNull => "None"
  | JBool b => if b then "True" else "False"
  | JInt n => pretty n
  | JFloat literal => literal
  | JStr s => quoted squote s
  | JList items => "[" +:+ String.concat ", " (map py_str items) +:+ "]"
  | JDict items =>
      "{" +:+ String.concat ", "
        (map (λ kv : string * string, quoted squote kv.1 +:+ ": " +:+ kv.2)
             (map_to_list (py_str <$> items))) +:+ "}"
  end.

(** *** HTML *)

Definition VOID_TAGS : list string :=
  ["area"; "base"; "br"; "col"; "embed"; "hr"; "img"; "input"; "link"; "meta";
   "source"; "track"; "wbr"].

Definition attrs_str (attrs : gmap string string) : string :=
  String.concat ""
    (map (λ kv : string * string, " " +:+ kv.1 +:+ "=" +:+ quoted dquote kv.2)
         (map_to_list attrs)).

(** [str(tag)] for text and attribute values that need no escaping. *)
Fixpoint node_str (n : node) : string :=
  match n with
  | Text s => s
  | Tag name attrs children =>
      match children with
      | [] =>
          if bool_decide (name ∈ VOID_TAGS)
          then "<" +:+ name +:+ attrs_str attrs +:+ "/>"
          else "<" +:+ name +:+ attrs_str attrs +:+ "></" +:+ name +:+ ">"
      | _ =>
          "<" +:+ name +:+ attrs_str attrs +:+ ">"
          +:+ String.concat "" (map node_str children)
          +:+ "</" +:+ name +:+ ">"
      end
  end.

Definition soup_str (s : Soup.t) : string := String.concat "" (map node_str s).

(** The parser, on the documents of a list [docs]: the one whose text is
    the input; any other input is a single run of text. *)
Definition html_parser (docs : list Soup.t) (markup : string) : Soup.t :=
  default [Text markup] (List.find (λ d, String.eqb (soup_str d) markup) docs).

(** *** The web and the clock *)

(** The remote side, a list [web] of URLs and their answers: any other URL
    is not found; a URL on [down] cannot be reached. *)
Definition http_get (web : list (string * response)) (down : list string)
    (url : string) (headers : list (string * string)) : option response :=
  if bool_decide (url ∈ down) then None
  else Some (default (Response 404 "Not Found") (snd <$> List.find (λ p, String.eqb p.1 url) web)).

(** The clock reads one microsecond later each time. *)
Definition datetime_str (n : nat) : string :=
  let micro := pretty (Z.of_nat n) in
  "2024-05-01 12:00:00." +:+ string_drop (String.length micro) "000000" +:+ micro.

End Sample.

Definition sample_libraries (web : list (string * response)) (down : list string)
    (docs : list Soup.t) : Libraries := {|
  validators_url := Sample.validators_url;
  http_get := Sample.http_get web down;
  html_parser := Sample.html_parser docs;
  soup_str := Sample.soup_str;
  urljoin := Sample.urljoin;
  json_dumps := Sample.json_dumps;
  json_loads := Sample.json_loads;
  datetime_str := Sample.datetime_str;
  py_str := Sample.py_str
|}.

(** ** Sample pages *)

Module Pages.

(** The page of the end-to-end scenario: one link and one image. *)
Definition page : Soup.t :=
  [Tag "html" ∅
     [Tag "body" ∅
        [Tag "a" {["href" := "https://x.com"]} [Text "x"];
         Tag "img" {["src" := "pic.png"]} []]]].

(** A page with assets of every kind of outcome: a stylesheet and a
    script that are fetched, an image with an upper-case extension, an
    image that is not found, and anchors with, without and with an empty
    [href]. *)
Definition gallery : Soup.t :=
  [Tag "html" ∅
     [Tag "head" ∅
        [Tag "link" {["href" := "style.css"]} [];
         Tag "script" {["src" := "https://cdn.example.com/lib/app.js?v=3"]} []];
      Tag "body" ∅
        [Tag "a" {["href" := "https://x.com"]} [Text "x"];
         Tag "a" ∅ [Text "nowhere"];
         Tag "a" {["href" := ""]} [Text "empty"];
         Tag "img" {["src" := "photo.JPG?v=2"]} [];
         Tag "img" {["src" := "img/gone.png"]} [];
         Tag "img" {["src" := "img/x.jpg"]} []]]].

(** A page with two [<base>] tags, the first without [href]. *)
Definition two_bases : Soup.t :=
  [Tag "html" ∅
     [Tag "head" ∅
        [Tag "base" {["target" := "_blank"]} [];
         Tag "base" {["href" := "https://cdn.example.com/"]} []];
      Tag "body" ∅ [Tag "img" {["src" := "img/x.jpg"]} []]]].

Definition docs : list Soup.t := [page; gallery; two_bases].

Definition web : list (string * response) :=
  [("https://example.com/page", Response 200 (Sample.soup_str page));
   ("https://example.com/pic.png", Response 200 "PNG");
   ("https://example.com/a/b.html", Response 200 (Sample.soup_str gallery));
   ("https://example.com/a/style.css", Response 200 "body {}");
   ("https://cdn.example.com/lib/app.js?v=3", Response 200 "run()");
   ("https://example.com/a/photo.JPG?v=2", Response 200 "JPG");
   ("https://example.com/a/img/x.jpg", Response 200 "JPG");
   ("https://example.com/a/bases.html", Response 200 (Sample.soup_str two_bases));
   ("https://example.com/", Response 200 (Sample.soup_str page));
   ("https://example.com/moved", Response 301 "")].

Definition libraries : Libraries := sample_libraries web [] docs.

(** An empty working directory, nothing printed or sent, the clock not yet
    read. *)
Definition fresh : world := World ∅ [] [] 0.

End Pages.

(** ** Notions the specification uses *)

(** The character [c] occurs in [s]. *)
Fixpoint occurs (c : ascii) (s : string) : bool :=
  match s with
  | EmptyString => false
  | String a rest => Ascii.eqb a c || occurs c rest
  end.

(** [seg] is the final path segment of [url]: what follows the last
    separator, all of [url] when it has none. *)
Definition final_segment (seg url : string) : Prop :=
  occurs "/" seg = false ∧
  (url = seg ∨ ∃ front, url = front +:+ "/" +:+ seg).

(** [name] is [s] with everything from the first [c] onward stripped. *)
Definition stripped_from (c : ascii) (name s : string) : Prop :=
  occurs c name = false ∧
  (s = name ∨ ∃ rest, s = name +:+ String c rest).

(** An anchor the link count counts: an [<a>] tag whose [href] attribute is
    present and not empty. *)
Definition counted_anchor (t : Soup.tag) : Prop :=
  t.1 = "a" ∧ ∃ href, t.2 !! "href" = Some href ∧ href ≠ "".

#[global] Instance counted_anchor_dec (t : Soup.tag) : Decision (counted_anchor t).
Proof.
  unfold counted_anchor. destruct (t.2 !! "href") as [href|].
  - destruct (decide (t.1 = "a" ∧ href ≠ "")) as [Hyes|Hno].
    + left. destruct Hyes. eauto.
    + right. intros [? (? & [= <-] & ?)]. by apply Hno.
  - right. by intros [? (? & ? & ?)].
Defined.

(** The number of counted anchors in a tree, by a walk of the tree. *)
Fixpoint anchors_in (n : node) : nat :=
  match n with
  | Text _ => 0
  | Tag name attrs children =>
      (if decide (counted_anchor (name, attrs)) then 1 else 0)
      + foldr (λ child total, anchors_in child + total) 0 children
  end%nat.

(** The number of counted anchors in a document. *)
Definition anchors_in_document (s : Soup.t) : nat :=
  foldr (λ child total, anchors_in child + total)%nat 0%nat s.

(** What [tag[key] = value] does to a tag. *)
Definition with_attr (key value : string) (t : Soup.tag) : Soup.tag :=
  (t.1, <[key:=value]> t.2).

(** The reference of an asset tag: the attribute [ASSET_TAG_ATTRIBUTES]
    gives for its name and the value of that attribute, when the tag has
    it and it is not empty. *)
Definition asset_reference (t : Soup.tag) : option (string * string) :=
  attr ← dict_item ASSET_TAG_ATTRIBUTES t.1;
  ref ← t.2 !! attr;
  if Py.truthy ref then Some (attr, ref) else None.

Section AssetNotions.

Context `{Libraries}.

(** What the program fetches for an asset tag when references are
    resolved against [base]: the attribute that holds the reference, the
    resolved URL and the file name, for a tag with a reference whose file
    name has an allowed extension. *)
Definition fetch_of (base : string) (t : Soup.tag) : option (string * string * string) :=
  '(attr, ref) ← asset_reference t;
  let full_url := urljoin base ref in
  if Py.endswith_any (asset_file_name full_url) POPULAR_EXTENSIONS
  then Some (attr, full_url, asset_file_name full_url)
  else None.

(** The plain GET of [full_url] is answered with status 200. *)
Definition answered_200 (full_url : string) : bool :=
  match http_get full_url [] with
  | Some response => status_code response =? 200
  | None => false
  end.

(** An asset tag after its turn of the loop: the reference of a tag whose
    asset was fetched with status 200 is the local path, any other tag is
    as before. *)
Definition rewrite_tag (base directory : string) (t : Soup.tag) : Soup.tag :=
  match fetch_of base t with
  | Some (attr, full_url, file_name) =>
      if answered_200 full_url then with_attr attr (Path.join directory file_name) t
      else t
  | None => t
  end.

(** The requests the loop sends for a list of asset tags, in order. *)
Definition planned_requests (base : string) (ts : list Soup.tag) : list request :=
  omap (λ t, (λ f : string * string * string, (f.1.2, [])) <$> fetch_of base t) ts.

(** The tags a list of references points to. *)
Definition tags_at (s : Soup.t) (refs : list Soup.ref) : list Soup.tag :=
  omap (λ r, Soup.tags s !! r) refs.

End AssetNotions.

(** A call returned. *)
Definition returned {A} (r : result A) : Prop :=
  match r with
  | Ok _ => True
  | Raise _ => False
  end.

(** The base URL by the rule of the first [<base>] tag: the [href] of the
    first [<base>] tag of the document when that tag has one that is not
    empty, the URL of the page otherwise. *)
Inductive first_base_rule (url : string) : list Soup.tag → string → Prop :=
  | no_base_tag tags :
      Forall (λ t : Soup.tag, t.1 ≠ "base") tags →
      first_base_rule url tags url
  | first_base_with_href front t back href :
      Forall (λ t : Soup.tag, t.1 ≠ "base") front →
      t.1 = "base" → t.2 !! "href" = Some href → href ≠ "" →
      first_base_rule url (front ++ t :: back) href
  | first_base_without_href front t back :
      Forall (λ t : Soup.tag, t.1 ≠ "base") front →
      t.1 = "base" → t.2 !! "href" = None ∨ t.2 !! "href" = Some "" →
      first_base_rule url (front ++ t :: back) url.

(** The base URL as claim C2 words it: the [href] of a [<base>] tag with a
    non-empty [href], when the document has such a tag anywhere, the URL of
    the page otherwise. *)
Inductive any_base_rule (url : string) (tags : list Soup.tag) : string → Prop :=
  | some_base_with_href t href :
      t ∈ tags → t.1 = "base" → t.2 !! "href" = Some href → href ≠ "" →
      any_base_rule url tags href
  | no_base_with_href :
      (∀ t href, t ∈ tags → t.1 = "base" → t.2 !! "href" = Some href → href = "") →
      any_base_rule url tags url.

Section StoreNotions.

Context `{Libraries}.

(** The store as [read_metadata_file] finds it in [w]: [metadata.json]
    is a file whose text [json.load] reads as [v], and the world stays as
    it is; or nothing is named [metadata.json], the file is made with the
    text of the empty dict, and [v] is what that text reads as. *)
Definition stored (w : world) (v : json) (w1 : world) : Prop :=
  (∃ text, Os.lookup (fs w) METADATA_FILENAME = Some (File text)
           ∧ json_loads text = Some v ∧ w1 = w)
  ∨ (Os.lookup (fs w) METADATA_FILENAME = None
     ∧ json_loads (json_dumps None (JDict ∅)) = Some v
     ∧ w1 = set_fs (insert METADATA_FILENAME (File (json_dumps None (JDict ∅)))) w).

(** The line metadata-display mode prints for a URL, given the store. *)
Definition report (store : gmap string json) (url : string) : string :=
  match store !! Path.basename url with
  | Some record => py_str record
  | None => "Data not found for url: " +:+ url
  end.

End StoreNotions.

(** The record the upsert stores for a page: the values passed, with
    [site] and [last_fetch] set. *)
Definition record_of (identifier timestamp : string) (values : gmap string json) : json :=
  JDict (<["last_fetch":=JStr timestamp]> (<["site":=JStr identifier]> values)).

(** The value under a key of a record. *)
Definition field (record : json) (key : string) : option json :=
  match record with
  | JDict items => items !! key
  | _ => None
  end.

(** ** Notions for the effects on files *)

(** The files [ws] written in order over [files]: a later write to a
    path replaces an earlier one. *)
Definition apply_writes (ws : list (string * string)) (files : gmap string fnode) :
    gmap string fnode :=
  foldl (λ fs pd, <[pd.1:=File pd.2]> fs) files ws.

(** The data of the last write to [path] in [ws]. *)
Fixpoint last_write (path : string) (ws : list (string * string)) : option string :=
  match ws with
  | [] => None
  | (p, data) :: rest =>
      match last_write path rest with
      | Some later => Some later
      | None => if decide (path = p) then Some data else None
      end
  end.

(** Two sets of files name the same directories. *)
Definition same_dirs (f g : gmap string fnode) : Prop :=
  ∀ path, Os.lookup f path = Some Dir ↔ Os.lookup g path = Some Dir.

Section WriteNotions.

Context `{Libraries}.

(** The file the loop writes for an asset tag: the local path and the
    body, for a tag whose asset is fetched and answered with status
    200. *)
Definition write_of (base directory : string) (t : Soup.tag) : option (string * string) :=
  match fetch_of base t with
  | Some (attr, full_url, file_name) =>
      match http_get full_url [] with
      | Some response =>
          if status_code response =? 200
          then Some (Path.join directory file_name, content response)
          else None
      | None => None
      end
  | None => None
  end.

(** The files the loop writes for a list of asset tags, in order. *)
Definition writes_of (base directory : string) (ts : list Soup.tag) :
    list (string * string) :=
  omap (write_of base directory) ts.

(** Every asset the loop fetches for the tags gets an answer. *)
Definition all_answered (base : string) (ts : list Soup.tag) : Prop :=
  ∀ t attr full_url file_name,
    t ∈ ts → fetch_of base t = Some (attr, full_url, file_name) →
    is_Some (http_get full_url []).

End WriteNotions.

(** [open(path, 'w')] can create or replace the file at [path]: the
    path is not empty and names no directory, and the directory it lies
    in is one. *)
Definition writable (files : gmap string fnode) (path : string) : Prop :=
  path ≠ ""
  ∧ Os.lookup files path ≠ Some Dir
  ∧ match Path.parent path with
    | None | Some EmptyString => True
    | Some d => Os.lookup files d = Some Dir
    end.

#[global] Instance writable_dec (files : gmap string fnode) (path : string) :
  Decision (writable files path).
Proof. unfold writable. destruct (Path.parent path) as [[|c d]|]; apply _. Defined.

(** The text and the nesting of a tree, attributes left out. *)
Fixpoint skeleton (n : node) : node :=
  match n with
  | Text s => Text s
  | Tag name _ children => Tag name ∅ (map skeleton children)
  end.

(** ** Notions for whole runs *)

(** What is there in [w] is still there in [w']: a directory is still a
    directory, a file is still a file (its content may differ), and the
    printed lines, the requests sent and the clock have only gone on. *)
Definition grows (w w' : world) : Prop :=
  (∀ path, fs w !! path = Some Dir → fs w' !! path = Some Dir)
  ∧ (∀ path data, fs w !! path = Some (File data) →
       ∃ data', fs w' !! path = Some (File data'))
  ∧ stdout w `prefix_of` stdout w'
  ∧ network w `prefix_of` network w'
  ∧ (clock w ≤ clock w')%nat.

(** A computation that, however it ends, leaves a world that [grows]
    from the one it started in. *)
Definition keeps {A} (c : M A) : Prop :=
  ∀ w res w', c w = (res, w') → grows w w'.

Section RunNotions.

Context `{Libraries}.

(** The line [download] prints for a URL (lines 41 and 46), if any. *)
Definition skip_line (url : string) : option string :=
  if negb (is_valid_url url) then Some ("Invalid url: " +:+ url)
  else
    match http_get url USER_AGENT_HEADER with
    | Some response =>
        if negb (status_code response =? 200)
        then Some ("Failed to download url: " +:+ url +:+ "; Status code: "
                   +:+ pretty (status_code response))
        else None
    | None => None
    end.

End RunNotions.

(** ** More sample data *)

Module MorePages.

(** The sample web with the page of the scenario out of reach. *)
Definition page_offline : Libraries :=
  sample_libraries Pages.web ["https://example.com/page"] Pages.docs.

(** The sample web with the image of the page out of reach. *)
Definition image_offline : Libraries :=
  sample_libraries Pages.web ["https://example.com/pic.png"] Pages.docs.

(** A working directory whose [metadata.json] holds [text]. *)
Definition with_store (text : string) : world :=
  World {[METADATA_FILENAME := File text]} [] [] 0.

(** A working directory with a regular file named [page]. *)
Definition with_file_page : world :=
  World {["page" := File "notes"]} [] [] 0.

End MorePages.

(** * Properties *)

(** ** Strings and paths *)

Lemma string_app_nil_r (s : string) : s +:+ "" = s.
Proof. induction s as [|c s IH]; [done|]. by rewrite <-IH at 2. Qed.

Lemma string_app_assoc (s t u : string) : (s +:+ t) +:+ u = s +:+ t +:+ u.
Proof. induction s as [|c s IH]; [done|]. change (String c ((s +:+ t) +:+ u) = String c (s +:+ t +:+ u)). by rewrite IH. Qed.

Lemma string_app_cons (c : ascii) (s t : string) : String c s +:+ t = String c (s +:+ t).
Proof. done. Qed.

Lemma occurs_app (c : ascii) (s t : string) :
  occurs c (s +:+ t) = occurs c s || occurs c t.
Proof.
  induction s as [|a s IH]; [done|].
  rewrite string_app_cons. simpl. rewrite IH. by rewrite orb_assoc.
Qed.

(** [endswith] is the suffix relation on strings. *)
Lemma endswith_spec (s suffix : string) :
  Py.endswith s suffix = true ↔ ∃ front, s = front +:+ suffix.
Proof.
  induction s as [|c s IH]; cbn [Py.endswith].
  - rewrite orb_false_r, String.eqb_eq. split.
    + intros <-. by exists "".
    + intros [[|a front] Hf]; [done|]. rewrite string_app_cons in Hf. discriminate.
  - rewrite orb_true_iff, String.eqb_eq, IH. split.
    + intros [<-|[front ->]]; [by exists ""|by exists (String c front)].
    + intros [[|a front] Hf]; [by left|].
      rewrite string_app_cons in Hf. injection Hf as -> ->. right. by exists front.
Qed.

Lemma endswith_any_spec (s : string) (suffixes : list string) :
  Py.endswith_any s suffixes = true ↔
  ∃ suffix front, suffix ∈ suffixes ∧ s = front +:+ suffix.
Proof.
  unfold Py.endswith_any. rewrite existsb_exists. split.
  - intros (suffix & Hin & Hs). apply endswith_spec in Hs as [front ->].
    exists suffix, front. by rewrite list_elem_of_In.
  - intros (suffix & front & Hin & ->). exists suffix.
    rewrite <-list_elem_of_In. split; [done|]. apply endswith_spec. by exists front.
Qed.

Lemma after_last_sep_spec (p cur : string) :
  (Path.after_last_sep p cur = cur ∧ occurs "/" p = false) ∨
  (occurs "/" (Path.after_last_sep p cur) = false ∧
   ∃ front, p = front +:+ "/" +:+ Path.after_last_sep p cur).
Proof.
  revert cur. induction p as [|c p IH]; intros cur; simpl; [by left|].
  unfold Path.sep. destruct (Ascii.eqb_spec c "/") as [->|Hc].
  - right. destruct (IH p) as [[-> Hno]|[Hno [front Hp]]].
    + split; [done|]. by exists "".
    + split; [done|]. exists (String "/" front). by rewrite string_app_cons, <-Hp.
  - destruct (IH cur) as [[-> Hno]|[Hno [front Hp]]].
    + by left.
    + right. split; [done|]. exists (String c front). by rewrite string_app_cons, <-Hp.
Qed.

(** [basename] gives the final path segment. *)
Lemma basename_final_segment (url : string) :
  final_segment (Path.basename url) url.
Proof.
  unfold final_segment, Path.basename.
  destruct (after_last_sep_spec url url) as [[-> Hno]|[Hno [front Hp]]].
  - split; [done|by left].
  - split; [done|]. right. by exists front.
Qed.

(** [split(c, 1)[0]] strips everything from the first [c] onward. *)
Lemma split_first_stripped (c : ascii) (s : string) :
  stripped_from c (Py.split_first c s) s.
Proof.
  unfold stripped_from. induction s as [|a s [IHno IH]]; simpl; [by split; [|left]|].
  destruct (Ascii.eqb_spec a c) as [->|Ha].
  - split; [done|]. right. by exists s.
  - simpl. split.
    + rewrite IHno. by apply Ascii.eqb_neq in Ha as ->.
    + destruct IH as [IH|[rest IH]].
      * left. by rewrite <-IH.
      * right. exists rest. by rewrite string_app_cons, <-IH.
Qed.

(** A string has one final segment. *)
Lemma final_segment_unique (seg seg' url : string) :
  final_segment seg url → final_segment seg' url → seg = seg'.
Proof.
  assert (∀ a b front, occurs "/" a = false →
            a = front +:+ String "/" b → False) as Hpure.
  { intros a b front Ha ->. rewrite occurs_app in Ha. simpl in Ha.
    by rewrite orb_true_r in Ha. }
  assert (∀ f f' a b : string, occurs "/" a = false → occurs "/" b = false →
            f +:+ String "/" a = f' +:+ String "/" b → a = b) as Hboth.
  { induction f as [|c f IH]; intros [|c' f'] a b Ha Hb Heq.
    - by injection Heq.
    - rewrite string_app_cons in Heq. injection Heq as <- Heq.
      exfalso. exact (Hpure _ _ _ Ha Heq).
    - rewrite string_app_cons in Heq. injection Heq as -> Heq.
      exfalso. exact (Hpure _ _ _ Hb (eq_sym Heq)).
    - rewrite !string_app_cons in Heq. injection Heq as _ Heq. by eapply IH. }
  intros [Hno [->|[front ->]]] [Hno' [Heq|[front' Heq]]].
  - done.
  - exfalso. exact (Hpure _ _ _ Hno Heq).
  - exfalso. exact (Hpure _ _ _ Hno' (eq_sym Heq)).
  - symmetry. by eapply Hboth.
Qed.

(** ** The parsed document *)

(** Induction on trees, with the hypothesis for every child. *)
Lemma node_forall_ind (P : node → Prop) :
  (∀ s, P (Text s)) →
  (∀ name attrs children, Forall P children → P (Tag name attrs children)) →
  ∀ n, P n.
Proof.
  intros HText HTag. fix IH 1. intros [s|name attrs children]; [apply HText|].
  apply HTag. induction children as [|c cs IHcs]; constructor; [apply IH|apply IHcs].
Qed.

Section SoupFacts.

Implicit Types (s : Soup.t) (n : node) (t : Soup.tag) (r : Soup.ref).

Lemma tags_update_forest (key value : string) (ns : list node) :
  Forall (λ n, ∀ i, Soup.tags_of (Soup.set_node key value i n)
                    = alter (with_attr key value) i (Soup.tags_of n)) ns →
  ∀ j, flat_map Soup.tags_of
         (update_forest (λ c, length (Soup.tags_of c)) (Soup.set_node key value) j ns)
       = alter (with_attr key value) j (flat_map Soup.tags_of ns).
Proof.
  induction 1 as [|c cs Hc _ IH]; intros j; simpl; [done|].
  destruct (Nat.ltb_spec j (length (Soup.tags_of c))) as [Hlt|Hge]; simpl.
  - by rewrite Hc, alter_app_l.
  - by rewrite IH, alter_app_r_alt.
Qed.

Lemma tags_set_node (key value : string) n i :
  Soup.tags_of (Soup.set_node key value i n)
  = alter (with_attr key value) i (Soup.tags_of n).
Proof.
  revert i. induction n as [s|name attrs children IH] using node_forall_ind;
    intros [|j]; simpl; try done.
  f_equal. by apply tags_update_forest.
Qed.

(** Setting an attribute of the tag at [r] changes that tag and no other:
    the tags of the document stay in place. *)
Lemma tags_set s r (key value : string) :
  Soup.tags (Soup.set s r key value) = alter (with_attr key value) r (Soup.tags s).
Proof.
  unfold Soup.set, Soup.tags. apply tags_update_forest.
  apply Forall_forall. intros n _ i. apply tags_set_node.
Qed.

Lemma tags_set_ne s r r' (key value : string) :
  r ≠ r' → Soup.tags (Soup.set s r key value) !! r' = Soup.tags s !! r'.
Proof. intros Hne. rewrite tags_set. by apply list_lookup_alter_ne. Qed.

Lemma tags_set_eq s r (key value : string) :
  Soup.tags (Soup.set s r key value) !! r = with_attr key value <$> Soup.tags s !! r.
Proof. rewrite tags_set. apply list_lookup_alter_eq. Qed.

(** [positions] lists, in increasing order, the places of the elements that
    satisfy the test. *)
Lemma elem_of_positions {A} (p : A → bool) (l : list A) (i j : nat) :
  j ∈ Soup.positions p l i ↔ (i ≤ j)%nat ∧ ∃ x, l !! (j - i)%nat = Some x ∧ p x = true.
Proof.
  revert i. induction l as [|x l IH]; intros i; simpl.
  - rewrite elem_of_nil. split; [done|]. by intros [_ (? & ? & _)].
  - assert (j ∈ Soup.positions p l (S i) ↔
            (i < j)%nat ∧ ∃ y, (x :: l) !! (j - i)%nat = Some y ∧ p y = true) as Htail.
    { rewrite IH. split.
      - intros [Hle (y & Hy & Hp)]. split; [lia|]. exists y. split; [|done].
        replace (j - i)%nat with (S (j - S i)) by lia. done.
      - intros [Hlt (y & Hy & Hp)]. split; [lia|]. exists y. split; [|done].
        replace (j - i)%nat with (S (j - S i)) in Hy by lia. done. }
    destruct (p x) eqn:Hpx.
    + rewrite elem_of_cons, Htail. split.
      * intros [->|[Hlt Hex]]; [|split; [lia|done]].
        split; [done|]. exists x. by rewrite Nat.sub_diag.
      * intros [Hle (y & Hy & Hp)]. destruct (decide (j = i)) as [->|Hne]; [by left|].
        right. split; [lia|]. eauto.
    + rewrite Htail. split.
      * intros [Hlt Hex]. split; [lia|done].
      * intros [Hle (y & Hy & Hp)]. destruct (decide (j = i)) as [->|Hne].
        -- rewrite Nat.sub_diag in Hy. simpl in Hy. congruence.
        -- split; [lia|]. eauto.
Qed.

Lemma NoDup_positions {A} (p : A → bool) (l : list A) (i : nat) :
  NoDup (Soup.positions p l i).
Proof.
  revert i. induction l as [|x l IH]; intros i; simpl; [constructor|].
  destruct (p x); [|apply IH]. constructor; [|apply IH].
  rewrite elem_of_positions. lia.
Qed.

(** [find_all] returns the tags with one of the names, each once. *)
Lemma elem_of_find_all (names : list string) s r :
  r ∈ Soup.find_all names s ↔ ∃ t, Soup.tags s !! r = Some t ∧ t.1 ∈ names.
Proof.
  unfold Soup.find_all. rewrite elem_of_positions, Nat.sub_0_r. split.
  - intros [_ (t & Ht & Hp)]. exists t. split; [done|]. by apply bool_decide_eq_true in Hp.
  - intros (t & Ht & Hin). split; [lia|]. exists t. split; [done|].
    by apply bool_decide_eq_true.
Qed.

Lemma NoDup_find_all (names : list string) s : NoDup (Soup.find_all names s).
Proof. apply NoDup_positions. Qed.

(** The first position is the first element that satisfies the test. *)
Lemma head_positions {A} (p : A → bool) (l : list A) (i : nat) :
  match head (Soup.positions p l i) with
  | Some j => ∃ front x back, l = front ++ x :: back ∧ j = (i + length front)%nat
                ∧ p x = true ∧ Forall (λ y, p y = false) front
  | None => Forall (λ y, p y = false) l
  end.
Proof.
  revert i. induction l as [|x l IH]; intros i; simpl; [constructor|].
  destruct (p x) eqn:Hpx; simpl.
  - exists [], x, l. simpl. repeat split; [lia|done|constructor].
  - specialize (IH (S i)). destruct (head (Soup.positions p l (S i))) as [j|].
    + destruct IH as (front & y & back & -> & -> & Hy & Hfront).
      exists (x :: front), y, back. simpl. repeat split; [lia|done|by constructor].
    + by constructor.
Qed.

(** The tags of a tree hold as many counted anchors as the walk finds. *)
Lemma anchors_in_tags n :
  length (filter counted_anchor (Soup.tags_of n)) = anchors_in n.
Proof.
  induction n as [s|name attrs children IH] using node_forall_ind; simpl; [done|].
  rewrite filter_cons.
  assert (length (filter counted_anchor (flat_map Soup.tags_of children))
          = foldr (λ child total, anchors_in child + total)%nat 0%nat children) as <-.
  { induction IH as [|c cs Hc _ IHcs]; simpl; [done|].
    by rewrite filter_app, length_app, Hc, IHcs. }
  by destruct (decide (counted_anchor (name, attrs))).
Qed.

Lemma anchors_in_document_tags s :
  length (filter counted_anchor (Soup.tags s)) = anchors_in_document s.
Proof.
  unfold Soup.tags, anchors_in_document. induction s as [|n s IH]; simpl; [done|].
  by rewrite filter_app, length_app, anchors_in_tags, IH.
Qed.

End SoupFacts.

(** ** Running the program *)

Lemma bind_run {A B} (c : M A) (k : A → M B) (w : world) :
  (c ≫= k) w = match c w with
               | (Ok a, w') => k a w'
               | (Raise e, w') => (Raise e, w')
               end.
Proof. done. Qed.

Lemma bind_ok {A B} (c : M A) (k : A → M B) (w w' : world) (a : A) :
  c w = (Ok a, w') → (c ≫= k) w = k a w'.
Proof. intros Hc. by rewrite bind_run, Hc. Qed.

Lemma bind_raise {A B} (c : M A) (k : A → M B) (w w' : world) (e : exn) :
  c w = (Raise e, w') → (c ≫= k) w = (Raise e, w').
Proof. intros Hc. by rewrite bind_run, Hc. Qed.

Section Download.

Context `{Libraries}.

(** C8. A URL the validator rejects is reported and skipped: the turn of
    the loop sends no request and touches no file, it prints the
    [Invalid url] line, and [download] goes on with the URLs that follow. *)
Theorem invalid_url_is_reported_and_skipped (url : string) (rest : list string) (w : world) :
  is_valid_url url = false →
  ∃ w', download_url url w = (Ok tt, w')
        ∧ network w' = network w
        ∧ fs w' = fs w
        ∧ clock w' = clock w
        ∧ stdout w' = stdout w ++ ["Invalid url: " +:+ url]
        ∧ download (url :: rest) w = download rest w'.
Proof.
  intros Hinvalid. exists (add_stdout ("Invalid url: " +:+ url) w).
  assert (download_url url w = (Ok tt, add_stdout ("Invalid url: " +:+ url) w)) as Hturn.
  { unfold download_url. by rewrite Hinvalid. }
  repeat split; try done.
  cbn [download]. by rewrite (bind_ok _ _ _ _ _ Hturn).
Qed.

(** C7. A page whose fetch answers with a status other than 200 is
    skipped: the turn of the loop sends the one request, prints the
    [Failed to download] line with the status, leaves every file as it was
    (so no HTML file, no asset directory and no metadata record for the
    page), and [download] goes on with the URLs that follow. *)
Theorem failed_page_is_reported_and_skipped (url : string) (rest : list string)
    (w : world) (response : response) :
  is_valid_url url = true →
  http_get url USER_AGENT_HEADER = Some response →
  status_code response ≠ 200 →
  ∃ w', download_url url w = (Ok tt, w')
        ∧ fs w' = fs w
        ∧ Os.lookup (fs w') (Path.basename url +:+ ".html")
          = Os.lookup (fs w) (Path.basename url +:+ ".html")
        ∧ Os.lookup (fs w') (Path.basename url) = Os.lookup (fs w) (Path.basename url)
        ∧ Os.lookup (fs w') METADATA_FILENAME = Os.lookup (fs w) METADATA_FILENAME
        ∧ network w' = network w ++ [(url, USER_AGENT_HEADER)]
        ∧ clock w' = clock w
        ∧ stdout w' = stdout w ++ ["Failed to download url: " +:+ url +:+ "; Status code: "
                                    +:+ pretty (status_code response)]
        ∧ download (url :: rest) w = download rest w'.
Proof.
  intros Hvalid Hget Hstatus.
  set (line := "Failed to download url: " +:+ url +:+ "; Status code: "
               +:+ pretty (status_code response)).
  exists (add_stdout line (add_request (url, USER_AGENT_HEADER) w)).
  assert (download_url url w
          = (Ok tt, add_stdout line (add_request (url, USER_AGENT_HEADER) w))) as Hturn.
  { unfold download_url. rewrite Hvalid. cbn [negb].
    rewrite bind_run. unfold requests_get. rewrite Hget.
    by apply Z.eqb_neq in Hstatus as ->. }
  repeat split; try done.
  cbn [download]. by rewrite (bind_ok _ _ _ _ _ Hturn).
Qed.

End Download.

(** ** Counting links *)

Section Links.

Context `{Libraries}.

Lemma truthy_nonempty (s : string) : Py.truthy s = true ↔ s ≠ "".
Proof. by destruct s. Qed.

Lemma counted_anchor_test (t : Soup.tag) :
  counted_anchor t ↔ t.1 ∈ ["a"] ∧ Py.truthy_opt (t.2 !! "href") = true.
Proof.
  unfold counted_anchor. rewrite list_elem_of_singleton. split.
  - intros [Hname (href & -> & Hne)]. split; [done|]. by apply truthy_nonempty.
  - intros [Hname Hhref]. split; [done|].
    destruct (t.2 !! "href") as [href|]; [|done].
    exists href. split; [done|]. by apply truthy_nonempty.
Qed.

(** The loop of [get_number_of_links] over the anchors at and after a
    place in the document adds the counted anchors found there. *)
Lemma count_loop (s : Soup.t) (l front : list Soup.tag) (acc : Z) :
  Soup.tags s = front ++ l →
  fold_left
    (λ count asset, if Py.truthy_opt (Soup.get s asset "href") then count + 1 else count)
    (Soup.positions (λ t : Soup.tag, bool_decide (t.1 ∈ ["a"])) l (length front)) acc
  = acc + Z.of_nat (length (filter counted_anchor l)).
Proof.
  revert front acc. induction l as [|x l IH]; intros front acc Htags; simpl; [lia|].
  assert (Soup.tags s = (front ++ [x]) ++ l) as Htags' by by rewrite <-app_assoc.
  specialize (IH (front ++ [x])). rewrite length_app in IH. simpl in IH.
  replace (length front + 1)%nat with (S (length front)) in IH by lia.
  rewrite filter_cons.
  destruct (bool_decide (x.1 ∈ ["a"])) eqn:Hname.
  - apply bool_decide_eq_true in Hname. simpl. rewrite IH by done.
    assert (Soup.get s (length front) "href" = x.2 !! "href") as ->.
    { unfold Soup.get. rewrite Htags, list_lookup_middle by done. done. }
    destruct (Py.truthy_opt (x.2 !! "href")) eqn:Hhref.
    + rewrite decide_True by by apply counted_anchor_test. simpl. lia.
    + rewrite decide_False; [done|]. rewrite counted_anchor_test. intros [_ ?]. congruence.
  - apply bool_decide_eq_false in Hname. rewrite IH by done.
    rewrite decide_False; [done|]. rewrite counted_anchor_test. by intros [? _].
Qed.

(** C6. The link count of a page is the number of [<a>] tags of the parsed
    document, anywhere in the tree, whose [href] is present and not
    empty: anchors without the attribute, or with the empty string for
    it, add nothing. *)
Theorem link_count_is_number_of_counted_anchors (content : string) :
  get_number_of_links content = Z.of_nat (anchors_in_document (html_parser content)).
Proof.
  unfold get_number_of_links, Soup.find_all.
  rewrite (count_loop (html_parser content) (Soup.tags (html_parser content)) [] 0) by done.
  by rewrite anchors_in_document_tags.
Qed.

End Links.

(** ** The loop over the asset tags *)

Lemma dict_item_is_Some (d : list (string * string)) (key : string) :
  key ∈ d.*1 → is_Some (dict_item d key).
Proof.
  induction d as [|[k v] d IH]; simpl; [by intros ?%elem_of_nil|].
  intros [->|Hin]%elem_of_cons.
  - cbn [dict_item]. rewrite String.eqb_refl. by eexists.
  - cbn [dict_item]. destruct (String.eqb k key); [by eexists|by apply IH].
Qed.

Lemma dict_item_elem_of (d : list (string * string)) (key value : string) :
  dict_item d key = Some value → key ∈ d.*1.
Proof.
  induction d as [|[k v] d IH]; [done|]. cbn [dict_item].
  destruct (String.eqb_spec k key) as [->|Hne]; intros Hitem.
  - by left.
  - right. by apply IH.
Qed.

Section Assets.

Context `{Libraries}.

#[local] Arguments dict_item : simpl never.
#[local] Arguments Py.endswith_any : simpl never.
#[local] Arguments asset_file_name : simpl never.
#[local] Arguments Path.join : simpl never.

Lemma write_file_cases (path data : string) (w : world) :
  Os.write_file path data w = (Ok tt, set_fs (insert path (File data)) w)
  ∨ ∃ e, Os.write_file path data w = (Raise e, w).
Proof.
  unfold Os.write_file. destruct (decide (path = "")); [by eauto|].
  assert (match Os.lookup (fs w) path with
          | Some Dir => (Raise IsADirectoryError, w)
          | _ => (Ok tt, set_fs (insert path (File data)) w)
          end = (Ok tt, set_fs (insert path (File data)) w)
          ∨ ∃ e, match Os.lookup (fs w) path with
                 | Some Dir => (Raise IsADirectoryError, w)
                 | _ => (Ok tt, set_fs (insert path (File data)) w)
                 end = (Raise e, w)) as Hput.
  { destruct (Os.lookup (fs w) path) as [[|?]|]; eauto. }
  destruct (Path.parent path) as [[|c d]|]; [done| |done].
  destruct (Os.lookup (fs w) (String c d)) as [[|?]|]; eauto.
Qed.

(** One turn of the loop, by what the tag at hand asks for. *)
Lemma download_asset_run (base directory : string) (cur : Soup.t) (asset : Soup.ref)
    (t : Soup.tag) (w : world) :
  Soup.tags cur !! asset = Some t →
  is_Some (dict_item ASSET_TAG_ATTRIBUTES t.1) →
  download_asset base directory cur asset w =
    match fetch_of base t with
    | None => (Ok cur, w)
    | Some (attr, full_url, file_name) =>
        match http_get full_url [] with
        | None => (Raise ConnectionError, add_request (full_url, []) w)
        | Some response =>
            if status_code response =? 200 then
              match Os.write_file (Path.join directory file_name) (content response)
                      (add_request (full_url, []) w) with
              | (Ok _, w') =>
                  (Ok (Soup.set cur asset attr (Path.join directory file_name)), w')
              | (Raise e, w') => (Raise e, w')
              end
            else (Ok cur, add_request (full_url, []) w)
        end
    end.
Proof.
  intros Ht [attr Hattr]. unfold download_asset, fetch_of, asset_reference.
  unfold Soup.name, Soup.get. rewrite Ht. simpl. rewrite Hattr. simpl.
  destruct (t.2 !! attr) as [ref|]; simpl; [|done].
  destruct (Py.truthy ref); simpl; [|done].
  destruct (Py.endswith_any _ _); simpl; [|done].
  rewrite bind_run. unfold requests_get.
  destruct (http_get (urljoin base ref) []) as [response|]; [|done].
  destruct (status_code response =? 200); simpl; [|done].
  rewrite bind_run. by destruct (Os.write_file _ _ _) as [[[]|e] w'].
Qed.

Lemma omap_cons_match {A B} (f : A → option B) (x : A) (l : list A) :
  omap f (x :: l) = match f x with
                    | Some y => y :: omap f l
                    | None => omap f l
                    end.
Proof. done. Qed.

Lemma tags_at_cons (cur : Soup.t) (r : Soup.ref) (rest : list Soup.ref) (t : Soup.tag) :
  Soup.tags cur !! r = Some t → tags_at cur (r :: rest) = t :: tags_at cur rest.
Proof. intros Ht. unfold tags_at. by rewrite omap_cons_match, Ht. Qed.

Lemma tags_at_set (cur : Soup.t) (r : Soup.ref) (key value : string) (rest : list Soup.ref) :
  r ∉ rest → tags_at (Soup.set cur r key value) rest = tags_at cur rest.
Proof.
  unfold tags_at. induction rest as [|r' rest IH]; intros Hnotin; [done|].
  apply not_elem_of_cons in Hnotin as [Hne Hnotin].
  by rewrite !omap_cons_match, tags_set_ne, IH.
Qed.

Lemma planned_requests_cons (base : string) (t : Soup.tag) (ts : list Soup.tag) :
  planned_requests base (t :: ts) =
    match fetch_of base t with
    | Some f => (f.1.2, []) :: planned_requests base ts
    | None => planned_requests base ts
    end.
Proof. unfold planned_requests. rewrite omap_cons_match. by destruct (fetch_of base t). Qed.

(** What a run of the loop does, whether it ends or raises: it prints
    nothing and does not read the clock; the requests it sends are the
    planned ones, in order, all of them when it ends; a path is as before
    or holds the body fetched for an asset of that file name; and when it
    ends each tag is as [rewrite_tag] says. *)
Lemma download_asset_loop_run (base directory : string) (assets : list Soup.ref) :
  ∀ (cur : Soup.t) (w : world) (res : result Soup.t) (w' : world),
  NoDup assets →
  (∀ r, r ∈ assets →
        ∃ t, Soup.tags cur !! r = Some t ∧ is_Some (dict_item ASSET_TAG_ATTRIBUTES t.1)) →
  download_asset_loop base directory assets cur w = (res, w') →
  stdout w' = stdout w
  ∧ clock w' = clock w
  ∧ (∃ new, network w' = network w ++ new
            ∧ new `prefix_of` planned_requests base (tags_at cur assets)
            ∧ (returned res → new = planned_requests base (tags_at cur assets)))
  ∧ (∀ path, fs w' !! path = fs w !! path
             ∨ ∃ r t attr full_url file_name response,
                 r ∈ assets ∧ Soup.tags cur !! r = Some t
                 ∧ fetch_of base t = Some (attr, full_url, file_name)
                 ∧ http_get full_url [] = Some response
                 ∧ status_code response = 200
                 ∧ path = Path.join directory file_name
                 ∧ fs w' !! path = Some (File (content response)))
  ∧ (∀ soup', res = Ok soup' →
       ∀ i, Soup.tags soup' !! i =
            if decide (i ∈ assets) then rewrite_tag base directory <$> Soup.tags cur !! i
            else Soup.tags cur !! i).
Proof.
  induction assets as [|r0 rest IH]; intros cur w res w' Hnodup Htags Hrun.
  { cbn in Hrun. injection Hrun as <- <-. split_and!; try done.
    - exists []. by rewrite app_nil_r.
    - by left.
    - intros soup' [= <-] i. rewrite decide_False; [done|]. apply not_elem_of_nil. }
  apply NoDup_cons in Hnodup as [Hfresh Hnodup].
  destruct (Htags r0) as (t0 & Ht0 & Hattr0); [by left|].
  assert (∀ r, r ∈ rest → ∃ t, Soup.tags cur !! r = Some t
            ∧ is_Some (dict_item ASSET_TAG_ATTRIBUTES t.1)) as Htags_rest.
  { intros r Hr. apply Htags. by right. }
  cbn [download_asset_loop] in Hrun. rewrite bind_run in Hrun.
  rewrite (download_asset_run _ _ _ _ _ _ Ht0 Hattr0) in Hrun.
  rewrite (tags_at_cons _ _ _ _ Ht0), planned_requests_cons.
  (* what the rest of the loop gives when this turn leaves the soup as it is *)
  assert (∀ w1 sent, download_asset_loop base directory rest cur w1 = (res, w') →
            stdout w1 = stdout w → clock w1 = clock w → fs w1 = fs w →
            network w1 = network w ++ sent →
            rewrite_tag base directory t0 = t0 →
            stdout w' = stdout w ∧ clock w' = clock w
            ∧ (∃ new, network w' = network w ++ new
                 ∧ new `prefix_of` sent ++ planned_requests base (tags_at cur rest)
                 ∧ (returned res → new = sent ++ planned_requests base (tags_at cur rest)))
            ∧ (∀ path, fs w' !! path = fs w !! path
                 ∨ ∃ r t attr full_url file_name response,
                     r ∈ r0 :: rest ∧ Soup.tags cur !! r = Some t
                     ∧ fetch_of base t = Some (attr, full_url, file_name)
                     ∧ http_get full_url [] = Some response
                     ∧ status_code response = 200
                     ∧ path = Path.join directory file_name
                     ∧ fs w' !! path = Some (File (content response)))
            ∧ (∀ soup', res = Ok soup' →
                 ∀ i, Soup.tags soup' !! i =
                      if decide (i ∈ r0 :: rest)
                      then rewrite_tag base directory <$> Soup.tags cur !! i
                      else Soup.tags cur !! i)) as Hskip.
  { intros w1 sent Hrest Hout Hclock Hfs Hnet Hsame.
    destruct (IH cur w1 res w' Hnodup Htags_rest Hrest)
      as (Hout' & Hclock' & (new & Hnew & Hprefix & Hall) & Hfiles & Hsoup).
    split_and!.
    - congruence.
    - congruence.
    - exists (sent ++ new). split_and!.
      + by rewrite Hnew, Hnet, app_assoc.
      + by apply prefix_app.
      + intros Hres. by rewrite Hall.
    - intros path. destruct (Hfiles path) as [Hsamefile|Hwritten].
      + left. by rewrite Hsamefile, Hfs.
      + right. destruct Hwritten as (r & t & attr & full & name & resp & Hr & Hrest').
        exists r, t, attr, full, name, resp. split; [by right|done].
    - intros soup' Hok i. rewrite (Hsoup soup' Hok i).
      destruct (decide (i = r0)) as [->|Hne].
      + rewrite decide_False by done. rewrite decide_True by by left.
        rewrite Ht0. simpl. by rewrite Hsame.
      + destruct (decide (i ∈ rest)) as [Hin|Hnotin].
        * by rewrite decide_True by by right.
        * rewrite decide_False; [done|]. by intros [?|?]%elem_of_cons. }
  unfold rewrite_tag in Hskip.
  destruct (fetch_of base t0) as [[[attr full_url] file_name]|] eqn:Hfetch.
  2:{ destruct (Hskip w []) as (? & ? & (new & ? & ? & ?) & ? & ?);
        [done|done|done|done|by rewrite app_nil_r|done|].
      split_and!; try done. by exists new. }
  unfold answered_200 in Hskip. cbn [fst snd].
  destruct (http_get full_url []) as [response|] eqn:Hget.
  2:{ injection Hrun as <- <-. split_and!; try done.
      - exists [(full_url, [])]. split_and!; [done| |done].
        apply prefix_cons, prefix_nil.
      - by left. }
  destruct (status_code response =? 200) eqn:Hstatus.
  2:{ destruct (Hskip (add_request (full_url, []) w) [(full_url, [])])
        as (? & ? & (new & ? & ? & ?) & ? & ?); try done.
      split_and!; try done. by exists new. }
  apply Z.eqb_eq in Hstatus.
  destruct (write_file_cases (Path.join directory file_name) (content response)
              (add_request (full_url, []) w)) as [Hwrite|[e Hwrite]];
    rewrite Hwrite in Hrun.
  2:{ injection Hrun as <- <-. split_and!; try done.
      - exists [(full_url, [])]. split_and!; [done| |done].
        apply prefix_cons, prefix_nil.
      - by left. }
  clear Hskip.
  set (path0 := Path.join directory file_name) in *.
  set (cur' := Soup.set cur r0 attr path0) in *.
  set (w1 := set_fs (insert path0 (File (content response))) (add_request (full_url, []) w)) in *.
  assert (∀ r, r ∈ rest → ∃ t, Soup.tags cur' !! r = Some t
            ∧ is_Some (dict_item ASSET_TAG_ATTRIBUTES t.1)) as Htags'.
  { intros r Hr. unfold cur'. rewrite tags_set_ne; [by apply Htags_rest|].
    intros ->. done. }
  destruct (IH cur' w1 res w' Hnodup Htags' Hrun)
    as (Hout' & Hclock' & (new & Hnew & Hprefix & Hall) & Hfiles & Hsoup).
  unfold cur' in Hprefix, Hall. rewrite tags_at_set in Hprefix, Hall by done.
  split_and!.
  - done.
  - done.
  - exists ((full_url, []) :: new). split_and!.
    + rewrite Hnew. unfold w1. simpl. by rewrite <-app_assoc.
    + by apply prefix_cons.
    + intros Hres. by rewrite Hall.
  - intros path. destruct (Hfiles path) as [Hsamefile|Hwritten].
    + destruct (decide (path = path0)) as [->|Hne].
      * right. exists r0, t0, attr, full_url, file_name, response.
        split_and!; try done; [by left|].
        rewrite Hsamefile. unfold w1. simpl. by rewrite lookup_insert_eq.
      * left. rewrite Hsamefile. unfold w1. simpl. by rewrite lookup_insert_ne.
    + right. destruct Hwritten as (r & t & attr' & full & name & resp & Hr & Ht & Hrest').
      exists r, t, attr', full, name, resp. split; [by right|]. split; [|done].
      rewrite <-Ht. unfold cur'. symmetry. apply tags_set_ne. by intros ->.
  - intros soup' Hok i. rewrite (Hsoup soup' Hok i).
    destruct (decide (i = r0)) as [->|Hne].
    + rewrite decide_False by done. rewrite decide_True by by left.
      unfold cur'. rewrite tags_set_eq, Ht0. simpl. f_equal.
      unfold rewrite_tag, answered_200. rewrite Hfetch, Hget.
      by apply Z.eqb_eq in Hstatus as ->.
    + unfold cur'. rewrite tags_set_ne by done.
      destruct (decide (i ∈ rest)) as [Hin|Hnotin].
      * by rewrite decide_True by by right.
      * rewrite decide_False; [done|]. by intros [?|?]%elem_of_cons.
Qed.

End Assets.

(** ** [download_assets] as a whole *)

Section AssetsRun.

Context `{Libraries}.

#[local] Arguments dict_item : simpl never.
#[local] Arguments Py.endswith_any : simpl never.
#[local] Arguments asset_file_name : simpl never.
#[local] Arguments Path.join : simpl never.
#[local] Arguments Path.basename : simpl never.

(** The tags [find_all] returns, in its order, are the tags of the
    document with one of the names, in document order. *)
Lemma tags_at_positions (s : Soup.t) (names : list string) (l front : list Soup.tag) :
  Soup.tags s = front ++ l →
  tags_at s (Soup.positions (λ t : Soup.tag, bool_decide (t.1 ∈ names)) l (length front))
  = filter (λ t : Soup.tag, t.1 ∈ names) l.
Proof.
  revert front. induction l as [|x l IH]; intros front Htags; [done|].
  assert (Soup.tags s = (front ++ [x]) ++ l) as Htags' by by rewrite <-app_assoc.
  specialize (IH (front ++ [x]) Htags'). rewrite length_app in IH. simpl in IH.
  replace (length front + 1)%nat with (S (length front)) in IH by lia.
  cbn [Soup.positions]. rewrite filter_cons.
  destruct (decide (x.1 ∈ names)) as [Hin|Hnotin].
  - rewrite bool_decide_eq_true_2 by done.
    rewrite (tags_at_cons _ _ _ x), IH; [done|].
    rewrite Htags. by apply list_lookup_middle.
  - by rewrite bool_decide_eq_false_2.
Qed.

Lemma tags_at_find_all (s : Soup.t) (names : list string) :
  tags_at s (Soup.find_all names s) = filter (λ t : Soup.tag, t.1 ∈ names) (Soup.tags s).
Proof. by apply (tags_at_positions s names (Soup.tags s) []). Qed.

(** The asset tags of a document, in document order. *)
Lemma asset_tags_found (s : Soup.t) (r : Soup.ref) :
  r ∈ Soup.find_all ASSET_TAG_ATTRIBUTES.*1 s →
  ∃ t, Soup.tags s !! r = Some t ∧ is_Some (dict_item ASSET_TAG_ATTRIBUTES t.1).
Proof.
  intros (t & Ht & Hname)%elem_of_find_all. exists t. split; [done|].
  by apply dict_item_is_Some.
Qed.

(** [download_assets] up to its loop: an empty directory name raises
    before anything is done; otherwise the directory is there when the
    loop starts, made now unless it was there before. *)
Lemma download_assets_soup_run (url body : string) (w : world)
    (res : result Soup.t) (w' : world) :
  download_assets_soup url body w = (res, w') →
  (Path.basename url = "" ∧ res = Raise FileNotFoundError ∧ w' = w)
  ∨ (Path.basename url ≠ ""
     ∧ ∃ w1, ((is_Some (Os.lookup (fs w) (Path.basename url)) ∧ w1 = w)
              ∨ (Os.lookup (fs w) (Path.basename url) = None
                 ∧ w1 = set_fs (insert (Path.basename url) Dir) w))
             ∧ download_asset_loop (base_url_of url (html_parser body)) (Path.basename url)
                 (Soup.find_all ASSET_TAG_ATTRIBUTES.*1 (html_parser body))
                 (html_parser body) w1 = (res, w')).
Proof.
  unfold download_assets_soup. rewrite bind_run. unfold Os.path_exists.
  destruct (decide (is_Some (Os.lookup (fs w) (Path.basename url)))) as [Hsome|Hnone].
  - rewrite bool_decide_eq_true_2 by done. cbn [negb]. rewrite bind_run.
    intros Hloop. right. split.
    + intros Hempty. rewrite Hempty in Hsome. by destruct Hsome.
    + exists w. split; [by left|done].
  - rewrite bool_decide_eq_false_2 by done. cbn [negb]. rewrite bind_run.
    unfold Os.makedirs. apply eq_None_not_Some in Hnone.
    destruct (decide (Path.basename url = "")) as [Hempty|Hnamed].
    + intros [= <- <-]. by left.
    + rewrite Hnone. intros Hloop. right. split; [done|].
      eexists. split; [right; by split|done].
Qed.

(** A tag that is not an asset tag, or has no reference, is not rewritten. *)
Lemma rewrite_tag_other (base directory : string) (t : Soup.tag) :
  asset_reference t = None → rewrite_tag base directory t = t.
Proof. intros Hnone. unfold rewrite_tag, fetch_of. by rewrite Hnone. Qed.

Lemma asset_reference_is_asset (t : Soup.tag) (attr ref : string) :
  asset_reference t = Some (attr, ref) →
  dict_item ASSET_TAG_ATTRIBUTES t.1 = Some attr ∧ t.2 !! attr = Some ref ∧ ref ≠ "".
Proof.
  unfold asset_reference. destruct (dict_item ASSET_TAG_ATTRIBUTES t.1) as [a|]; [|done].
  simpl. destruct (t.2 !! a) as [r|] eqn:Hr; [|done]. simpl.
  destruct (Py.truthy r) eqn:Htruthy; [|done]. intros [= <- <-].
  split_and!; [done|done|]. by destruct r.
Qed.

Lemma fetch_of_reference (base : string) (t : Soup.tag) (attr full_url file_name : string) :
  fetch_of base t = Some (attr, full_url, file_name) →
  ∃ ref, asset_reference t = Some (attr, ref)
         ∧ full_url = urljoin base ref
         ∧ file_name = asset_file_name full_url
         ∧ Py.endswith_any file_name POPULAR_EXTENSIONS = true.
Proof.
  unfold fetch_of. destruct (asset_reference t) as [[a ref]|]; [|done]. simpl.
  destruct (Py.endswith_any _ _) eqn:Hext; [|done]. intros [= <- <- <-]. by exists ref.
Qed.

(** What a run of [download_assets] does up to its last line, whether it
    ends or raises. *)
Lemma download_assets_soup_facts (url body : string) (w : world)
    (res : result Soup.t) (w' : world) :
  download_assets_soup url body w = (res, w') →
  let soup := html_parser body in
  let base := base_url_of url soup in
  let directory := Path.basename url in
  stdout w' = stdout w
  ∧ clock w' = clock w
  ∧ (∃ new, network w' = network w ++ new
       ∧ new `prefix_of` planned_requests base (Soup.tags soup)
       ∧ (returned res → new = planned_requests base (Soup.tags soup)))
  ∧ (∀ path, fs w' !! path = fs w !! path
       ∨ (path = directory ∧ Os.lookup (fs w) directory = None
          ∧ fs w' !! path = Some Dir)
       ∨ ∃ t attr full_url file_name response,
           t ∈ Soup.tags soup
           ∧ fetch_of base t = Some (attr, full_url, file_name)
           ∧ http_get full_url [] = Some response
           ∧ status_code response = 200
           ∧ path = Path.join directory file_name
           ∧ fs w' !! path = Some (File (content response)))
  ∧ (∀ soup', res = Ok soup' →
       Soup.tags soup' = rewrite_tag base directory <$> Soup.tags soup).
Proof.
  intros Hrun soup base directory.
  assert (planned_requests base (tags_at soup (Soup.find_all ASSET_TAG_ATTRIBUTES.*1 soup))
          = planned_requests base (Soup.tags soup)) as Hplanned.
  { rewrite tags_at_find_all. unfold planned_requests.
    induction (Soup.tags soup) as [|t ts IH]; [done|].
    rewrite filter_cons, omap_cons_match. destruct (decide (t.1 ∈ ASSET_TAG_ATTRIBUTES.*1)).
    - by rewrite omap_cons_match, IH.
    - rewrite IH. destruct (fetch_of base t) as [[[attr full] name]|] eqn:Hfetch; [|done].
      apply fetch_of_reference in Hfetch as (ref & Href & _).
      apply asset_reference_is_asset in Href as (Hitem & _).
      by apply dict_item_elem_of in Hitem. }
  destruct (download_assets_soup_run _ _ _ _ _ Hrun)
    as [(Hempty & -> & ->)|(Hnamed & w1 & Hw1 & Hloop)].
  { split_and!; try done.
    - exists []. split_and!; [by rewrite app_nil_r|apply prefix_nil|done].
    - by left. }
  destruct (download_asset_loop_run _ _ _ _ _ _ _ (NoDup_find_all _ _)
              (asset_tags_found soup) Hloop)
    as (Hout & Hclock & (new & Hnew & Hprefix & Hall) & Hfiles & Hsoup).
  fold soup base directory in Hprefix, Hall, Hfiles, Hsoup, Hw1.
  rewrite Hplanned in Hprefix, Hall.
  assert (stdout w1 = stdout w ∧ clock w1 = clock w ∧ network w1 = network w)
    as (Hout1 & Hclock1 & Hnet1).
  { by destruct Hw1 as [[_ ->]|[_ ->]]. }
  split_and!.
  - congruence.
  - congruence.
  - exists new. split_and!; [congruence|done|done].
  - intros path. destruct (Hfiles path) as [Hsame|Hwritten].
    + destruct Hw1 as [[_ ->]|[Hnone ->]]; [by left|].
      destruct (decide (path = directory)) as [->|Hne].
      * right. left. split_and!; [done|done|].
        rewrite Hsame. simpl. by rewrite lookup_insert_eq.
      * left. rewrite Hsame. simpl. by rewrite lookup_insert_ne.
    + right. right.
      destruct Hwritten as (r & t & attr & full & name & resp & Hr & Ht & Hrest).
      exists t, attr, full, name, resp. split; [|done].
      by eapply list_elem_of_lookup_2.
  - intros soup' Hok. apply list_eq. intros i. rewrite (Hsoup soup' Hok i).
    rewrite list_lookup_fmap.
    destruct (decide (i ∈ Soup.find_all ASSET_TAG_ATTRIBUTES.*1 soup)) as [Hin|Hnotin];
      [done|].
    destruct (Soup.tags soup !! i) as [t|] eqn:Ht; [|done]. simpl. f_equal.
    symmetry. apply rewrite_tag_other.
    destruct (asset_reference t) as [[attr ref]|] eqn:Href; [|done].
    exfalso. apply Hnotin. apply elem_of_find_all. exists t. split; [done|].
    apply asset_reference_is_asset in Href as (Hitem & _).
    by apply dict_item_elem_of in Hitem.
Qed.

End AssetsRun.

(** ** Resolution, file names and the extension filter *)

Lemma stripped_from_unique (c : ascii) (name name' s : string) :
  stripped_from c name s → stripped_from c name' s → name = name'.
Proof.
  intros [Hno Hs] [Hno' Hs']. revert name name' Hno Hno' Hs Hs'.
  induction s as [|a s IH]; intros name name' Hno Hno' Hs Hs'.
  - destruct Hs as [<-|[rest Hs]], Hs' as [<-|[rest' Hs']]; try done.
    + destruct name'; discriminate.
    + destruct name; discriminate.
    + destruct name; discriminate.
  - assert (∀ n : string, occurs c n = false →
              String a s = n ∨ (∃ rest, String a s = n +:+ String c rest) →
              (n = "" ∧ a = c)
              ∨ ∃ m, n = String a m ∧ a ≠ c ∧ occurs c m = false
                     ∧ (s = m ∨ ∃ rest, s = m +:+ String c rest)) as Hshape.
    { intros [|b m] Hn Hcase.
      - left. split; [done|]. destruct Hcase as [?|[rest [= -> _]]]; done.
      - right. simpl in Hn. apply orb_false_iff in Hn as [Hb Hm].
        apply Ascii.eqb_neq in Hb.
        destruct Hcase as [[= -> ->]|[rest Hrest]].
        + exists m. split_and!; [done|done|done|by left].
        + rewrite string_app_cons in Hrest. injection Hrest as -> ->.
          exists m. split_and!; [done|done|done|right; by exists rest]. }
    destruct (Hshape name Hno Hs) as [[-> Hac]|(m & -> & Hne & Hm & Hsm)],
             (Hshape name' Hno' Hs') as [[-> Hac']|(m' & -> & Hne' & Hm' & Hsm')];
      try done.
    f_equal. by apply IH.
Qed.

Lemma basename_after_sep (front seg : string) :
  occurs "/" seg = false → Path.basename (front +:+ "/" +:+ seg) = seg.
Proof.
  intros Hno. apply (final_segment_unique _ _ (front +:+ "/" +:+ seg)).
  - apply basename_final_segment.
  - split; [done|]. right. by exists front.
Qed.

(** The file name of a URL is its final path segment with everything from
    the first [?] onward stripped, and nothing else is. *)
Lemma asset_file_name_spec (full_url seg name : string) :
  final_segment seg full_url → stripped_from "?" name seg →
  name = asset_file_name full_url.
Proof.
  intros Hseg Hname. unfold asset_file_name.
  rewrite <-(final_segment_unique _ _ _ Hseg (basename_final_segment full_url)).
  apply (stripped_from_unique _ _ _ _ Hname (split_first_stripped "?" seg)).
Qed.

Lemma first_base_unique (front front' back back' : list Soup.tag) (t t' : Soup.tag) :
  Forall (λ t : Soup.tag, t.1 ≠ "base") front → t.1 = "base" →
  Forall (λ t : Soup.tag, t.1 ≠ "base") front' → t'.1 = "base" →
  front ++ t :: back = front' ++ t' :: back' → t = t'.
Proof.
  revert front'. induction front as [|x front IH]; intros [|x' front'] Hf Ht Hf' Ht' Heq.
  - by injection Heq.
  - injection Heq as -> _. apply Forall_cons in Hf' as [Hx _]. done.
  - injection Heq as -> _. apply Forall_cons in Hf as [Hx _]. done.
  - injection Heq as _ Heq. apply Forall_cons in Hf as [_ Hf].
    apply Forall_cons in Hf' as [_ Hf']. by eapply IH.
Qed.

(** The rule of the first [<base>] tag names one base URL. *)
Lemma first_base_rule_functional (url : string) (tags : list Soup.tag) (b b' : string) :
  first_base_rule url tags b → first_base_rule url tags b' → b = b'.
Proof.
  assert (∀ front (t : Soup.tag) back,
            Forall (λ t : Soup.tag, t.1 ≠ "base") (front ++ t :: back) →
            t.1 = "base" → False) as Hnone.
  { intros front t back Hall Ht. apply Forall_app in Hall as [_ Hall].
    apply Forall_cons in Hall as [Hne _]. done. }
  intros Hb Hb'.
  destruct Hb as [tags Hno|front t back href Hf Ht Hhref Hne|front t back Hf Ht Hhref].
  - inversion Hb' as [|f t' bk h Hf' Ht' Hh Hn Htags|f t' bk Hf' Ht' Hh Htags];
      subst; [done|by exfalso; eapply Hnone|done].
  - inversion Hb' as [tg Hno'|f t' bk h Hf' Ht' Hh Hn Htags
                     |f t' bk Hf' Ht' Hh Htags]; subst.
    + exfalso. by eapply Hnone.
    + assert (t = t') as <-
        by exact (first_base_unique _ _ _ _ _ _ Hf Ht Hf' Ht' (eq_sym Htags)). congruence.
    + assert (t = t') as <-
        by exact (first_base_unique _ _ _ _ _ _ Hf Ht Hf' Ht' (eq_sym Htags)).
      destruct Hh as [Hh|Hh]; congruence.
  - inversion Hb' as [tg Hno'|f t' bk h Hf' Ht' Hh Hn Htags
                     |f t' bk Hf' Ht' Hh Htags]; subst.
    + done.
    + assert (t = t') as <-
        by exact (first_base_unique _ _ _ _ _ _ Hf Ht Hf' Ht' (eq_sym Htags)).
      destruct Hhref as [Hh'|Hh']; congruence.
    + done.
Qed.

Section AssetClaims.

Context `{Libraries}.

Lemma ret_run {A} (a : A) (w : world) : ret a w = (Ok a, w).
Proof. done. Qed.

#[local] Arguments dict_item : simpl never.
#[local] Arguments Py.endswith_any : simpl never.
#[local] Arguments asset_file_name : simpl never.
#[local] Arguments Path.join : simpl never.
#[local] Arguments Path.basename : simpl never.

(** The base URL the program picks follows the rule of the first [<base>]
    tag. *)
Lemma base_url_of_first_base (url : string) (s : Soup.t) :
  first_base_rule url (Soup.tags s) (base_url_of url s).
Proof.
  unfold base_url_of, Soup.find, Soup.find_all.
  pose proof (head_positions (λ t : Soup.tag, bool_decide (t.1 ∈ ["base"])) (Soup.tags s) 0)
    as Hhead.
  assert (∀ l : list Soup.tag,
            Forall (λ y : Soup.tag, bool_decide (y.1 ∈ ["base"]) = false) l →
            Forall (λ t : Soup.tag, t.1 ≠ "base") l) as Hforall.
  { intros l Hl. eapply Forall_impl; [exact Hl|]. cbv beta.
    intros t Ht%bool_decide_eq_false Hbase. apply Ht. rewrite Hbase. by left. }
  cbv beta in Hhead.
  destruct (head _) as [j|].
  - destruct Hhead as (front & x & back & Htags & -> & Hx & Hfront).
    apply bool_decide_eq_true, list_elem_of_singleton in Hx.
    unfold Soup.get. rewrite Htags, list_lookup_middle by done. simpl.
    destruct (x.2 !! "href") as [href|] eqn:Hhref.
    + destruct href as [|c href]; simpl.
      * apply first_base_without_href; [by apply Hforall|done|by right].
      * by apply (first_base_with_href url front x back (String c href)); [apply Hforall|..].
    + apply first_base_without_href; [by apply Hforall|done|by left].
  - apply no_base_tag. by apply Hforall.
Qed.

Lemma elem_of_planned_requests (base : string) (ts : list Soup.tag) (req : request) :
  req ∈ planned_requests base ts ↔
  ∃ t attr file_name, t ∈ ts ∧ fetch_of base t = Some (attr, req.1, file_name) ∧ req.2 = [].
Proof.
  unfold planned_requests. rewrite list_elem_of_omap. split.
  - intros (t & Hin & Hfetch).
    destruct (fetch_of base t) as [[[attr full] name]|] eqn:Hf; [|done].
    injection Hfetch as <-. by exists t, attr, name.
  - intros (t & attr & name & Hin & Hfetch & Hheaders). exists t. split; [done|].
    rewrite Hfetch. simpl. destruct req as [u h]. simpl in *. by rewrite Hheaders.
Qed.

Lemma fetch_of_asset_reference (base : string) (t : Soup.tag) (attr ref : string) :
  asset_reference t = Some (attr, ref) →
  fetch_of base t =
    if Py.endswith_any (asset_file_name (urljoin base ref)) POPULAR_EXTENSIONS
    then Some (attr, urljoin base ref, asset_file_name (urljoin base ref))
    else None.
Proof. intros Href. unfold fetch_of. by rewrite Href. Qed.

Lemma not_endswith_any (name : string) (suffixes : list string) :
  (∀ suffix front, suffix ∈ suffixes → name ≠ front +:+ suffix) →
  Py.endswith_any name suffixes = false.
Proof.
  intros Hnone. destruct (Py.endswith_any name suffixes) eqn:Hany; [|done].
  apply endswith_any_spec in Hany as (suffix & front & Hin & Hname).
  by destruct (Hnone suffix front Hin).
Qed.

(** One turn of the loop for a tag with a reference, in full. *)
Lemma download_asset_reference_run (base directory : string) (cur : Soup.t)
    (asset : Soup.ref) (t : Soup.tag) (attr ref : string) (w : world) :
  Soup.tags cur !! asset = Some t →
  asset_reference t = Some (attr, ref) →
  let full_url := urljoin base ref in
  let file_name := asset_file_name full_url in
  download_asset base directory cur asset w =
    if Py.endswith_any file_name POPULAR_EXTENSIONS then
      match http_get full_url [] with
      | None => (Raise ConnectionError, add_request (full_url, []) w)
      | Some response =>
          if status_code response =? 200 then
            match Os.write_file (Path.join directory file_name) (content response)
                    (add_request (full_url, []) w) with
            | (Ok _, w') =>
                (Ok (Soup.set cur asset attr (Path.join directory file_name)), w')
            | (Raise e, w') => (Raise e, w')
            end
          else (Ok cur, add_request (full_url, []) w)
      end
    else (Ok cur, w).
Proof.
  intros Ht Href full_url file_name.
  pose proof (asset_reference_is_asset _ _ _ Href) as (Hitem & _).
  rewrite (download_asset_run _ _ _ _ _ _ Ht) by by eexists.
  rewrite (fetch_of_asset_reference base _ _ _ Href). fold full_url file_name.
  by destruct (Py.endswith_any file_name POPULAR_EXTENSIONS).
Qed.

(** C3. For an asset tag with a reference, let [seg] be the final path
    segment of the resolved URL and [name] be [seg] with everything from
    the first [?] onward stripped.  Then [name] is the file name the turn
    of the loop works with: the turn does nothing unless [name] ends in an
    allowed extension, a request is sent only if it does, and the only
    file the turn can write is [name] under the page directory, which is
    also the only value the reference can be set to. *)
Theorem file_name_is_stripped_final_segment (base directory : string) (cur : Soup.t)
    (asset : Soup.ref) (t : Soup.tag) (attr ref seg name : string)
    (w : world) (res : result Soup.t) (w' : world) :
  Soup.tags cur !! asset = Some t →
  asset_reference t = Some (attr, ref) →
  final_segment seg (urljoin base ref) →
  stripped_from "?" name seg →
  download_asset base directory cur asset w = (res, w') →
  name = asset_file_name (urljoin base ref)
  ∧ ((∀ suffix front, suffix ∈ POPULAR_EXTENSIONS → name ≠ front +:+ suffix) →
     res = Ok cur ∧ w' = w)
  ∧ (network w' ≠ network w →
     ∃ suffix front, suffix ∈ POPULAR_EXTENSIONS ∧ name = front +:+ suffix)
  ∧ (fs w' = fs w ∨ ∃ data, fs w' = <[Path.join directory name := File data]> (fs w))
  ∧ (∀ soup', res = Ok soup' →
       soup' = cur ∨ soup' = Soup.set cur asset attr (Path.join directory name)).
Proof.
  intros Ht Href Hseg Hname Hrun.
  pose proof (asset_file_name_spec _ _ _ Hseg Hname) as ->.
  rewrite (download_asset_reference_run _ _ _ _ _ _ _ _ Ht Href) in Hrun.
  split; [done|].
  destruct (Py.endswith_any _ _) eqn:Hext.
  2:{ injection Hrun as <- <-. split_and!; try done; [by left|]. intros soup' [= <-]. by left. }
  split.
  { intros Hnone. apply not_endswith_any in Hnone. congruence. }
  split.
  { intros _. by apply endswith_any_spec. }
  destruct (http_get _ _) as [response|].
  2:{ injection Hrun as <- <-. split; [by left|done]. }
  destruct (status_code response =? 200).
  2:{ injection Hrun as <- <-. split; [by left|]. intros soup' [= <-]. by left. }
  destruct (write_file_cases (Path.join directory (asset_file_name (urljoin base ref)))
              (content response) (add_request (urljoin base ref, []) w))
    as [Hwrite|[e Hwrite]]; rewrite Hwrite in Hrun; injection Hrun as <- <-.
  - split; [right; by eexists|]. intros soup' [= <-]. by right.
  - split; [by left|done].
Qed.

(** C2, as amended.  The base URL of a run is given by the rule of the
    first [<base>] tag.  A turn of the loop for a tag with a reference
    sends no request or the one for [urljoin base reference]; every
    request of the run is for the reference of an asset tag of the
    document resolved that way; and a run that ends has sent the request
    of every asset tag whose file name has an allowed extension. *)
Theorem references_resolve_against_first_base (url body : string) (w : world)
    (res : result Soup.t) (w' : world) :
  download_assets_soup url body w = (res, w') →
  ∃ base,
    first_base_rule url (Soup.tags (html_parser body)) base
    ∧ (∀ directory cur asset t attr ref w0 res0 w0',
         Soup.tags cur !! asset = Some t →
         asset_reference t = Some (attr, ref) →
         download_asset base directory cur asset w0 = (res0, w0') →
         network w0' = network w0
         ∨ network w0' = network w0 ++ [(urljoin base ref, [])])
    ∧ ∃ new,
        network w' = network w ++ new
        ∧ (∀ req, req ∈ new →
             ∃ t attr ref, t ∈ Soup.tags (html_parser body)
                           ∧ asset_reference t = Some (attr, ref)
                           ∧ req = (urljoin base ref, []))
        ∧ (returned res →
           ∀ t attr ref, t ∈ Soup.tags (html_parser body) →
             asset_reference t = Some (attr, ref) →
             Py.endswith_any (asset_file_name (urljoin base ref)) POPULAR_EXTENSIONS = true →
             (urljoin base ref, []) ∈ new).
Proof.
  intros Hrun. exists (base_url_of url (html_parser body)).
  split; [apply base_url_of_first_base|]. split.
  { intros directory cur asset t attr ref w0 res0 w0' Ht Href Hturn.
    rewrite (download_asset_reference_run _ _ _ _ _ _ _ _ Ht Href) in Hturn.
    destruct (Py.endswith_any _ _); [|injection Hturn as <- <-; by left].
    destruct (http_get _ _) as [response|]; [|injection Hturn as <- <-; by right].
    destruct (status_code response =? 200); [|injection Hturn as <- <-; by right].
    destruct (write_file_cases (Path.join directory (asset_file_name
                (urljoin (base_url_of url (html_parser body)) ref)))
                (content response)
                (add_request (urljoin (base_url_of url (html_parser body)) ref, []) w0))
      as [Hwrite|[e Hwrite]]; rewrite Hwrite in Hturn; injection Hturn as <- <-; by right. }
  destruct (download_assets_soup_facts _ _ _ _ _ Hrun)
    as (_ & _ & (new & Hnew & Hprefix & Hall) & _ & _).
  exists new. split; [done|]. split.
  - intros req Hreq. eapply elem_of_prefix in Hreq; [|exact Hprefix].
    apply elem_of_planned_requests in Hreq as (t & attr & name & Hin & Hfetch & Hheaders).
    apply fetch_of_reference in Hfetch as (ref & Href & Hfull & _).
    exists t, attr, ref. split_and!; [done|done|].
    destruct req as [u h]. simpl in *. by rewrite Hfull, Hheaders.
  - intros Hres t attr ref Hin Href Hext. rewrite (Hall Hres).
    apply elem_of_planned_requests. exists t, attr, (asset_file_name
      (urljoin (base_url_of url (html_parser body)) ref)).
    split_and!; [done| |done]. simpl.
    by rewrite (fetch_of_asset_reference _ _ _ _ Href), Hext.
Qed.

Lemma photo_file_name (front : string) :
  asset_file_name (front +:+ "/photo.JPG?v=2") = "photo.JPG".
Proof.
  unfold asset_file_name.
  change (front +:+ "/photo.JPG?v=2") with (front +:+ "/" +:+ "photo.JPG?v=2").
  by rewrite basename_after_sep.
Qed.

Lemma photo_extension_not_allowed (suffix front : string) :
  suffix ∈ POPULAR_EXTENSIONS → "photo.JPG" ≠ front +:+ suffix.
Proof.
  intros Hin Hname.
  assert (Py.endswith_any "photo.JPG" POPULAR_EXTENSIONS = true) as Hany.
  { apply endswith_any_spec. by exists suffix, front. }
  by vm_compute in Hany.
Qed.

(** C4. In a run of [download_assets], every request sent is for a URL
    whose file name ends, character for character, in one of
    [POPULAR_EXTENSIONS], and every file written is such a file name under
    the page directory.  When the run ends, a tag whose file name has no
    such ending keeps its reference.  The file name of a URL that ends in
    [/photo.JPG?v=2] is [photo.JPG], which has no such ending: no request
    is sent for that URL and the tag keeps its reference. *)
Theorem only_allowed_extensions_are_downloaded (url body : string) (w : world)
    (res : result Soup.t) (w' : world) :
  download_assets_soup url body w = (res, w') →
  let soup := html_parser body in
  let base := base_url_of url soup in
  let directory := Path.basename url in
  (∃ new, network w' = network w ++ new
     ∧ (∀ req, req ∈ new →
          ∃ suffix front, suffix ∈ POPULAR_EXTENSIONS
                          ∧ asset_file_name req.1 = front +:+ suffix)
     ∧ (∀ front headers, (front +:+ "/photo.JPG?v=2", headers) ∉ new))
  ∧ (∀ path data, fs w' !! path = Some (File data) → fs w !! path ≠ Some (File data) →
       ∃ name suffix front, path = Path.join directory name
                            ∧ suffix ∈ POPULAR_EXTENSIONS ∧ name = front +:+ suffix)
  ∧ (∀ soup' asset t attr ref,
       res = Ok soup' → Soup.tags soup !! asset = Some t →
       asset_reference t = Some (attr, ref) →
       (∀ suffix front, suffix ∈ POPULAR_EXTENSIONS →
          asset_file_name (urljoin base ref) ≠ front +:+ suffix) →
       Soup.tags soup' !! asset = Some t ∧ Soup.get soup' asset attr = Some ref)
  ∧ (∀ front, asset_file_name (front +:+ "/photo.JPG?v=2") = "photo.JPG")
  ∧ (∀ suffix front, suffix ∈ POPULAR_EXTENSIONS → "photo.JPG" ≠ front +:+ suffix)
  ∧ (∀ soup' asset t attr ref front,
       res = Ok soup' → Soup.tags soup !! asset = Some t →
       asset_reference t = Some (attr, ref) →
       urljoin base ref = front +:+ "/photo.JPG?v=2" →
       Soup.tags soup' !! asset = Some t ∧ Soup.get soup' asset attr = Some ref).
Proof.
  intros Hrun soup base directory.
  destruct (download_assets_soup_facts _ _ _ _ _ Hrun)
    as (_ & _ & (new & Hnew & Hprefix & _) & Hfiles & Hsoup).
  fold soup base directory in Hprefix, Hfiles, Hsoup.
  assert (∀ req, req ∈ new →
            ∃ suffix front, suffix ∈ POPULAR_EXTENSIONS
                            ∧ asset_file_name req.1 = front +:+ suffix) as Hallowed.
  { intros req Hreq. eapply elem_of_prefix in Hreq; [|exact Hprefix].
    apply elem_of_planned_requests in Hreq as (t & attr & name & _ & Hfetch & _).
    apply fetch_of_reference in Hfetch as (ref & _ & _ & -> & Hext).
    by apply endswith_any_spec. }
  assert (∀ soup' asset t attr ref,
            res = Ok soup' → Soup.tags soup !! asset = Some t →
            asset_reference t = Some (attr, ref) →
            (∀ suffix front, suffix ∈ POPULAR_EXTENSIONS →
               asset_file_name (urljoin base ref) ≠ front +:+ suffix) →
            Soup.tags soup' !! asset = Some t ∧ Soup.get soup' asset attr = Some ref)
    as Hkept.
  { intros soup' asset t attr ref Hok Ht Href Hnone.
    assert (Soup.tags soup' !! asset = Some t) as Ht'.
    { rewrite (Hsoup soup' Hok), list_lookup_fmap, Ht. simpl. f_equal.
      unfold rewrite_tag. rewrite (fetch_of_asset_reference _ _ _ _ Href).
      by rewrite (not_endswith_any _ _ Hnone). }
    split; [done|]. unfold Soup.get. rewrite Ht'. simpl.
    by apply asset_reference_is_asset in Href as (_ & ? & _). }
  split_and!.
  - exists new. split_and!; [done|done|].
    intros front headers Hreq. apply Hallowed in Hreq as (suffix & front' & Hin & Hname).
    simpl in Hname. rewrite photo_file_name in Hname.
    by apply (photo_extension_not_allowed suffix front').
  - intros path data Hafter Hbefore.
    destruct (Hfiles path) as [Hsame|[(_ & _ & Hdir)|Hwritten]]; [congruence|congruence|].
    destruct Hwritten as (t & attr & full & name & resp & _ & Hfetch & _ & _ & -> & _).
    apply fetch_of_reference in Hfetch as (ref & _ & _ & _ & Hext).
    apply endswith_any_spec in Hext as (suffix & front & Hin & Hname).
    by exists name, suffix, front.
  - done.
  - apply photo_file_name.
  - apply photo_extension_not_allowed.
  - intros soup' asset t attr ref front Hok Ht Href Hphoto.
    apply (Hkept soup' asset t attr ref Hok Ht Href).
    intros suffix front' Hin. rewrite Hphoto, photo_file_name.
    by apply photo_extension_not_allowed.
Qed.

(** C9. Take an asset tag of the page with a reference whose download is
    answered with a status other than 200.  Its turn of the loop ends
    with the document as it was, prints nothing and leaves every file as
    it was.  A run of [download_assets] prints nothing at all, and when it
    ends the tag, and so its reference, is in the output document as it
    was in the page. *)
Theorem failed_asset_is_left_alone (url body : string) (w : world) (asset : Soup.ref)
    (t : Soup.tag) (attr ref : string) (response : response) :
  let soup := html_parser body in
  let base := base_url_of url soup in
  Soup.tags soup !! asset = Some t →
  asset_reference t = Some (attr, ref) →
  http_get (urljoin base ref) [] = Some response →
  status_code response ≠ 200 →
  (∀ cur directory w0,
     Soup.tags cur !! asset = Some t →
     ∃ w1, download_asset base directory cur asset w0 = (Ok cur, w1)
           ∧ stdout w1 = stdout w0 ∧ fs w1 = fs w0)
  ∧ (∀ res w', download_assets_soup url body w = (res, w') → stdout w' = stdout w)
  ∧ (∀ soup' w',
       download_assets_soup url body w = (Ok soup', w') →
       Soup.tags soup' !! asset = Some t
       ∧ Soup.get soup' asset attr = Some ref
       ∧ download_assets url body w = (Ok (soup_str soup'), w')).
Proof.
  intros soup base Ht Href Hget Hstatus. apply Z.eqb_neq in Hstatus. split_and!.
  - intros cur directory w0 Hcur.
    rewrite (download_asset_reference_run _ _ _ _ _ _ _ _ Hcur Href).
    fold base. rewrite Hget, Hstatus.
    destruct (Py.endswith_any _ _); eexists; split_and!; done.
  - intros res w' Hrun. by destruct (download_assets_soup_facts _ _ _ _ _ Hrun) as (? & _).
  - intros soup' w' Hrun.
    destruct (download_assets_soup_facts _ _ _ _ _ Hrun) as (_ & _ & _ & _ & Hsoup).
    fold soup base in Hsoup.
    assert (Soup.tags soup' !! asset = Some t) as Ht'.
    { rewrite (Hsoup soup' eq_refl), list_lookup_fmap, Ht. simpl. f_equal.
      unfold rewrite_tag. rewrite (fetch_of_asset_reference _ _ _ _ Href).
      destruct (Py.endswith_any _ _); [|done].
      unfold answered_200. by rewrite Hget, Hstatus. }
    split_and!; [done| |].
    + unfold Soup.get. rewrite Ht'. simpl.
      by apply asset_reference_is_asset in Href as (_ & ? & _).
    + unfold download_assets. by rewrite bind_run, Hrun.
Qed.

Lemma occurs_split_first (c d : ascii) (s : string) :
  occurs c s = false → occurs c (Py.split_first d s) = false.
Proof.
  induction s as [|a s IH]; simpl; [done|].
  intros [Ha Hs]%orb_false_iff. destruct (Ascii.eqb a d); [done|].
  simpl. by rewrite Ha, IH.
Qed.

Lemma asset_file_name_no_sep (full_url : string) :
  occurs "/" (asset_file_name full_url) = false.
Proof.
  unfold asset_file_name. apply occurs_split_first.
  by destruct (basename_final_segment full_url).
Qed.

(** A file name joined to a directory name lies under it. *)
Lemma join_under_directory (directory file_name : string) :
  directory ≠ "" → occurs "/" directory = false → occurs "/" file_name = false →
  Path.join directory file_name = directory +:+ "/" +:+ file_name.
Proof.
  intros Hnamed Hdir Hfile. unfold Path.join.
  assert (Py.startswith file_name "/" = false) as ->.
  { destruct file_name as [|a rest]; [done|]. simpl in Hfile.
    apply orb_false_iff in Hfile as [Ha _]. unfold Py.startswith. cbn [String.prefix].
    destruct (Ascii.ascii_dec "/" a) as [<-|?]; [|done].
    by rewrite Ascii.eqb_refl in Ha. }
  assert (Py.truthy directory = true) as -> by by destruct directory.
  assert (Py.endswith directory "/" = false) as ->; [|done].
  destruct (Py.endswith directory "/") eqn:Hends; [|done].
  apply endswith_spec in Hends as [front ->].
  rewrite occurs_app in Hdir. simpl in Hdir. by rewrite orb_true_r in Hdir.
Qed.

Lemma positions_none {A} (p : A → bool) (l : list A) (i : nat) :
  Forall (λ x, p x = false) l → Soup.positions p l i = [].
Proof.
  intros Hall. revert i. induction Hall as [|x l Hx _ IH]; intros i; simpl; [done|].
  by rewrite Hx.
Qed.

(** The page directory after [download_assets].  For a page whose
    identifier is not empty and names nothing yet, the directory is there
    after the call however the call ends; and a document without asset
    tags gives a call that makes the directory, does nothing else and
    ends. *)
Lemma asset_directory_is_made (url body : string) (w : world)
    (res : result Soup.t) (w' : world) :
  Path.basename url ≠ "" →
  Os.lookup (fs w) (Path.basename url) = None →
  download_assets_soup url body w = (res, w') →
  fs w' !! Path.basename url = Some Dir
  ∧ ((∀ t, t ∈ Soup.tags (html_parser body) → t.1 ∉ ASSET_TAG_ATTRIBUTES.*1) →
     res = Ok (html_parser body) ∧ w' = set_fs (insert (Path.basename url) Dir) w).
Proof.
  intros Hnamed Hnone Hrun.
  destruct (download_assets_soup_run _ _ _ _ _ Hrun)
    as [(Hempty & _)|(_ & w1 & Hw1 & Hloop)]; [done|].
  destruct Hw1 as [[Hsome _]|[_ ->]]; [rewrite Hnone in Hsome; by destruct Hsome|].
  split.
  - destruct (download_asset_loop_run _ _ _ _ _ _ _ (NoDup_find_all _ _)
                (asset_tags_found (html_parser body)) Hloop)
      as (_ & _ & _ & Hfiles & _).
    destruct (Hfiles (Path.basename url)) as [->|Hwritten].
    + cbn [fs set_fs]. apply lookup_insert_eq.
    + destruct Hwritten as (r & t & attr & full & name & resp & _ & _ & Hfetch & _ & _ & Hpath & _).
      apply fetch_of_reference in Hfetch as (ref & _ & _ & -> & _).
      assert (occurs "/" (Path.basename url) = false) as Hdir
        by by destruct (basename_final_segment url).
      rewrite join_under_directory in Hpath by (done || apply asset_file_name_no_sep).
      rewrite Hpath, occurs_app in Hdir. simpl in Hdir.
      apply orb_false_iff in Hdir as [_ Hdir]. done.
  - intros Hnoassets.
    assert (Soup.find_all ASSET_TAG_ATTRIBUTES.*1 (html_parser body) = []) as Hfound.
    { unfold Soup.find_all. apply positions_none, Forall_forall. intros t Ht.
      apply bool_decide_eq_false_2. by apply Hnoassets. }
    rewrite Hfound in Hloop. cbn [download_asset_loop] in Hloop.
    rewrite ret_run in Hloop. by injection Hloop as <- <-.
Qed.

(** C10, at the page [https://example.com/] fetched with status 200: the
    identifier is empty, [download_assets] raises [FileNotFoundError] where
    it makes the directory, for every body, and [download] ends there,
    with no file made and nothing printed, whatever URLs follow. *)
Theorem page_with_empty_identifier_raises (rest : list string) (w : world)
    (response : response) :
  is_valid_url "https://example.com/" = true →
  http_get "https://example.com/" USER_AGENT_HEADER = Some response →
  status_code response = 200 →
  Path.basename "https://example.com/" = ""
  ∧ (∀ body w0,
       download_assets "https://example.com/" body w0 = (Raise FileNotFoundError, w0))
  ∧ ∃ w', download ("https://example.com/" :: rest) w = (Raise FileNotFoundError, w')
          ∧ fs w' = fs w ∧ stdout w' = stdout w.
Proof.
  intros Hvalid Hget Hstatus.
  assert (∀ body w0,
            download_assets "https://example.com/" body w0 = (Raise FileNotFoundError, w0))
    as Hraise.
  { intros body w0. unfold download_assets. rewrite bind_run.
    destruct (download_assets_soup "https://example.com/" body w0) as [res w0'] eqn:Hrun.
    destruct (download_assets_soup_run _ _ _ _ _ Hrun)
      as [(_ & -> & ->)|(Hnamed & _)]; [done|].
    by destruct Hnamed. }
  split_and!; [done|done|].
  exists (add_request ("https://example.com/", USER_AGENT_HEADER) w).
  split_and!; [|done|done].
  cbn [download]. rewrite bind_run. unfold download_url. rewrite Hvalid. cbn [negb].
  rewrite bind_run. unfold requests_get. rewrite Hget.
  apply Z.eqb_eq in Hstatus as ->. cbn [negb]. cbv zeta.
  by rewrite bind_run, Hraise.
Qed.

End AssetClaims.

(** ** The metadata store *)

Section Metadata.

Context `{Libraries}.

Lemma lookup_metadata_file (files : gmap string fnode) :
  Os.lookup files METADATA_FILENAME = files !! METADATA_FILENAME.
Proof. done. Qed.

Lemma write_metadata_file (data : string) (w : world) :
  Os.lookup (fs w) METADATA_FILENAME ≠ Some Dir →
  Os.write_file METADATA_FILENAME data w
  = (Ok tt, set_fs (insert METADATA_FILENAME (File data)) w).
Proof.
  intros Hfile. unfold Os.write_file. rewrite decide_False by done.
  change (Path.parent METADATA_FILENAME) with (@None string).
  by destruct (Os.lookup (fs w) METADATA_FILENAME) as [[|?]|].
Qed.

Lemma path_exists_run (p : string) (w : world) :
  Os.path_exists p w = (Ok (bool_decide (is_Some (Os.lookup (fs w) p))), w).
Proof. done. Qed.

Lemma read_file_run (path : string) (w : world) :
  Os.read_file path w = match Os.lookup (fs w) path with
                        | None => (Raise FileNotFoundError, w)
                        | Some Dir => (Raise IsADirectoryError, w)
                        | Some (File data) => (Ok data, w)
                        end.
Proof. done. Qed.

(** Reading the store, with the file there or not. *)
Lemma read_metadata_file_stored (w : world) (v : json) (w1 : world) :
  stored w v w1 →
  read_metadata_file w = (Ok v, w1)
  ∧ (∃ text, Os.lookup (fs w1) METADATA_FILENAME = Some (File text))
  ∧ stdout w1 = stdout w ∧ network w1 = network w ∧ clock w1 = clock w.
Proof.
  unfold read_metadata_file, json_load, json_dump.
  intros [(text & Hfile & Hloads & ->)|(Hnone & Hloads & ->)].
  - split; [|by eauto]. rewrite bind_run, path_exists_run, Hfile.
    rewrite bool_decide_eq_true_2 by by eexists. cbn [negb].
    rewrite bind_run, ret_run. cbv beta iota.
    by rewrite bind_run, read_file_run, Hfile, Hloads.
  - split.
    + rewrite bind_run, path_exists_run, Hnone.
      rewrite bool_decide_eq_false_2 by by intros [? ?]. cbn [negb].
      rewrite bind_run, write_metadata_file by by rewrite Hnone. cbv beta iota.
      rewrite bind_run, read_file_run, lookup_metadata_file. cbn [fs set_fs].
      by rewrite lookup_insert_eq, Hloads.
    + split; [|done]. eexists. rewrite lookup_metadata_file. cbn [fs set_fs].
      apply lookup_insert_eq.
Qed.

(** One turn of the loop of metadata-display mode prints the line for the
    URL and changes nothing else. *)
Lemma fetch_metadata_url_run (store : gmap string json) (url : string) (w : world) :
  fetch_metadata_url (JDict store) url w = (Ok tt, add_stdout (report store url) w).
Proof.
  unfold fetch_metadata_url, report, contains, getitem. cbv zeta. rewrite bind_run.
  destruct (store !! Path.basename url) as [record|] eqn:Hrecord.
  - rewrite ret_run, bool_decide_eq_true_2 by by eexists. cbn [negb].
    by rewrite bind_run, ret_run.
  - by rewrite ret_run, bool_decide_eq_false_2 by by intros [? ?].
Qed.

Lemma fetch_metadata_loop_run (store : gmap string json) (urls : list string) (w : world) :
  ∃ w', fetch_metadata_loop (JDict store) urls w = (Ok tt, w')
        ∧ stdout w' = stdout w ++ (report store <$> urls)
        ∧ fs w' = fs w ∧ network w' = network w ∧ clock w' = clock w.
Proof.
  revert w. induction urls as [|url urls IH]; intros w.
  - exists w. split_and!; try done. by rewrite app_nil_r.
  - destruct (IH (add_stdout (report store url) w)) as (w' & Hrun & Hout & Hfs & Hnet & Hclock).
    exists w'. split_and!; try done.
    + cbn [fetch_metadata_loop]. by rewrite bind_run, fetch_metadata_url_run.
    + rewrite Hout. cbn [stdout add_stdout fmap list_fmap]. by rewrite <-app_assoc.
Qed.

(** C1, as amended.  With a store that reads as a dict, metadata-display
    mode ends normally, having printed one line per requested URL, in
    order: the [Data not found] line for each URL whose identifier is not
    in the store.  A [metadata.json] that was there is left as it was,
    with every other file; when there was none, one is made that holds the
    text of the empty dict, and no other file is touched. *)
Theorem fetch_metadata_reports_and_keeps_store (urls : list string) (w : world)
    (store : gmap string json) (w1 : world) :
  stored w (JDict store) w1 →
  ∃ w', fetch_metadata urls w = (Ok tt, w')
        ∧ stdout w' = stdout w ++ (report store <$> urls)
        ∧ (∀ url, url ∈ urls → store !! Path.basename url = None →
             "Data not found for url: " +:+ url ∈ stdout w')
        ∧ (is_Some (Os.lookup (fs w) METADATA_FILENAME) → fs w' = fs w)
        ∧ (Os.lookup (fs w) METADATA_FILENAME = None →
             fs w' = <[METADATA_FILENAME:=File (json_dumps None (JDict ∅))]> (fs w))
        ∧ network w' = network w ∧ clock w' = clock w.
Proof.
  intros Hstored.
  destruct (read_metadata_file_stored _ _ _ Hstored) as (Hread & _ & Hout1 & Hnet1 & Hclock1).
  destruct (fetch_metadata_loop_run store urls w1) as (w' & Hloop & Hout & Hfs & Hnet & Hclock).
  exists w'. split_and!.
  - unfold fetch_metadata. by rewrite bind_run, Hread.
  - by rewrite Hout, Hout1.
  - intros url Hin Hmissing. rewrite Hout. apply elem_of_app. right.
    apply list_elem_of_fmap. exists url. split; [|done]. unfold report. by rewrite Hmissing.
  - intros [node Hnode]. rewrite Hfs.
    destruct Hstored as [(text & _ & _ & ->)|(Hnone & _)]; [done|congruence].
  - intros Hnone. rewrite Hfs.
    destruct Hstored as [(text & Hfile & _)|(_ & _ & ->)]; [congruence|done].
  - congruence.
  - congruence.
Qed.

(** A map with a value under a key lists that key once. *)
Lemma one_record_per_key {A} (m : gmap string A) (key : string) (x : A) :
  m !! key = Some x →
  length (filter (λ kv : string * A, kv.1 = key) (map_to_list m)) = 1%nat.
Proof.
  intros Hkey.
  rewrite <-(insert_id m key x Hkey), <-insert_delete_eq.
  rewrite map_to_list_insert by apply lookup_delete_eq.
  rewrite filter_cons_True by done. simpl. f_equal.
  assert (∀ l : list (string * A),
            Forall (λ kv, kv.1 ≠ key) l → filter (λ kv : string * A, kv.1 = key) l = [])
    as Hnone.
  { induction 1 as [|kv l Hkv _ IH]; [done|]. by rewrite filter_cons_False. }
  rewrite Hnone; [done|]. apply Forall_forall. intros [k v] Hin%elem_of_map_to_list Hk.
  simpl in Hk. subst k. by rewrite lookup_delete_eq in Hin.
Qed.

(** One upsert, with a store that reads as a dict: the clock is read once,
    and [metadata.json] is written with the store that has the record of
    the page under its identifier. *)
Lemma store_metadata_run (url : string) (values : gmap string json) (w : world)
    (store : gmap string json) (w1 : world) :
  stored w (JDict store) w1 →
  store_metadata url values w
  = (Ok tt,
     set_fs (insert METADATA_FILENAME
               (File (json_dumps (Some 2%nat)
                        (JDict (<[url:=record_of url (datetime_str (clock w)) values]> store)))))
       (tick w1)).
Proof.
  intros Hstored.
  destruct (read_metadata_file_stored _ _ _ Hstored)
    as (Hread & (text & Hfile) & _ & _ & Hclock).
  unfold store_metadata. rewrite bind_run, Hread. cbv beta iota zeta.
  rewrite bind_run. unfold datetime_now. cbv beta iota.
  unfold setitem. rewrite bind_run, ret_run. cbv beta iota.
  unfold json_dump, record_of. rewrite Hclock.
  apply write_metadata_file. cbn [fs tick]. by rewrite Hfile.
Qed.

(** C5. Two upserts in a row for one identifier, from a store that reads
    as a dict, both end normally, and the store written last has, under
    that identifier, exactly one record: the one of the second call, with
    [site] the identifier, [last_fetch] the clock as read in the second
    call, and the values of the second call under every other key. *)
Theorem second_upsert_replaces_record (url : string) (first second : gmap string json)
    (w : world) (store store' : gmap string json) (w0 : world) :
  stored w (JDict store) w0 →
  json_loads (json_dumps (Some 2%nat)
                (JDict (<[url:=record_of url (datetime_str (clock w)) first]> store)))
  = Some (JDict store') →
  ∃ w1 w2 final record,
    store_metadata url first w = (Ok tt, w1)
    ∧ store_metadata url second w1 = (Ok tt, w2)
    ∧ Os.lookup (fs w2) METADATA_FILENAME
      = Some (File (json_dumps (Some 2%nat) (JDict final)))
    ∧ final !! url = Some record
    ∧ length (filter (λ kv : string * json, kv.1 = url) (map_to_list final)) = 1%nat
    ∧ record = record_of url (datetime_str (clock w1)) second
    ∧ field record "site" = Some (JStr url)
    ∧ field record "last_fetch" = Some (JStr (datetime_str (clock w1)))
    ∧ (∀ key, key ≠ "site" → key ≠ "last_fetch" → field record key = second !! key)
    ∧ clock w1 = S (clock w)
    ∧ (∀ other, other ≠ url → final !! other = store' !! other).
Proof.
  intros Hstored Hreload.
  pose proof (store_metadata_run url first w store w0 Hstored) as Hfirst.
  destruct (read_metadata_file_stored _ _ _ Hstored) as (_ & _ & _ & _ & Hclock0).
  set (w1 := set_fs _ (tick w0)) in Hfirst.
  assert (stored w1 (JDict store') w1) as Hstored1.
  { left. eexists. split_and!; [|exact Hreload|done].
    rewrite lookup_metadata_file. unfold w1. cbn [fs set_fs]. apply lookup_insert_eq. }
  pose proof (store_metadata_run url second w1 store' w1 Hstored1) as Hsecond.
  set (record := record_of url (datetime_str (clock w1)) second) in *.
  exists w1, (set_fs (insert METADATA_FILENAME
                (File (json_dumps (Some 2%nat) (JDict (<[url:=record]> store')))))
                (tick w1)),
         (<[url:=record]> store'), record.
  split_and!; try done.
  - rewrite lookup_metadata_file. cbn [fs set_fs]. apply lookup_insert_eq.
  - apply lookup_insert_eq.
  - apply (one_record_per_key _ _ record), lookup_insert_eq.
  - unfold record, record_of, field. by rewrite lookup_insert_ne, lookup_insert_eq.
  - unfold record, record_of, field. apply lookup_insert_eq.
  - intros key Hsite Hfetch. unfold record, record_of, field.
    by rewrite !lookup_insert_ne.
  - unfold w1. cbn [clock set_fs tick]. by rewrite Hclock0.
  - intros other Hother. by rewrite lookup_insert_ne.
Qed.

End Metadata.

(** ** Paths, by example *)

Example basename_page : Path.basename "https://example.com/page" = "page".
Proof. reflexivity. Qed.

Example basename_trailing_slash : Path.basename "https://example.com/" = "".
Proof. reflexivity. Qed.

Example basename_query :
  Py.split_first "?" (Path.basename "https://example.com/a/photo.JPG?v=2") = "photo.JPG".
Proof. reflexivity. Qed.

Example join_page : Path.join "page" "pic.png" = "page/pic.png".
Proof. reflexivity. Qed.

Example parent_page : Path.parent "page/pic.png" = Some "page".
Proof. reflexivity. Qed.


(** ** The program on the sample pages *)

Section Runs.

#[local] Existing Instance Pages.libraries.

Import Pages.

(** The end-to-end scenario of the specification: the page is written with
    the image reference pointing at the local copy, and the store gains
    the record of the page. *)
Example download_page_scenario :
  let w := (download ["https://example.com/page"] fresh).2 in
  download ["https://example.com/page"] fresh = (Ok tt, w)
  ∧ fs w !! "page.html"
    = Some (File (Sample.soup_str
        [Tag "html" ∅
           [Tag "body" ∅
              [Tag "a" {["href" := "https://x.com"]} [Text "x"];
               Tag "img" {["src" := "page/pic.png"]} []]]]))
  ∧ fs w !! "page" = Some Dir
  ∧ fs w !! "page/pic.png" = Some (File "PNG")
  ∧ (fs w !! "metadata.json" ≫= λ f, match f with File text => json_loads text | Dir => None end)
    = Some (JDict {["page" := JDict {["links" := JInt 1; "site" := JStr "page";
                                      "last_fetch" := JStr "2024-05-01 12:00:00.000000"]}]}).
Proof. vm_compute. by repeat split. Qed.

(** The resolution example of the specification, with the stand-in for
    [urljoin]. *)
Example resolve_relative_reference :
  urljoin "https://example.com/a/b.html" "img/x.jpg" = "https://example.com/a/img/x.jpg"
  ∧ urljoin "https://cdn.example.com/" "img/x.jpg" = "https://cdn.example.com/img/x.jpg".
Proof. by vm_compute. Qed.

Example gallery_has_one_link :
  get_number_of_links (Sample.soup_str gallery) = 1
  ∧ anchors_in_document gallery = 1%nat.
Proof. by vm_compute. Qed.

Lemma invalid_url_witness :
  ∃ w', download ["not a url"; "https://example.com/moved"] fresh
        = download ["https://example.com/moved"] w'
        ∧ network w' = [] ∧ stdout w' = ["Invalid url: not a url"].
Proof.
  destruct (invalid_url_is_reported_and_skipped "not a url" ["https://example.com/moved"] fresh)
    as (w' & _ & Hnet & _ & _ & Hout & Hrest).
  { reflexivity. }
  exists w'. split; [exact Hrest|]. split; [exact Hnet|exact Hout].
Defined.

Lemma failed_page_witness :
  ∃ w', download_url "https://example.com/moved" fresh = (Ok tt, w')
        ∧ fs w' = ∅
        ∧ stdout w' = ["Failed to download url: https://example.com/moved; Status code: 301"].
Proof.
  destruct (failed_page_is_reported_and_skipped "https://example.com/moved" [] fresh
              (Response 301 ""))
    as (w' & Hturn & Hfs & _ & _ & _ & _ & _ & Hout & _).
  { reflexivity. }
  { reflexivity. }
  { simpl. lia. }
  exists w'. split; [exact Hturn|]. split; [exact Hfs|exact Hout].
Defined.

Lemma file_name_witness :
  "app.js" = asset_file_name "https://cdn.example.com/lib/app.js?v=3".
Proof.
  pose (run := download_asset "https://example.com/a/b.html" "b.html" gallery 3 fresh).
  destruct (file_name_is_stripped_final_segment "https://example.com/a/b.html" "b.html"
              gallery 3
              ("script", {["src" := "https://cdn.example.com/lib/app.js?v=3"]}) "src"
              "https://cdn.example.com/lib/app.js?v=3" "app.js?v=3" "app.js"
              fresh run.1 run.2)
    as (Hname & _).
  { reflexivity. }
  { reflexivity. }
  { split; [reflexivity|]. right. exists "https://cdn.example.com/lib". reflexivity. }
  { split; [reflexivity|]. right. exists "v=3". reflexivity. }
  { apply surjective_pairing. }
  exact Hname.
Defined.

Lemma extension_filter_witness :
  ∃ new, network (download_assets_soup "https://example.com/a/b.html"
                    (Sample.soup_str gallery) fresh).2 = new
         ∧ ("https://example.com/a/photo.JPG?v=2", []) ∉ new.
Proof.
  pose (run := download_assets_soup "https://example.com/a/b.html"
                 (Sample.soup_str gallery) fresh).
  destruct (only_allowed_extensions_are_downloaded "https://example.com/a/b.html"
              (Sample.soup_str gallery) fresh run.1 run.2)
    as ((new & Hnew & _ & Hphoto) & _).
  { apply surjective_pairing. }
  exists new. split; [exact Hnew|]. apply (Hphoto "https://example.com/a").
Defined.

Lemma failed_asset_witness :
  match (download_assets_soup "https://example.com/a/b.html"
           (Sample.soup_str gallery) fresh).1 with
  | Ok soup' => Soup.get soup' 9 "src" = Some "img/gone.png"
  | Raise _ => False
  end.
Proof.
  destruct (failed_asset_is_left_alone "https://example.com/a/b.html"
              (Sample.soup_str gallery) fresh 9 ("img", {["src" := "img/gone.png"]})
              "src" "img/gone.png" (Response 404 "Not Found"))
    as (_ & _ & Hkept).
  { reflexivity. }
  { reflexivity. }
  { reflexivity. }
  { simpl. lia. }
  destruct (download_assets_soup "https://example.com/a/b.html"
              (Sample.soup_str gallery) fresh) as [[soup'|e] w'] eqn:Hrun.
  - destruct (Hkept soup' w' eq_refl) as (_ & Hget & _). exact Hget.
  - vm_compute in Hrun. discriminate Hrun.
Defined.

Lemma first_base_witness :
  ∃ base, first_base_rule "https://example.com/a/bases.html" (Soup.tags two_bases) base.
Proof.
  pose (run := download_assets_soup "https://example.com/a/bases.html"
                 (Sample.soup_str two_bases) fresh).
  destruct (references_resolve_against_first_base "https://example.com/a/bases.html"
              (Sample.soup_str two_bases) fresh run.1 run.2)
    as (base & Hrule & _).
  { apply surjective_pairing. }
  exists base. exact Hrule.
Defined.

Lemma fetch_metadata_witness :
  ∃ w', fetch_metadata ["https://example.com/page"; "https://example.com/other"] fresh
        = (Ok tt, w')
        ∧ stdout w' = ["Data not found for url: https://example.com/page";
                       "Data not found for url: https://example.com/other"].
Proof.
  destruct (fetch_metadata_reports_and_keeps_store
              ["https://example.com/page"; "https://example.com/other"] fresh ∅
              (set_fs (insert METADATA_FILENAME (File (json_dumps None (JDict ∅)))) fresh))
    as (w' & Hrun & Hout & _).
  { right. split; [reflexivity|]. split; reflexivity. }
  exists w'. split; [exact Hrun|exact Hout].
Defined.

Lemma second_upsert_witness :
  ∃ w1 w2 final,
    store_metadata "page" {["links" := JInt 1]} fresh = (Ok tt, w1)
    ∧ store_metadata "page" {["links" := JInt 4]} w1 = (Ok tt, w2)
    ∧ length (filter (λ kv : string * json, kv.1 = "page") (map_to_list final)) = 1%nat
    ∧ final !! "page"
      = Some (record_of "page" "2024-05-01 12:00:00.000001" {["links" := JInt 4]}).
Proof.
  destruct (second_upsert_replaces_record "page" {["links" := JInt 1]} {["links" := JInt 4]}
              fresh ∅
              {["page" := record_of "page" "2024-05-01 12:00:00.000000" {["links" := JInt 1]}]}
              (set_fs (insert METADATA_FILENAME (File (json_dumps None (JDict ∅)))) fresh))
    as (w1 & w2 & final & record & H1 & H2 & _ & Hfinal & Hone & Hrecord & _ & _ & _ & Hclock & _).
  { right. split; [reflexivity|]. split; reflexivity. }
  { vm_compute. reflexivity. }
  exists w1, w2, final. split; [exact H1|]. split; [exact H2|]. split; [exact Hone|].
  rewrite Hfinal, Hrecord, Hclock. reflexivity.
Defined.

Lemma empty_identifier_witness :
  ∃ w', download ["https://example.com/"; "https://example.com/page"] fresh
        = (Raise FileNotFoundError, w')
        ∧ fs w' = ∅.
Proof.
  destruct (page_with_empty_identifier_raises ["https://example.com/page"] fresh
              (Response 200 (Sample.soup_str page)))
    as (_ & _ & w' & Hrun & Hfs & _).
  { reflexivity. }
  { reflexivity. }
  { reflexivity. }
  exists w'. split; [exact Hrun|exact Hfs].
Defined.

(** Against C1 as stated: in an empty working directory, metadata-display
    mode for a URL never downloaded prints the not-found line and makes
    [metadata.json], holding the empty dict. *)
Lemma fetch_metadata_makes_the_store :
  let run := fetch_metadata ["https://example.com/page"] fresh in
  run.1 = Ok tt
  ∧ stdout run.2 = ["Data not found for url: https://example.com/page"]
  ∧ fs fresh !! METADATA_FILENAME = None
  ∧ fs run.2 !! METADATA_FILENAME = Some (File "{}")
  ∧ fs run.2 ≠ fs fresh.
Proof.
  vm_compute. split_and!; try reflexivity. discriminate.
Qed.

(** Against C2 as stated: the page has a [<base>] tag with a non-empty
    [href], and that [href] is the only base URL the claim allows; but the
    first [<base>] tag has no [href], so the program resolves the image
    reference against the URL of the page. *)
Lemma later_base_href_is_not_used :
  let url := "https://example.com/a/bases.html" in
  let run := download_assets_soup url (Sample.soup_str two_bases) fresh in
  html_parser (Sample.soup_str two_bases) = two_bases
  ∧ any_base_rule url (Soup.tags two_bases) "https://cdn.example.com/"
  ∧ (∀ base, any_base_rule url (Soup.tags two_bases) base → base = "https://cdn.example.com/")
  ∧ base_url_of url two_bases = url
  ∧ network run.2 = [("https://example.com/a/img/x.jpg", [])]
  ∧ urljoin "https://cdn.example.com/" "img/x.jpg" = "https://cdn.example.com/img/x.jpg".
Proof.
  intros url run.
  assert (("base", {["href" := "https://cdn.example.com/"]} : gmap string string)
          ∈ Soup.tags two_bases) as Hin.
  { vm_compute. do 3 right. by left. }
  split_and!.
  - by vm_compute.
  - by apply (some_base_with_href url _ _ _ Hin).
  - intros base [t href Ht Hname Hhref Hne|Hnone].
    + vm_compute in Ht.
      repeat (apply elem_of_cons in Ht as [Heq|Ht];
              [subst t; vm_compute in Hname, Hhref; congruence|]).
      by apply elem_of_nil in Ht.
    + by specialize (Hnone _ _ Hin eq_refl eq_refl).
  - by vm_compute.
  - by vm_compute.
  - by vm_compute.
Qed.

End Runs.

(** ** Writes to the file system *)

Lemma apply_writes_cons (p data : string) (ws : list (string * string))
    (files : gmap string fnode) :
  apply_writes ((p, data) :: ws) files = apply_writes ws (<[p:=File data]> files).
Proof. done. Qed.

(** After a list of writes a path holds the data of the last write to it,
    and what it held before when there is none. *)
Lemma lookup_apply_writes (ws : list (string * string)) (files : gmap string fnode)
    (path : string) :
  apply_writes ws files !! path =
    match last_write path ws with
    | Some data => Some (File data)
    | None => files !! path
    end.
Proof.
  revert files. induction ws as [|[p data] ws IH]; intros files; [done|].
  rewrite apply_writes_cons, IH. cbn [last_write].
  destruct (last_write path ws) as [later|]; [done|].
  destruct (decide (path = p)) as [->|Hne].
  - by rewrite lookup_insert_eq.
  - by rewrite lookup_insert_ne.
Qed.

Lemma last_write_app (path : string) (front back : list (string * string)) :
  last_write path (front ++ back) =
    match last_write path back with
    | Some data => Some data
    | None => last_write path front
    end.
Proof.
  induction front as [|[p data] front IH]; simpl.
  - by destruct (last_write path back).
  - rewrite IH. by destruct (last_write path back).
Qed.

Lemma last_write_None (path : string) (ws : list (string * string)) :
  last_write path ws = None ↔ path ∉ ws.*1.
Proof.
  induction ws as [|[p data] ws IH]; simpl.
  - split; [intros _; apply not_elem_of_nil|done].
  - rewrite not_elem_of_cons, <-IH. destruct (last_write path ws).
    + split; [done|]. by intros [_ ?].
    + destruct (decide (path = p)) as [->|Hne].
      * split; [done|]. by intros [? _].
      * by split.
Qed.

(** Writing the same files a second time changes nothing. *)
Lemma apply_writes_twice (ws : list (string * string)) (files : gmap string fnode) :
  apply_writes ws (apply_writes ws files) = apply_writes ws files.
Proof.
  apply map_eq. intros path. rewrite !lookup_apply_writes.
  by destruct (last_write path ws).
Qed.

Lemma same_dirs_refl (f : gmap string fnode) : same_dirs f f.
Proof. by intros path. Qed.

Lemma same_dirs_sym (f g : gmap string fnode) : same_dirs f g → same_dirs g f.
Proof. intros Hfg path. symmetry. apply Hfg. Qed.

Lemma same_dirs_trans (f g h : gmap string fnode) :
  same_dirs f g → same_dirs g h → same_dirs f h.
Proof. intros Hfg Hgh path. etrans; [apply Hfg|apply Hgh]. Qed.

Lemma lookup_insert_file (files : gmap string fnode) (p data path : string) :
  Os.lookup (<[p:=File data]> files) path =
    if decide (path = p ∧ path ≠ "" ∧ path ≠ "." ∧ path ≠ "..")
    then Some (File data) else Os.lookup files path.
Proof.
  unfold Os.lookup. destruct (decide (path = "")) as [->|Hempty].
  { rewrite decide_False; [done|]. by intros (_ & ? & _). }
  destruct (decide (path = "." ∨ path = "..")) as [Hdots|Hnamed].
  { rewrite decide_False; [done|]. intros (_ & _ & ? & ?). by destruct Hdots. }
  destruct (decide (path = p)) as [->|Hne].
  - rewrite decide_True; [apply lookup_insert_eq|].
    split_and!; [done|done|..]; intros ->; apply Hnamed; auto.
  - rewrite decide_False by by intros [? _]. by apply lookup_insert_ne.
Qed.

(** Writing a file neither makes nor removes a directory. *)
Lemma same_dirs_write (files : gmap string fnode) (p data : string) :
  Os.lookup files p ≠ Some Dir → same_dirs (<[p:=File data]> files) files.
Proof.
  intros Hfile path. rewrite lookup_insert_file.
  destruct (decide _) as [(-> & _)|_]; [|done]. split; [done|]. intros Hdir. by destruct Hfile.
Qed.

Lemma same_dirs_write_both (f g : gmap string fnode) (p data : string) :
  same_dirs f g → same_dirs (<[p:=File data]> f) (<[p:=File data]> g).
Proof.
  intros Hfg path. rewrite !lookup_insert_file. destruct (decide _); [done|apply Hfg].
Qed.

Lemma writable_same_dirs (f g : gmap string fnode) (path : string) :
  same_dirs f g → writable f path → writable g path.
Proof.
  intros Hfg (Hnamed & Hfile & Hparent). split_and!; [done| |].
  - intros Hdir. by apply Hfile, Hfg.
  - destruct (Path.parent path) as [[|c d]|]; [done| |done]. by apply Hfg.
Qed.

(** [write_file] creates or replaces the file when the path is writable,
    and raises, changing nothing, when it is not. *)
Lemma write_file_writable (path data : string) (w : world) :
  writable (fs w) path →
  Os.write_file path data w = (Ok tt, set_fs (insert path (File data)) w).
Proof.
  intros (Hnamed & Hfile & Hparent). unfold Os.write_file.
  rewrite decide_False by done.
  assert (match Os.lookup (fs w) path with
          | Some Dir => (Raise IsADirectoryError, w)
          | _ => (Ok tt, set_fs (insert path (File data)) w)
          end = (Ok tt, set_fs (insert path (File data)) w)) as Hput.
  { by destruct (Os.lookup (fs w) path) as [[|?]|]. }
  destruct (Path.parent path) as [[|c d]|]; [done| |done]. by rewrite Hparent.
Qed.

Lemma write_file_not_writable (path data : string) (w : world) :
  ¬ writable (fs w) path → ∃ e, Os.write_file path data w = (Raise e, w).
Proof.
  intros Hnot. unfold Os.write_file.
  destruct (decide (path = "")) as [->|Hnamed]; [by eauto|].
  assert (Os.lookup (fs w) path ≠ Some Dir →
          match Path.parent path with
          | None | Some EmptyString => True
          | Some d => Os.lookup (fs w) d = Some Dir
          end → False) as Hcases.
  { intros Hfile Hparent. by apply Hnot. }
  destruct (Path.parent path) as [[|c d]|].
  - destruct (Os.lookup (fs w) path) as [[|?]|]; [by eauto|..]; by destruct Hcases.
  - destruct (Os.lookup (fs w) (String c d)) as [[|?]|]; [|by eauto..].
    destruct (Os.lookup (fs w) path) as [[|?]|]; [by eauto|..]; by destruct Hcases.
  - destruct (Os.lookup (fs w) path) as [[|?]|]; [by eauto|..]; by destruct Hcases.
Qed.

Lemma write_file_ok (path data : string) (w w' : world) :
  Os.write_file path data w = (Ok tt, w') →
  writable (fs w) path ∧ w' = set_fs (insert path (File data)) w.
Proof.
  intros Hwrite. destruct (decide (writable (fs w) path)) as [Hyes|Hno].
  - split; [done|]. rewrite write_file_writable in Hwrite by done. by injection Hwrite.
  - apply (write_file_not_writable _ data) in Hno as [e He]. congruence.
Qed.

(** ** The loop over the asset tags, when it ends *)

Section LoopEffects.

Context `{Libraries}.

#[local] Arguments dict_item : simpl never.
#[local] Arguments Py.endswith_any : simpl never.
#[local] Arguments asset_file_name : simpl never.
#[local] Arguments Path.join : simpl never.
#[local] Arguments Path.basename : simpl never.

Lemma lookup_insert_dir_named (files : gmap string fnode) (p : string) :
  p ≠ "" → ¬ (p = "." ∨ p = "..") → Os.lookup (<[p:=Dir]> files) p = Some Dir.
Proof.
  intros Hnamed Hdots. unfold Os.lookup. rewrite !decide_False by done.
  apply lookup_insert_eq.
Qed.

Lemma writes_of_cons (base directory : string) (t : Soup.tag) (ts : list Soup.tag) :
  writes_of base directory (t :: ts) =
    match write_of base directory t with
    | Some pd => pd :: writes_of base directory ts
    | None => writes_of base directory ts
    end.
Proof. unfold writes_of. by rewrite omap_cons_match. Qed.

Lemma all_answered_cons (base : string) (t : Soup.tag) (ts : list Soup.tag) :
  (∀ attr full_url file_name,
     fetch_of base t = Some (attr, full_url, file_name) → is_Some (http_get full_url [])) →
  all_answered base ts → all_answered base (t :: ts).
Proof.
  intros Ht Hts t' attr full name [->|Hin]%elem_of_cons Hfetch; [by eapply Ht|].
  by eapply Hts.
Qed.

(** A run of the loop that ends has written the files of [writes_of], in
    order, and made or removed no directory; every fetch was answered;
    and from any world that names the same directories the loop ends
    with the same document, the same writes and the same requests. *)
Lemma download_asset_loop_ok (base directory : string) (assets : list Soup.ref) :
  ∀ (cur : Soup.t) (w : world) (soup' : Soup.t) (w' : world),
  NoDup assets →
  (∀ r, r ∈ assets →
        ∃ t, Soup.tags cur !! r = Some t ∧ is_Some (dict_item ASSET_TAG_ATTRIBUTES t.1)) →
  download_asset_loop base directory assets cur w = (Ok soup', w') →
  fs w' = apply_writes (writes_of base directory (tags_at cur assets)) (fs w)
  ∧ same_dirs (fs w') (fs w)
  ∧ all_answered base (tags_at cur assets)
  ∧ ∀ v, same_dirs (fs v) (fs w) →
      ∃ v', download_asset_loop base directory assets cur v = (Ok soup', v')
            ∧ fs v' = apply_writes (writes_of base directory (tags_at cur assets)) (fs v)
            ∧ network v' = network v ++ planned_requests base (tags_at cur assets)
            ∧ stdout v' = stdout v ∧ clock v' = clock v.
Proof.
  induction assets as [|r0 rest IH]; intros cur w soup' w' Hnodup Htags Hrun.
  { cbn in Hrun. injection Hrun as <- <-. split_and!; [done|apply same_dirs_refl| |].
    - intros t attr full name Hin. by apply elem_of_nil in Hin.
    - intros v _. exists v. split_and!; try done. by rewrite app_nil_r. }
  apply NoDup_cons in Hnodup as [Hfresh Hnodup].
  destruct (Htags r0) as (t0 & Ht0 & Hattr0); [by left|].
  assert (∀ r, r ∈ rest → ∃ t, Soup.tags cur !! r = Some t
            ∧ is_Some (dict_item ASSET_TAG_ATTRIBUTES t.1)) as Htags_rest.
  { intros r Hr. apply Htags. by right. }
  cbn [download_asset_loop] in Hrun. rewrite bind_run in Hrun.
  rewrite (download_asset_run _ _ _ _ _ _ Ht0 Hattr0) in Hrun.
  rewrite (tags_at_cons _ _ _ _ Ht0), writes_of_cons, planned_requests_cons.
  unfold write_of.
  (* a turn that writes nothing *)
  assert (∀ sent,
            (∀ x, download_asset base directory cur r0 x
                  = (Ok cur, World (fs x) (stdout x) (network x ++ sent) (clock x))) →
            (∀ attr full_url file_name,
               fetch_of base t0 = Some (attr, full_url, file_name) →
               is_Some (http_get full_url [])) →
            download_asset_loop base directory rest cur
              (World (fs w) (stdout w) (network w ++ sent) (clock w)) = (Ok soup', w') →
            fs w' = apply_writes (writes_of base directory (tags_at cur rest)) (fs w)
            ∧ same_dirs (fs w') (fs w)
            ∧ all_answered base (t0 :: tags_at cur rest)
            ∧ ∀ v, same_dirs (fs v) (fs w) →
                ∃ v', download_asset_loop base directory (r0 :: rest) cur v = (Ok soup', v')
                      ∧ fs v' = apply_writes (writes_of base directory (tags_at cur rest)) (fs v)
                      ∧ network v' = network v ++ sent
                                     ++ planned_requests base (tags_at cur rest)
                      ∧ stdout v' = stdout v ∧ clock v' = clock v) as Hskip.
  { intros sent Hturn Hanswered Hrest.
    destruct (IH cur _ soup' w' Hnodup Htags_rest Hrest) as (Hfs & Hdirs & Hall & Hsim).
    split_and!; [done|done|by apply all_answered_cons|].
    intros v Hv.
    destruct (Hsim (World (fs v) (stdout v) (network v ++ sent) (clock v)) Hv)
      as (v' & Hloop & Hfsv & Hnet & Hout & Hclock).
    exists v'. split_and!; try done.
    - cbn [download_asset_loop]. by rewrite bind_run, Hturn.
    - rewrite Hnet. cbn [network]. by rewrite <-app_assoc. }
  destruct (fetch_of base t0) as [[[attr full_url] file_name]|] eqn:Hfetch.
  2:{ destruct (Hskip []) as (? & ? & ? & Hsim).
      - intros x. rewrite (download_asset_run _ _ _ _ _ _ Ht0 Hattr0), Hfetch.
        rewrite app_nil_r. by destruct x.
      - done.
      - rewrite app_nil_r. by destruct w.
      - by split_and!. }
  destruct (http_get full_url []) as [response|] eqn:Hget; [|done].
  assert (∀ attr' full' name',
            Some (attr, full_url, file_name) = Some (attr', full', name') →
            is_Some (http_get full' [])) as Hanswered.
  { intros ??? [= <- <- <-]. rewrite Hget. by eexists. }
  destruct (status_code response =? 200) eqn:Hstatus.
  2:{ destruct (Hskip [(full_url, [])]) as (? & ? & ? & Hsim).
      - intros x. rewrite (download_asset_run _ _ _ _ _ _ Ht0 Hattr0), Hfetch, Hget, Hstatus.
        done.
      - done.
      - done.
      - split_and!; try done. }
  clear Hskip. cbn [fst snd].
  destruct (Os.write_file (Path.join directory file_name) (content response)
              (add_request (full_url, []) w)) as [[[]|e] w1] eqn:Hwrite; [|done].
  apply write_file_ok in Hwrite as [Hwritable ->].
  set (path0 := Path.join directory file_name) in *.
  set (cur' := Soup.set cur r0 attr path0) in *.
  assert (∀ r, r ∈ rest → ∃ t, Soup.tags cur' !! r = Some t
            ∧ is_Some (dict_item ASSET_TAG_ATTRIBUTES t.1)) as Htags'.
  { intros r Hr. unfold cur'. rewrite tags_set_ne; [by apply Htags_rest|].
    intros ->. done. }
  destruct (IH cur' _ soup' w' Hnodup Htags' Hrun) as (Hfs & Hdirs & Hall & Hsim).
  unfold cur' in Hfs, Hall, Hsim. rewrite tags_at_set in Hfs, Hall, Hsim by done.
  cbn [fs set_fs add_request] in Hfs, Hdirs, Hwritable.
  assert (same_dirs (<[path0:=File (content response)]> (fs w)) (fs w)) as Hdirs0.
  { apply same_dirs_write. by destruct Hwritable as (_ & ? & _). }
  split_and!.
  - rewrite apply_writes_cons. exact Hfs.
  - exact (same_dirs_trans _ _ _ Hdirs Hdirs0).
  - apply all_answered_cons; [|done]. intros a f n Hf. rewrite Hfetch in Hf.
    by eapply Hanswered.
  - intros v Hv.
    assert (writable (fs v) path0) as Hwritable_v.
    { eapply writable_same_dirs; [|exact Hwritable]. by apply same_dirs_sym. }
    destruct (Hsim (set_fs (insert path0 (File (content response)))
                      (add_request (full_url, []) v)))
      as (v' & Hloop & Hfsv & Hnet & Hout & Hclock).
    { cbn [fs set_fs add_request]. by apply same_dirs_write_both. }
    exists v'. split_and!; try done.
    + cbn [download_asset_loop]. rewrite bind_run.
      rewrite (download_asset_run _ _ _ _ _ _ Ht0 Hattr0), Hfetch, Hget, Hstatus.
      fold path0. by rewrite (write_file_writable path0 _ (add_request (full_url, []) v)).
    + rewrite Hnet. cbn [network set_fs add_request]. by rewrite <-app_assoc.
Qed.

Lemma omap_filter_None {A B} (f : A → option B) (P : A → Prop) `{∀ x, Decision (P x)}
    (l : list A) :
  (∀ x, ¬ P x → f x = None) → omap f (filter P l) = omap f l.
Proof.
  intros Hnone. induction l as [|x l IH]; [done|].
  rewrite filter_cons. destruct (decide (P x)) as [Hx|Hx].
  - by rewrite !omap_cons_match, IH.
  - by rewrite omap_cons_match, (Hnone x Hx).
Qed.

Lemma fetch_of_asset_name (base : string) (t : Soup.tag) :
  t.1 ∉ ASSET_TAG_ATTRIBUTES.*1 → fetch_of base t = None.
Proof.
  intros Hname. destruct (fetch_of base t) as [[[attr full] name]|] eqn:Hfetch; [|done].
  apply fetch_of_reference in Hfetch as (ref & Href & _).
  apply asset_reference_is_asset in Href as (Hitem & _).
  by apply dict_item_elem_of in Hitem.
Qed.

Lemma writes_of_asset_tags (base directory : string) (ts : list Soup.tag) :
  writes_of base directory (filter (λ t : Soup.tag, t.1 ∈ ASSET_TAG_ATTRIBUTES.*1) ts)
  = writes_of base directory ts.
Proof.
  apply omap_filter_None. intros t Hname. unfold write_of.
  by rewrite fetch_of_asset_name.
Qed.

Lemma planned_requests_asset_tags (base : string) (ts : list Soup.tag) :
  planned_requests base (filter (λ t : Soup.tag, t.1 ∈ ASSET_TAG_ATTRIBUTES.*1) ts)
  = planned_requests base ts.
Proof.
  apply omap_filter_None. intros t Hname. by rewrite fetch_of_asset_name.
Qed.

Lemma all_answered_asset_tags (base : string) (ts : list Soup.tag) :
  all_answered base (filter (λ t : Soup.tag, t.1 ∈ ASSET_TAG_ATTRIBUTES.*1) ts) →
  all_answered base ts.
Proof.
  intros Hall t attr full name Hin Hfetch. apply (Hall t attr full name); [|done].
  apply list_elem_of_filter. split; [|done].
  destruct (decide (t.1 ∈ ASSET_TAG_ATTRIBUTES.*1)) as [|Hname]; [done|].
  by rewrite fetch_of_asset_name in Hfetch.
Qed.

Lemma is_Some_lookup_apply_writes (ws : list (string * string)) (files : gmap string fnode)
    (path : string) :
  is_Some (Os.lookup files path) → is_Some (Os.lookup (apply_writes ws files) path).
Proof.
  unfold Os.lookup. destruct (decide (path = "")); [done|].
  destruct (decide (path = "." ∨ path = "..")); [done|].
  rewrite lookup_apply_writes. by destruct (last_write path ws).
Qed.

(** A run of [download_assets] that ends, up to its last line: the
    identifier is not empty; the files are those before, with the page
    directory when it was not there, and then the writes of the loop; no
    other directory is made; every fetch was answered; and from any world
    with the same directories, the page directory among them or a file of
    that name, the run ends as well with the same document and the same
    writes and requests. *)
Lemma download_assets_soup_ok (url body : string) (w : world) (soup' : Soup.t) (w' : world) :
  download_assets_soup url body w = (Ok soup', w') →
  let soup := html_parser body in
  let base := base_url_of url soup in
  let directory := Path.basename url in
  let ws := writes_of base directory (Soup.tags soup) in
  directory ≠ ""
  ∧ ∃ before,
      ((is_Some (Os.lookup (fs w) directory) ∧ before = fs w)
       ∨ (Os.lookup (fs w) directory = None ∧ before = <[directory:=Dir]> (fs w)))
      ∧ is_Some (Os.lookup before directory)
      ∧ fs w' = apply_writes ws before
      ∧ same_dirs (fs w') before
      ∧ all_answered base (Soup.tags soup)
      ∧ network w' = network w ++ planned_requests base (Soup.tags soup)
      ∧ ∀ v, same_dirs (fs v) before → is_Some (Os.lookup (fs v) directory) →
          ∃ v', download_assets_soup url body v = (Ok soup', v')
                ∧ fs v' = apply_writes ws (fs v)
                ∧ network v' = network v ++ planned_requests base (Soup.tags soup)
                ∧ stdout v' = stdout v ∧ clock v' = clock v.
Proof.
  intros Hrun soup base directory ws.
  destruct (download_assets_soup_run _ _ _ _ _ Hrun)
    as [(_ & ? & _)|(Hnamed & w1 & Hw1 & Hloop)]; [done|].
  split; [done|].
  destruct (download_asset_loop_ok _ _ _ _ _ _ _ (NoDup_find_all _ _)
              (asset_tags_found soup) Hloop) as (Hfs & Hdirs & Hall & Hsim).
  fold soup base directory in Hfs, Hall, Hsim, Hw1.
  rewrite tags_at_find_all in Hfs, Hall, Hsim.
  rewrite writes_of_asset_tags in Hfs, Hsim.
  rewrite planned_requests_asset_tags in Hsim.
  apply all_answered_asset_tags in Hall. fold ws in Hfs, Hsim.
  assert (network w1 = network w) as Hnet1 by by destruct Hw1 as [[_ ->]|[_ ->]].
  exists (fs w1). split_and!.
  - destruct Hw1 as [[? ->]|[? ->]]; [by left|by right].
  - destruct Hw1 as [[? ->]|[Hnone ->]]; [done|]. cbn [fs set_fs].
    rewrite lookup_insert_dir_named; [by eexists|done|].
    intros Hdots. unfold Os.lookup in Hnone. rewrite decide_False in Hnone by done.
    by rewrite decide_True in Hnone.
  - done.
  - done.
  - done.
  - destruct (Hsim w1 (same_dirs_refl _)) as (v' & Hloop' & _ & Hnet & _).
    unfold base, directory, soup in Hloop'. rewrite Hloop in Hloop'.
    injection Hloop' as <-. by rewrite Hnet, Hnet1.
  - intros v Hv Hexists. destruct (Hsim v Hv) as (v' & Hloop' & Hrest).
    exists v'. split; [|done].
    unfold download_assets_soup. rewrite bind_run, path_exists_run.
    rewrite bool_decide_eq_true_2 by done. cbn [negb].
    by rewrite bind_run, ret_run.
Qed.

End LoopEffects.

(** ** More on [download_assets] *)

Lemma length_app_string (s t : string) :
  String.length (s +:+ t) = (String.length s + String.length t)%nat.
Proof. induction s as [|c s IH]; [done|]. rewrite string_app_cons. simpl. by rewrite IH. Qed.

Section MoreOnAssets.

Context `{Libraries}.

#[local] Arguments dict_item : simpl never.
#[local] Arguments Py.endswith_any : simpl never.
#[local] Arguments asset_file_name : simpl never.
#[local] Arguments Path.join : simpl never.
#[local] Arguments Path.basename : simpl never.

Lemma download_assets_ok (url body out : string) (w w' : world) :
  download_assets url body w = (Ok out, w') →
  ∃ soup', download_assets_soup url body w = (Ok soup', w') ∧ out = soup_str soup'.
Proof.
  unfold download_assets. rewrite bind_run.
  destruct (download_assets_soup url body w) as [[soup'|e] w1]; [|done].
  rewrite ret_run. intros [= <- <-]. by exists soup'.
Qed.

(** X1. Running [download_assets] a second time on the same page, right
    after a run that ended, ends too and returns the same text: it sends
    the same requests again, and leaves every file as the first run left
    it. *)
Theorem download_assets_again_changes_no_file (url body out : string) (w w' : world) :
  download_assets url body w = (Ok out, w') →
  ∃ w'' new,
    download_assets url body w' = (Ok out, w'')
    ∧ fs w'' = fs w'
    ∧ network w' = network w ++ new
    ∧ network w'' = network w' ++ new
    ∧ stdout w'' = stdout w' ∧ clock w'' = clock w'.
Proof.
  intros (soup' & Hrun & ->)%download_assets_ok.
  destruct (download_assets_soup_ok _ _ _ _ _ Hrun)
    as (_ & before & _ & Hthere & Hfs & Hdirs & _ & Hnet & Hsim).
  destruct (Hsim w' Hdirs) as (w'' & Hrun' & Hfs' & Hnet' & Hout & Hclock).
  { rewrite Hfs. by apply is_Some_lookup_apply_writes. }
  exists w'', (planned_requests (base_url_of url (html_parser body))
                 (Soup.tags (html_parser body))).
  split_and!; try done.
  - unfold download_assets. by rewrite bind_run, Hrun'.
  - by rewrite Hfs', Hfs, apply_writes_twice.
Qed.

Lemma write_of_Some (base directory : string) (t : Soup.tag) (path data : string) :
  write_of base directory t = Some (path, data) →
  ∃ attr ref response,
    asset_reference t = Some (attr, ref)
    ∧ fetch_of base t = Some (attr, urljoin base ref, asset_file_name (urljoin base ref))
    ∧ Py.endswith_any (asset_file_name (urljoin base ref)) POPULAR_EXTENSIONS = true
    ∧ http_get (urljoin base ref) [] = Some response
    ∧ status_code response = 200
    ∧ path = Path.join directory (asset_file_name (urljoin base ref))
    ∧ data = content response.
Proof.
  unfold write_of. destruct (fetch_of base t) as [[[attr full] name]|] eqn:Hfetch; [|done].
  pose proof Hfetch as Hfetch'.
  apply fetch_of_reference in Hfetch as (ref & Href & -> & -> & Hext).
  destruct (http_get _ _) as [response|] eqn:Hget; [|done].
  destruct (status_code response =? 200) eqn:Hstatus; [|done].
  intros [= <- <-]. apply Z.eqb_eq in Hstatus. by exists attr, ref, response.
Qed.

Lemma rewrite_tag_written (base directory : string) (t : Soup.tag) (path data : string) :
  write_of base directory t = Some (path, data) →
  ∃ attr ref, asset_reference t = Some (attr, ref)
              ∧ rewrite_tag base directory t = with_attr attr path t.
Proof.
  intros (attr & ref & response & Href & Hfetch & _ & Hget & Hstatus & -> & _)%write_of_Some.
  exists attr, ref. split; [done|]. unfold rewrite_tag, answered_200.
  rewrite Hfetch, Hget. by apply Z.eqb_eq in Hstatus as ->.
Qed.

(** X2. When [download_assets] ends, an asset tag whose download was
    answered with status 200 has the local path as its reference in the
    output document, and the local path names a file.  The file holds the
    body fetched for that tag unless a later tag of the document was
    downloaded to the same path: of the assets with one file name the
    last in the document is the one kept. *)
Theorem downloaded_asset_is_stored_and_referenced (url body : string) (w : world)
    (soup' : Soup.t) (w' : world) (i : nat) (t : Soup.tag) (path data : string) :
  download_assets_soup url body w = (Ok soup', w') →
  Soup.tags (html_parser body) !! i = Some t →
  write_of (base_url_of url (html_parser body)) (Path.basename url) t = Some (path, data) →
  (∃ attr ref, asset_reference t = Some (attr, ref) ∧ Soup.get soup' i attr = Some path)
  ∧ (∃ stored, fs w' !! path = Some (File stored))
  ∧ ((∀ j t' data', (i < j)%nat → Soup.tags (html_parser body) !! j = Some t' →
        write_of (base_url_of url (html_parser body)) (Path.basename url) t'
        ≠ Some (path, data')) →
     fs w' !! path = Some (File data)).
Proof.
  intros Hrun Ht Hwrite.
  set (soup := html_parser body) in *. set (base := base_url_of url soup) in *.
  set (directory := Path.basename url) in *.
  destruct (download_assets_soup_ok _ _ _ _ _ Hrun) as (_ & before & _ & _ & Hfs & _).
  destruct (download_assets_soup_facts _ _ _ _ _ Hrun) as (_ & _ & _ & _ & Hsoup).
  fold soup base directory in Hfs, Hsoup.
  assert (Soup.tags soup
          = take i (Soup.tags soup) ++ t :: drop (S i) (Soup.tags soup)) as Hsplit
    by by rewrite take_drop_middle.
  assert (writes_of base directory (Soup.tags soup)
          = writes_of base directory (take i (Soup.tags soup))
            ++ (path, data) :: writes_of base directory (drop (S i) (Soup.tags soup)))
    as Hws.
  { rewrite Hsplit at 1. unfold writes_of. by rewrite omap_app, omap_cons_match, Hwrite. }
  split_and!.
  - destruct (rewrite_tag_written _ _ _ _ _ Hwrite) as (attr & ref & Href & Hrewrite).
    exists attr, ref. split; [done|]. unfold Soup.get.
    rewrite (Hsoup soup' eq_refl), list_lookup_fmap, Ht. simpl. rewrite Hrewrite.
    apply lookup_insert_eq.
  - rewrite Hfs, lookup_apply_writes, Hws, last_write_app. cbn [last_write].
    rewrite decide_True by done.
    destruct (last_write path (writes_of base directory (drop (S i) (Soup.tags soup))));
      by eexists.
  - intros Hlast. rewrite Hfs, lookup_apply_writes, Hws, last_write_app. cbn [last_write].
    rewrite decide_True by done.
    assert (last_write path (writes_of base directory (drop (S i) (Soup.tags soup))) = None)
      as ->; [|done].
    apply last_write_None. intros Hin. apply list_elem_of_fmap in Hin as ([p d] & -> & Hin).
    apply list_elem_of_omap in Hin as (t' & Hin & Hwrite').
    apply list_elem_of_lookup in Hin as (k & Hk). rewrite lookup_drop in Hk.
    by apply (Hlast (S i + k)%nat t' d); [lia|..].
Qed.

(** The paths a run of [download_assets] can change. *)
Lemma download_assets_soup_frame (url body : string) (w : world)
    (res : result Soup.t) (w' : world) :
  download_assets_soup url body w = (res, w') →
  (∀ path, fs w' !! path ≠ fs w !! path →
     path = Path.basename url
     ∨ ∃ name suffix front,
         path = Path.basename url +:+ "/" +:+ name
         ∧ occurs "/" name = false
         ∧ suffix ∈ POPULAR_EXTENSIONS ∧ name = front +:+ suffix)
  ∧ fs w' !! (Path.basename url +:+ ".html") = fs w !! (Path.basename url +:+ ".html")
  ∧ (Path.basename url ≠ METADATA_FILENAME →
     fs w' !! METADATA_FILENAME = fs w !! METADATA_FILENAME)
  ∧ stdout w' = stdout w ∧ clock w' = clock w.
Proof.
  intros Hrun.
  assert (occurs "/" (Path.basename url) = false) as Hdir
    by by destruct (basename_final_segment url).
  assert (∀ path, fs w' !! path ≠ fs w !! path →
            path = Path.basename url
            ∨ ∃ name suffix front,
                path = Path.basename url +:+ "/" +:+ name
                ∧ occurs "/" name = false
                ∧ suffix ∈ POPULAR_EXTENSIONS ∧ name = front +:+ suffix) as Hframe.
  { intros path Hchanged.
    destruct (download_assets_soup_run _ _ _ _ _ Hrun) as [(_ & _ & ->)|(Hnamed & _)]; [done|].
    destruct (download_assets_soup_facts _ _ _ _ _ Hrun) as (_ & _ & _ & Hfiles & _).
    destruct (Hfiles path) as [Hsame|[(-> & _)|Hwritten]]; [done|by left|].
    destruct Hwritten as (t & attr & full & name & resp & _ & Hfetch & _ & _ & -> & _).
    apply fetch_of_reference in Hfetch as (ref & _ & -> & -> & Hext).
    apply endswith_any_spec in Hext as (suffix & front & Hin & Hname).
    right. exists (asset_file_name (urljoin (base_url_of url (html_parser body)) ref)),
             suffix, front.
    split_and!; [|apply asset_file_name_no_sep|done|done].
    apply join_under_directory; [done|done|apply asset_file_name_no_sep]. }
  destruct (download_assets_soup_facts _ _ _ _ _ Hrun) as (Hout & Hclock & _).
  split_and!; [done| | |done|done].
  - destruct (decide (fs w' !! (Path.basename url +:+ ".html")
                      = fs w !! (Path.basename url +:+ ".html"))) as [|Hchanged]; [done|].
    exfalso. destruct (Hframe _ Hchanged) as [Heq|(name & _ & _ & Heq & _)].
    + apply (f_equal String.length) in Heq. rewrite length_app_string in Heq.
      simpl in Heq. lia.
    + apply (f_equal (occurs "/")) in Heq. rewrite !occurs_app, Hdir in Heq. done.
  - intros Hid.
    destruct (decide (fs w' !! METADATA_FILENAME = fs w !! METADATA_FILENAME))
      as [|Hchanged]; [done|].
    exfalso. destruct (Hframe _ Hchanged) as [Heq|(name & _ & _ & Heq & _)]; [done|].
    apply (f_equal (occurs "/")) in Heq. rewrite !occurs_app in Heq. simpl in Heq.
    by rewrite orb_true_r in Heq.
Qed.


(** X4. The requests of a run of [download_assets] are one plain GET,
    without headers, per asset tag that has a reference whose file name
    has an allowed extension, in document order and without
    de-duplication: a run that raises has sent a first part of that list,
    a run that ends all of it. *)
Theorem asset_requests_follow_the_document (url body : string) (w : world)
    (res : result Soup.t) (w' : world) :
  download_assets_soup url body w = (res, w') →
  let base := base_url_of url (html_parser body) in
  let planned :=
    omap (λ t : Soup.tag,
            match asset_reference t with
            | Some (_, ref) =>
                if Py.endswith_any (asset_file_name (urljoin base ref)) POPULAR_EXTENSIONS
                then Some (urljoin base ref, [])
                else None
            | None => None
            end) (Soup.tags (html_parser body)) in
  ∃ new : list request,
    network w' = network w ++ new
    ∧ new `prefix_of` planned
    ∧ (returned res → new = planned)
    ∧ Forall (λ req : request, req.2 = []) new.
Proof.
  intros Hrun base planned.
  assert (planned = planned_requests base (Soup.tags (html_parser body))) as ->.
  { unfold planned, planned_requests. apply list_omap_ext, Forall2_same_length_lookup.
    split; [done|]. intros i t t' Ht Ht'. assert (t' = t) as -> by congruence.
    unfold fetch_of. destruct (asset_reference t) as [[attr ref]|]; [|done]. simpl.
    by destruct (Py.endswith_any _ _). }
  destruct (download_assets_soup_facts _ _ _ _ _ Hrun)
    as (_ & _ & (new & Hnew & Hprefix & Hall) & _).
  exists new. split_and!; try done.
  apply Forall_forall. intros req Hreq. eapply elem_of_prefix in Hreq; [|exact Hprefix].
  by apply elem_of_planned_requests in Hreq as (_ & _ & _ & _ & _ & ?).
Qed.

Lemma skeleton_update_forest (key value : string) (ns : list node) :
  Forall (λ n, ∀ i, skeleton (Soup.set_node key value i n) = skeleton n) ns →
  ∀ j, map skeleton
         (update_forest (λ c, length (Soup.tags_of c)) (Soup.set_node key value) j ns)
       = map skeleton ns.
Proof.
  induction 1 as [|c cs Hc _ IH]; intros j; simpl; [done|].
  destruct (j <? length (Soup.tags_of c))%nat; simpl; [by rewrite Hc|by rewrite IH].
Qed.

Lemma skeleton_set_node (key value : string) (n : node) (i : nat) :
  skeleton (Soup.set_node key value i n) = skeleton n.
Proof.
  revert i. induction n as [s|name attrs children IH] using node_forall_ind;
    intros [|j]; simpl; try done.
  f_equal. by apply skeleton_update_forest.
Qed.

Lemma skeleton_set (s : Soup.t) (r : Soup.ref) (key value : string) :
  map skeleton (Soup.set s r key value) = map skeleton s.
Proof.
  unfold Soup.set. apply skeleton_update_forest, Forall_forall.
  intros n _ i. apply skeleton_set_node.
Qed.

(** A turn of the loop that ends leaves the document or sets one
    attribute of the tag at hand. *)
Lemma download_asset_ok (base directory : string) (cur : Soup.t) (asset : Soup.ref)
    (w : world) (soup' : Soup.t) (w' : world) :
  download_asset base directory cur asset w = (Ok soup', w') →
  soup' = cur ∨ ∃ attr path, soup' = Soup.set cur asset attr path.
Proof.
  unfold download_asset.
  destruct (Soup.name cur asset ≫= dict_item ASSET_TAG_ATTRIBUTES) as [attr|]; [|done].
  destruct (Soup.get cur asset attr) as [ref|]; [|intros [= <- _]; by left].
  destruct (negb (Py.truthy ref)); [intros [= <- _]; by left|].
  destruct (negb (Py.endswith_any _ _)); [intros [= <- _]; by left|].
  rewrite bind_run. destruct (requests_get _ _ w) as [[response|e] w1]; [|done].
  destruct (negb (status_code response =? 200)); [intros [= <- _]; by left|].
  rewrite bind_run. destruct (Os.write_file _ _ w1) as [[[]|e] w2]; [|done].
  intros [= <- _]. right. by eexists _, _.
Qed.

Lemma download_asset_loop_skeleton (base directory : string) (assets : list Soup.ref)
    (cur : Soup.t) (w : world) (soup' : Soup.t) (w' : world) :
  download_asset_loop base directory assets cur w = (Ok soup', w') →
  map skeleton soup' = map skeleton cur.
Proof.
  revert cur w. induction assets as [|r rest IH]; intros cur w; cbn [download_asset_loop].
  - by intros [= <- _].
  - rewrite bind_run.
    destruct (download_asset base directory cur r w) as [[s1|e] w1] eqn:Hturn; [|done].
    intros Hrest%IH. rewrite Hrest.
    destruct (download_asset_ok _ _ _ _ _ _ _ Hturn) as [->|(attr & path & ->)]; [done|].
    apply skeleton_set.
Qed.

Lemma filter_fmap_length {A} (P : A → Prop) `{∀ x, Decision (P x)} (f : A → A)
    (l : list A) :
  (∀ x, P (f x) ↔ P x) → length (filter P (f <$> l)) = length (filter P l).
Proof.
  intros Hf. induction l as [|x l IH]; [done|].
  rewrite fmap_cons, !filter_cons.
  destruct (decide (P (f x))) as [Hfx|Hfx], (decide (P x)) as [Hx|Hx]; simpl;
    try by rewrite IH.
  - destruct Hx. by apply Hf.
  - destruct Hfx. by apply Hf.
Qed.

(** X5. When [download_assets] ends, the output document has the text and
    the nesting of the page, the same tags with the same names, and the
    same attributes but for the reference attribute of asset tags: a tag
    that is not [img], [script] or [link] is as it was, and the number of
    counted anchors is the one of the page. *)
Theorem rewriting_touches_only_asset_references (url body : string) (w : world)
    (soup' : Soup.t) (w' : world) :
  download_assets_soup url body w = (Ok soup', w') →
  map skeleton soup' = map skeleton (html_parser body)
  ∧ length (Soup.tags soup') = length (Soup.tags (html_parser body))
  ∧ (∀ i t t', Soup.tags (html_parser body) !! i = Some t → Soup.tags soup' !! i = Some t' →
       t'.1 = t.1
       ∧ (t.1 ∉ ASSET_TAG_ATTRIBUTES.*1 → t' = t)
       ∧ (∀ attr key, dict_item ASSET_TAG_ATTRIBUTES t.1 = Some attr → key ≠ attr →
            t'.2 !! key = t.2 !! key))
  ∧ anchors_in_document soup' = anchors_in_document (html_parser body).
Proof.
  intros Hrun.
  destruct (download_assets_soup_facts _ _ _ _ _ Hrun) as (_ & _ & _ & _ & Hsoup).
  specialize (Hsoup soup' eq_refl). cbv zeta in Hsoup.
  set (base := base_url_of url (html_parser body)) in *.
  set (directory := Path.basename url) in *.
  assert (∀ t, rewrite_tag base directory t = t
               ∨ ∃ attr path, dict_item ASSET_TAG_ATTRIBUTES t.1 = Some attr
                              ∧ rewrite_tag base directory t = with_attr attr path t)
    as Hcases.
  { intros t. unfold rewrite_tag.
    destruct (fetch_of base t) as [[[attr full] name]|] eqn:Hfetch; [|by left].
    destruct (answered_200 full); [|by left]. right.
    apply fetch_of_reference in Hfetch as (ref & Href & _).
    apply asset_reference_is_asset in Href as (Hitem & _). by eexists _, _. }
  split_and!.
  - destruct (download_assets_soup_run _ _ _ _ _ Hrun)
      as [(_ & ? & _)|(_ & w1 & _ & Hloop)]; [done|].
    by apply download_asset_loop_skeleton in Hloop.
  - by rewrite Hsoup, length_fmap.
  - intros i t t' Ht Ht'. rewrite Hsoup, list_lookup_fmap, Ht in Ht'.
    injection Ht' as <-.
    destruct (Hcases t) as [->|(attr & path & Hitem & ->)]; [done|]. split_and!.
    + done.
    + intros Hname. by apply dict_item_elem_of in Hitem.
    + intros attr' key Hitem' Hkey. assert (attr' = attr) as -> by congruence.
      unfold with_attr. simpl. by rewrite lookup_insert_ne.
  - rewrite <-!anchors_in_document_tags, Hsoup. apply filter_fmap_length.
    intros t. destruct (Hcases t) as [->|(attr & path & Hitem & ->)]; [done|].
    unfold counted_anchor, with_attr. simpl. split.
    + intros [Hname _]. rewrite Hname in Hitem. by vm_compute in Hitem.
    + intros [Hname _]. rewrite Hname in Hitem. by vm_compute in Hitem.
Qed.

End MoreOnAssets.

(** ** More on the metadata store *)

Section MoreOnMetadata.

Context `{Libraries}.

(** Reading the store, in every case: a path named [metadata.json] is
    read as it is, and raises when it is a directory or text [json.load]
    rejects; with no such path the file is made first. *)
Lemma read_metadata_file_cases (w : world) :
  (is_Some (Os.lookup (fs w) METADATA_FILENAME)
   ∧ read_metadata_file w =
       (match Os.lookup (fs w) METADATA_FILENAME with
        | Some (File text) =>
            match json_loads text with
            | Some v => Ok v
            | None => Raise JSONDecodeError
            end
        | Some Dir => Raise IsADirectoryError
        | None => Raise FileNotFoundError
        end, w))
  ∨ (Os.lookup (fs w) METADATA_FILENAME = None
     ∧ read_metadata_file w =
         (match json_loads (json_dumps None (JDict ∅)) with
          | Some v => Ok v
          | None => Raise JSONDecodeError
          end,
          set_fs (insert METADATA_FILENAME (File (json_dumps None (JDict ∅)))) w)).
Proof.
  unfold read_metadata_file, json_load, json_dump.
  rewrite bind_run, path_exists_run.
  destruct (Os.lookup (fs w) METADATA_FILENAME) as [node|] eqn:Hlookup.
  - left. split; [by eexists|].
    rewrite bool_decide_eq_true_2 by by eexists. cbn [negb].
    rewrite bind_run, ret_run. cbv beta iota. rewrite bind_run, read_file_run, Hlookup.
    destruct node as [|text]; [done|]. by destruct (json_loads text).
  - right. split; [done|].
    rewrite bool_decide_eq_false_2 by by intros [? ?]. cbn [negb].
    rewrite bind_run, write_metadata_file by by rewrite Hlookup. cbv beta iota.
    rewrite bind_run, read_file_run, lookup_metadata_file. cbn [fs set_fs].
    rewrite lookup_insert_eq. by destruct (json_loads _).
Qed.

Lemma read_metadata_file_frame (w : world) (res : result json) (w1 : world) :
  read_metadata_file w = (res, w1) →
  stdout w1 = stdout w ∧ network w1 = network w ∧ clock w1 = clock w
  ∧ (∀ path, path ≠ METADATA_FILENAME → fs w1 !! path = fs w !! path)
  ∧ (is_Some (Os.lookup (fs w) METADATA_FILENAME) → w1 = w)
  ∧ is_Some (Os.lookup (fs w1) METADATA_FILENAME)
  ∧ (Os.lookup (fs w1) METADATA_FILENAME = Some Dir →
     Os.lookup (fs w) METADATA_FILENAME = Some Dir).
Proof.
  intros Hrun. destruct (read_metadata_file_cases w) as [[Hsome Hread]|[Hnone Hread]];
    rewrite Hread in Hrun; injection Hrun as <- <-.
  - by split_and!.
  - split_and!; try done.
    + intros path Hpath. cbn [fs set_fs]. by rewrite lookup_insert_ne.
    + intros Hsome. rewrite Hnone in Hsome. by destruct Hsome.
    + rewrite lookup_metadata_file. cbn [fs set_fs]. rewrite lookup_insert_eq. by eexists.
    + rewrite lookup_metadata_file. cbn [fs set_fs]. by rewrite lookup_insert_eq.
Qed.

(** A turn of the loop of metadata-display mode, whatever the store holds:
    it prints at most one line and changes nothing else. *)
Lemma fetch_metadata_url_frame (metadata : json) (url : string) (w : world)
    (res : result unit) (w' : world) :
  fetch_metadata_url metadata url w = (res, w') →
  fs w' = fs w ∧ network w' = network w ∧ clock w' = clock w
  ∧ ∃ lines, stdout w' = stdout w ++ lines ∧ (length lines ≤ 1)%nat.
Proof.
  assert (∀ line, ∃ lines, stdout (add_stdout line w) = stdout w ++ lines
                           ∧ (length lines ≤ 1)%nat) as Hprint.
  { intros line. by exists [line]. }
  assert (∃ lines, stdout w = stdout w ++ lines ∧ (length lines ≤ 1)%nat) as Hquiet.
  { exists []. split; [by rewrite app_nil_r|simpl; lia]. }
  unfold fetch_metadata_url, contains, getitem. cbv zeta. rewrite bind_run.
  destruct metadata as [| | | |s|items|items]; rewrite ?ret_run; cbv beta iota;
    try (intros [= <- <-]; by split_and!).
  - destruct (negb (Py.str_contains _ _)); [intros [= <- <-]; by split_and!|].
    rewrite bind_run. intros [= <- <-]. by split_and!.
  - destruct (negb (existsb _ _)); [intros [= <- <-]; by split_and!|].
    rewrite bind_run. intros [= <- <-]. by split_and!.
  - destruct (negb (bool_decide _)); [intros [= <- <-]; by split_and!|].
    rewrite bind_run. destruct (items !! Path.basename url) as [record|].
    + rewrite ret_run. intros [= <- <-]. by split_and!.
    + intros [= <- <-]. by split_and!.
Qed.

Lemma fetch_metadata_loop_frame (metadata : json) (urls : list string) (w : world)
    (res : result unit) (w' : world) :
  fetch_metadata_loop metadata urls w = (res, w') →
  fs w' = fs w ∧ network w' = network w ∧ clock w' = clock w
  ∧ ∃ lines, stdout w' = stdout w ++ lines ∧ (length lines ≤ length urls)%nat.
Proof.
  revert w. induction urls as [|url urls IH]; intros w; cbn [fetch_metadata_loop].
  - intros [= <- <-]. split_and!; try done. exists []. by rewrite app_nil_r.
  - rewrite bind_run.
    destruct (fetch_metadata_url metadata url w) as [[[]|e] w1] eqn:Hturn;
      destruct (fetch_metadata_url_frame _ _ _ _ _ Hturn)
        as (Hfs & Hnet & Hclock & lines & Hout & Hlen).
    + intros (Hfs' & Hnet' & Hclock' & lines' & Hout' & Hlen')%IH.
      split_and!; try congruence. exists (lines ++ lines'). split.
      * by rewrite Hout', Hout, app_assoc.
      * rewrite length_app. simpl. lia.
    + intros [= <- <-]. split_and!; try done. exists lines. split; [done|]. simpl. lia.
Qed.

(** X6. Metadata-display mode, whatever [metadata.json] holds and whether
    it ends or raises: it sends no request, does not read the clock,
    prints at most one line per URL, touches no path other than
    [metadata.json], and leaves a [metadata.json] that was there as it
    was. *)
Theorem display_mode_only_reads (urls : list string) (w : world)
    (res : result unit) (w' : world) :
  fetch_metadata urls w = (res, w') →
  network w' = network w
  ∧ clock w' = clock w
  ∧ (∃ lines, stdout w' = stdout w ++ lines ∧ (length lines ≤ length urls)%nat)
  ∧ (∀ path, path ≠ METADATA_FILENAME → fs w' !! path = fs w !! path)
  ∧ (is_Some (Os.lookup (fs w) METADATA_FILENAME) → fs w' = fs w).
Proof.
  unfold fetch_metadata. rewrite bind_run.
  destruct (read_metadata_file w) as [[metadata|e] w1] eqn:Hread;
    destruct (read_metadata_file_frame _ _ _ Hread)
      as (Hout & Hnet & Hclock & Hframe & Hthere & _).
  - intros (Hfs' & Hnet' & Hclock' & lines & Hout' & Hlen)%fetch_metadata_loop_frame.
    split_and!; try congruence.
    + exists lines. split; [congruence|done].
    + intros path Hpath. rewrite Hfs'. by apply Hframe.
    + intros Hsome. rewrite Hfs'. by rewrite (Hthere Hsome).
  - intros [= <- <-]. split_and!; try done.
    + exists []. split; [by rewrite Hout, app_nil_r|simpl; lia].
    + intros Hsome. by rewrite (Hthere Hsome).
Qed.

(** X7. A [metadata.json] that is a directory, or holds text that
    [json.load] rejects, makes every use of the store raise, with
    [IsADirectoryError] or [JSONDecodeError]: reading it, the upsert and
    metadata-display mode all raise before they change or print
    anything, and the file is not repaired. *)
Theorem unreadable_store_raises (w : world) (e : exn) :
  (Os.lookup (fs w) METADATA_FILENAME = Some Dir ∧ e = IsADirectoryError)
  ∨ (∃ text, Os.lookup (fs w) METADATA_FILENAME = Some (File text)
             ∧ json_loads text = None ∧ e = JSONDecodeError) →
  read_metadata_file w = (Raise e, w)
  ∧ (∀ identifier values, store_metadata identifier values w = (Raise e, w))
  ∧ (∀ urls, fetch_metadata urls w = (Raise e, w)).
Proof.
  intros Hbad.
  assert (read_metadata_file w = (Raise e, w)) as Hread.
  { destruct (read_metadata_file_cases w) as [[_ ->]|[Hnone _]].
    - destruct Hbad as [[-> ->]|(text & -> & -> & ->)]; done.
    - destruct Hbad as [[Hdir _]|(text & Hfile & _)]; congruence. }
  split_and!; [done| |].
  - intros identifier values. unfold store_metadata. by rewrite bind_run, Hread.
  - intros urls. unfold fetch_metadata. by rewrite bind_run, Hread.
Qed.

(** X8. With a [metadata.json] that holds JSON other than an object, the
    upsert reads the clock and then raises [TypeError]: the file is left
    as it was.  When the value is [null], a boolean or a number,
    metadata-display mode raises [TypeError] at the first URL, with
    nothing printed. *)
Theorem store_that_is_no_object_raises (w : world) (text : string) (v : json) :
  Os.lookup (fs w) METADATA_FILENAME = Some (File text) →
  json_loads text = Some v →
  (∀ items, v ≠ JDict items) →
  (∀ identifier values, store_metadata identifier values w = (Raise TypeError, tick w))
  ∧ (match v with JNull | JBool _ | JInt _ | JFloat _ => True | _ => False end →
     ∀ url rest, fetch_metadata (url :: rest) w = (Raise TypeError, w)).
Proof.
  intros Hfile Hloads Hshape.
  assert (read_metadata_file w = (Ok v, w)) as Hread.
  { destruct (read_metadata_file_cases w) as [[_ ->]|[Hnone _]]; [|congruence].
    by rewrite Hfile, Hloads. }
  split.
  - intros identifier values. unfold store_metadata. rewrite bind_run, Hread.
    cbv beta iota zeta. rewrite bind_run. unfold datetime_now. cbv beta iota.
    rewrite bind_run. destruct v; try done. by destruct (Hshape items).
  - intros Hscalar url rest. unfold fetch_metadata. rewrite bind_run, Hread.
    cbv beta iota. cbn [fetch_metadata_loop]. rewrite bind_run.
    unfold fetch_metadata_url. cbv zeta. rewrite bind_run. by destruct v.
Qed.

(** X9. An upsert followed by metadata-display mode, when the text the
    upsert writes reads back as the store it was written from: the
    display ends normally and prints, for every URL whose identifier is
    the one upserted, the record just stored, and for any other URL the
    line it would have printed before the upsert. *)
Theorem upsert_then_display (identifier : string) (values : gmap string json)
    (urls : list string) (w : world) (store : gmap string json) (w0 : world) :
  stored w (JDict store) w0 →
  json_loads (json_dumps (Some 2%nat)
                (JDict (<[identifier:=record_of identifier (datetime_str (clock w)) values]>
                          store)))
  = Some (JDict (<[identifier:=record_of identifier (datetime_str (clock w)) values]> store)) →
  ∃ w1 w2,
    store_metadata identifier values w = (Ok tt, w1)
    ∧ fetch_metadata urls w1 = (Ok tt, w2)
    ∧ stdout w2
      = stdout w
        ++ ((λ url, if decide (Path.basename url = identifier)
                    then py_str (record_of identifier (datetime_str (clock w)) values)
                    else report store url) <$> urls)
    ∧ fs w2 = fs w1.
Proof.
  intros Hstored Hreload.
  pose proof (store_metadata_run identifier values w store w0 Hstored) as Hupsert.
  destruct (read_metadata_file_stored _ _ _ Hstored) as (_ & _ & Hout0 & _).
  set (record := record_of identifier (datetime_str (clock w)) values) in *.
  set (w1 := set_fs _ (tick w0)) in Hupsert.
  assert (stored w1 (JDict (<[identifier:=record]> store)) w1) as Hstored1.
  { left. eexists. split_and!; [|exact Hreload|done].
    rewrite lookup_metadata_file. unfold w1. cbn [fs set_fs]. apply lookup_insert_eq. }
  destruct (read_metadata_file_stored _ _ _ Hstored1) as (Hread & _).
  destruct (fetch_metadata_loop_run (<[identifier:=record]> store) urls w1)
    as (w2 & Hloop & Hout & Hfs & _).
  exists w1, w2. split_and!; [done| | |done].
  - unfold fetch_metadata. by rewrite bind_run, Hread.
  - rewrite Hout. unfold w1. cbn [stdout set_fs tick]. rewrite Hout0. f_equal.
    apply list_fmap_ext. intros _ url _. unfold report.
    destruct (decide (Path.basename url = identifier)) as [->|Hother].
    + by rewrite lookup_insert_eq.
    + by rewrite lookup_insert_ne.
Qed.

End MoreOnMetadata.

(** ** More on [download] *)

Section MoreOnDownload.

Context `{Libraries}.

#[local] Arguments dict_item : simpl never.
#[local] Arguments Py.endswith_any : simpl never.
#[local] Arguments asset_file_name : simpl never.
#[local] Arguments Path.join : simpl never.
#[local] Arguments Path.basename : simpl never.

(** The run over a list is the run over a first part, then over the rest
    from the world the first part left; a first part that raises ends the
    run. *)
Lemma download_app (before rest : list string) (w : world) :
  download (before ++ rest) w =
    match download before w with
    | (Ok _, w1) => download rest w1
    | (Raise e, w1) => (Raise e, w1)
    end.
Proof.
  revert w. induction before as [|url before IH]; intros w; [done|].
  cbn [app download]. rewrite !bind_run.
  destruct (download_url url w) as [[[]|e] w1]; [apply IH|done].
Qed.

(** The turn of the loop of [download] for a valid URL answered with
    status 200. *)
Lemma download_url_fetched (url : string) (w : world) (response : response) :
  is_valid_url url = true →
  http_get url USER_AGENT_HEADER = Some response →
  status_code response = 200 →
  download_url url w =
    match download_assets url (content response) (add_request (url, USER_AGENT_HEADER) w) with
    | (Ok out, wa) =>
        match Os.write_file (Path.basename url +:+ ".html") out wa with
        | (Ok _, wb) =>
            store_metadata (Path.basename url)
              {["links" := JInt (get_number_of_links (content response))]} wb
        | (Raise e, wb) => (Raise e, wb)
        end
    | (Raise e, wa) => (Raise e, wa)
    end.
Proof.
  intros Hvalid Hget Hstatus. unfold download_url. rewrite Hvalid. cbn [negb].
  rewrite bind_run. unfold requests_get. rewrite Hget.
  apply Z.eqb_eq in Hstatus as ->. cbn [negb]. cbv zeta. rewrite bind_run.
  destruct (download_assets _ _ _) as [[out|e] wa]; [|done].
  rewrite bind_run. by destruct (Os.write_file _ _ wa) as [[[]|e] wb].
Qed.

(** X10. Exceptions are not caught: when [requests.get] fails for a page
    ([ConnectionError]), the run ends there with that exception.  Nothing
    is printed for the page, no file is made, and the URLs that follow are
    not processed. *)
Theorem unreachable_page_ends_the_run (before : list string) (url : string)
    (rest : list string) (w w1 : world) :
  download before w = (Ok tt, w1) →
  is_valid_url url = true →
  http_get url USER_AGENT_HEADER = None →
  download (before ++ url :: rest) w
  = (Raise ConnectionError, add_request (url, USER_AGENT_HEADER) w1)
  ∧ fs (add_request (url, USER_AGENT_HEADER) w1) = fs w1
  ∧ stdout (add_request (url, USER_AGENT_HEADER) w1) = stdout w1.
Proof.
  intros Hbefore Hvalid Hget. split; [|done].
  rewrite download_app, Hbefore. cbn [download]. rewrite bind_run.
  unfold download_url. rewrite Hvalid. cbn [negb]. rewrite bind_run.
  unfold requests_get. by rewrite Hget.
Qed.

(** X11. When [requests.get] fails for an asset of a page, the page is
    lost and the run ends: [download] raises, the page file is not
    written, the clock is not read (no record is made), nothing is
    printed, and [metadata.json] is as it was unless it is the identifier
    of the page. *)
Theorem unreachable_asset_ends_the_run (url : string) (rest : list string) (w : world)
    (response : response) (t : Soup.tag) (attr full_url file_name : string) :
  is_valid_url url = true →
  http_get url USER_AGENT_HEADER = Some response →
  status_code response = 200 →
  t ∈ Soup.tags (html_parser (content response)) →
  fetch_of (base_url_of url (html_parser (content response))) t
  = Some (attr, full_url, file_name) →
  http_get full_url [] = None →
  ∃ e w', download (url :: rest) w = (Raise e, w')
          ∧ fs w' !! (Path.basename url +:+ ".html") = fs w !! (Path.basename url +:+ ".html")
          ∧ (Path.basename url ≠ METADATA_FILENAME →
             fs w' !! METADATA_FILENAME = fs w !! METADATA_FILENAME)
          ∧ stdout w' = stdout w ∧ clock w' = clock w.
Proof.
  intros Hvalid Hget Hstatus Hin Hfetch Hdown.
  destruct (download_assets_soup url (content response)
              (add_request (url, USER_AGENT_HEADER) w)) as [res wa] eqn:Hrun.
  destruct (download_assets_soup_frame _ _ _ _ _ Hrun) as (_ & Hhtml & Hstore & Hout & Hclock).
  destruct res as [soup'|e].
  { destruct (download_assets_soup_ok _ _ _ _ _ Hrun) as (_ & _ & _ & _ & _ & _ & Hall & _).
    destruct (Hall t attr full_url file_name Hin Hfetch) as [answer Hanswer]. congruence. }
  exists e, wa. split_and!; try done.
  cbn [download]. rewrite bind_run, (download_url_fetched _ _ _ Hvalid Hget Hstatus).
  unfold download_assets. by rewrite bind_run, Hrun.
Qed.

Lemma parent_no_sep (p : string) : occurs "/" p = false → Path.parent p = None.
Proof.
  induction p as [|c p IH]; [done|]. simpl. intros [Hc Hp]%orb_false_iff.
  rewrite (IH Hp). unfold Path.sep. by rewrite Hc.
Qed.

Lemma page_file_no_sep (url : string) : occurs "/" (Path.basename url +:+ ".html") = false.
Proof.
  rewrite occurs_app. by destruct (basename_final_segment url) as [-> _].
Qed.

Lemma page_file_is_not_the_store (identifier : string) :
  identifier +:+ ".html" ≠ METADATA_FILENAME.
Proof.
  intros Heq.
  assert (Py.endswith METADATA_FILENAME ".html" = true) as Hends.
  { apply endswith_spec. by exists identifier. }
  by vm_compute in Hends.
Qed.

Lemma page_file_is_named (identifier : string) :
  identifier +:+ ".html" ≠ "" ∧ ¬ (identifier +:+ ".html" = "." ∨ identifier +:+ ".html" = "..").
Proof.
  assert (∀ s, String.length s < 5 → identifier +:+ ".html" ≠ s)%nat as Hlen.
  { intros s Hs Heq. apply (f_equal String.length) in Heq.
    rewrite length_app_string in Heq. simpl in Heq. lia. }
  split; [apply Hlen; simpl; lia|]. intros [Heq|Heq]; revert Heq; apply Hlen; simpl; lia.
Qed.

Lemma lookup_page_file (files : gmap string fnode) (identifier : string) :
  Os.lookup files (identifier +:+ ".html") = files !! (identifier +:+ ".html").
Proof.
  destruct (page_file_is_named identifier) as [Hnamed Hdots].
  unfold Os.lookup. by rewrite !decide_False.
Qed.

(** The page file can be written unless a directory has its name. *)
Lemma page_file_writable (files : gmap string fnode) (url : string) :
  Os.lookup files (Path.basename url +:+ ".html") ≠ Some Dir →
  writable files (Path.basename url +:+ ".html").
Proof.
  intros Hfile. split_and!; [apply page_file_is_named|done|].
  by rewrite parent_no_sep by apply page_file_no_sep.
Qed.

Lemma read_metadata_file_ok (w : world) (v : json) (w1 : world) :
  read_metadata_file w = (Ok v, w1) → stored w v w1.
Proof.
  intros Hread. destruct (read_metadata_file_cases w) as [[_ Hcase]|[Hnone Hcase]];
    rewrite Hcase in Hread.
  - left. destruct (Os.lookup (fs w) METADATA_FILENAME) as [[|text]|]; try done.
    exists text. destruct (json_loads text) as [v'|] eqn:Hloads; [|done].
    injection Hread as <- <-. by split_and!.
  - right. destruct (json_loads _) as [v'|] eqn:Hloads; [|done].
    injection Hread as <- <-. by split_and!.
Qed.

(** An upsert that ends read the store as a dict and wrote it back with
    the record of the page. *)
Lemma store_metadata_ok (identifier : string) (values : gmap string json) (w w' : world) :
  store_metadata identifier values w = (Ok tt, w') →
  ∃ store w1,
    stored w (JDict store) w1
    ∧ w' = set_fs (insert METADATA_FILENAME
                     (File (json_dumps (Some 2%nat)
                              (JDict (<[identifier:=record_of identifier
                                          (datetime_str (clock w)) values]> store)))))
             (tick w1).
Proof.
  intros Hrun. pose proof Hrun as Hrun'. unfold store_metadata in Hrun.
  rewrite bind_run in Hrun.
  destruct (read_metadata_file w) as [[v|e] w1] eqn:Hread; [|done].
  apply read_metadata_file_ok in Hread.
  cbv beta iota zeta in Hrun. rewrite bind_run in Hrun. unfold datetime_now in Hrun.
  cbv beta iota in Hrun. rewrite bind_run in Hrun.
  destruct v as [| | | | | |store]; try done.
  exists store, w1. split; [done|].
  rewrite (store_metadata_run _ _ _ _ _ Hread) in Hrun'. by injection Hrun'.
Qed.

(** Whatever way an upsert ends, it prints nothing, sends nothing, reads
    the clock at most once and touches no path other than
    [metadata.json], where it makes no directory. *)
Lemma store_metadata_frame (identifier : string) (values : gmap string json)
    (w : world) (res : result unit) (w' : world) :
  store_metadata identifier values w = (res, w') →
  stdout w' = stdout w ∧ network w' = network w
  ∧ (clock w' = clock w ∨ clock w' = S (clock w))
  ∧ (∀ path, path ≠ METADATA_FILENAME → fs w' !! path = fs w !! path)
  ∧ (is_Some (fs w !! METADATA_FILENAME) → is_Some (fs w' !! METADATA_FILENAME)).
Proof.
  unfold store_metadata. rewrite bind_run.
  destruct (read_metadata_file w) as [[v|e] w1] eqn:Hread;
    destruct (read_metadata_file_frame _ _ _ Hread)
      as (Hout & Hnet & Hclock & Hframe & Hthere & Hsome & _).
  2:{ intros [= <- <-]. split_and!; [done|done|by left|done|].
      intros Hwas. rewrite Hthere; [done|]. by rewrite lookup_metadata_file. }
  cbv beta iota zeta. rewrite bind_run. unfold datetime_now. cbv beta iota.
  rewrite bind_run. unfold setitem, json_dump.
  assert (∀ r w2, (r, w2) = (Raise TypeError : result unit, tick w1) →
            stdout w2 = stdout w ∧ network w2 = network w
            ∧ (clock w2 = clock w ∨ clock w2 = S (clock w))
            ∧ (∀ path, path ≠ METADATA_FILENAME → fs w2 !! path = fs w !! path)
            ∧ (is_Some (fs w !! METADATA_FILENAME) → is_Some (fs w2 !! METADATA_FILENAME)))
    as Hraise.
  { intros r w2 [= -> ->]. cbn [stdout network clock fs tick].
    split_and!; try done; try (right; by rewrite Hclock);
      try (intros _; by rewrite <-lookup_metadata_file). }
  destruct v as [| | | | | |store]; try (intros Heq; by apply (Hraise res w')).
  rewrite ret_run. cbv beta iota.
  destruct (write_file_cases METADATA_FILENAME
              (json_dumps (Some 2%nat)
                 (JDict (<[identifier:=JDict (<["last_fetch":=JStr (datetime_str (clock w1))]>
                                                (<["site":=JStr identifier]> values))]> store)))
              (tick w1)) as [->|[e ->]]; intros [= <- <-];
    cbn [stdout network clock fs tick set_fs];
    split_and!; try done; try (right; by rewrite Hclock);
      try (intros _; by rewrite <-lookup_metadata_file);
      try (intros path Hpath; rewrite lookup_insert_ne by done; by apply Hframe);
      try (intros _; rewrite lookup_insert_eq; by eexists).
Qed.

(** X12. A page fetched with status 200 whose assets are processed to the
    end, whose page file name is not taken by a directory and whose store
    reads as a dict is downloaded in full: the turn of the loop ends
    normally, the page file holds the text of the rewritten document, and
    [metadata.json] holds the store with, under the identifier, the
    record of the page: its link count as fetched, [site] the identifier
    and [last_fetch] the clock.  Nothing is printed and no request is sent
    after the assets. *)
Theorem fetched_page_is_written_and_recorded (url : string) (w : world)
    (response : response) (soup' : Soup.t) (wa : world) (store : gmap string json)
    (wm : world) :
  is_valid_url url = true →
  http_get url USER_AGENT_HEADER = Some response →
  status_code response = 200 →
  download_assets_soup url (content response) (add_request (url, USER_AGENT_HEADER) w)
  = (Ok soup', wa) →
  Os.lookup (fs wa) (Path.basename url +:+ ".html") ≠ Some Dir →
  stored (set_fs (insert (Path.basename url +:+ ".html") (File (soup_str soup'))) wa)
    (JDict store) wm →
  let record :=
    record_of (Path.basename url) (datetime_str (clock w))
      {["links" := JInt (get_number_of_links (content response))]} in
  ∃ w', download_url url w = (Ok tt, w')
        ∧ fs w' !! (Path.basename url +:+ ".html") = Some (File (soup_str soup'))
        ∧ fs w' !! METADATA_FILENAME
          = Some (File (json_dumps (Some 2%nat)
                          (JDict (<[Path.basename url:=record]> store))))
        ∧ field record "links" = Some (JInt (get_number_of_links (content response)))
        ∧ field record "site" = Some (JStr (Path.basename url))
        ∧ (∀ path, path ≠ METADATA_FILENAME → path ≠ Path.basename url +:+ ".html" →
             fs w' !! path = fs wa !! path)
        ∧ network w' = network wa ∧ stdout w' = stdout w ∧ clock w' = S (clock w).
Proof.
  intros Hvalid Hget Hstatus Hassets Hfile Hstored record.
  destruct (download_assets_soup_frame _ _ _ _ _ Hassets) as (_ & _ & _ & Houta & Hclocka).
  set (page := Path.basename url +:+ ".html") in *.
  set (wb := set_fs (insert page (File (soup_str soup'))) wa) in *.
  pose proof (store_metadata_run (Path.basename url)
                {["links" := JInt (get_number_of_links (content response))]}
                wb store wm Hstored) as Hupsert.
  destruct (read_metadata_file_stored _ _ _ Hstored) as (Hread & _ & Houtm & Hnetm & Hclockm).
  destruct (read_metadata_file_frame _ _ _ Hread) as (_ & _ & _ & Hframe & _).
  assert (clock wb = clock w) as Hclockb by (unfold wb; cbn [clock set_fs]; by rewrite Hclocka).
  assert (stdout wb = stdout w) as Houtb by (unfold wb; cbn [stdout set_fs]; by rewrite Houta).
  rewrite Hclockb in Hupsert. rewrite Hclockb in Hclockm. rewrite Houtb in Houtm.
  eexists. split_and!.
  - rewrite (download_url_fetched _ _ _ Hvalid Hget Hstatus).
    unfold download_assets. rewrite bind_run, Hassets, ret_run.
    fold page. rewrite (write_file_writable page _ wa) by by apply page_file_writable.
    exact Hupsert.
  - cbn [fs set_fs tick]. rewrite lookup_insert_ne by apply not_eq_sym, page_file_is_not_the_store.
    rewrite Hframe by apply page_file_is_not_the_store.
    unfold wb. cbn [fs set_fs]. apply lookup_insert_eq.
  - cbn [fs set_fs tick]. by rewrite lookup_insert_eq.
  - done.
  - done.
  - intros path Hstore Hpage. cbn [fs set_fs tick]. rewrite lookup_insert_ne by done.
    rewrite Hframe by done. unfold wb. cbn [fs set_fs]. by rewrite lookup_insert_ne.
  - cbn [network set_fs tick]. by rewrite Hnetm.
  - cbn [stdout set_fs tick]. by rewrite Houtm.
  - cbn [clock set_fs tick]. by rewrite Hclockm.
Qed.

Lemma is_Some_lookup_insert (files : gmap string fnode) (p q : string) (x : fnode) :
  is_Some (Os.lookup files p) → is_Some (Os.lookup (<[q:=x]> files) p).
Proof.
  unfold Os.lookup. destruct (decide (p = "")); [done|].
  destruct (decide (p = "." ∨ p = "..")); [done|].
  destruct (decide (q = p)) as [->|Hne].
  - rewrite lookup_insert_eq. by eexists.
  - by rewrite lookup_insert_ne.
Qed.

(** Reading the store leaves the files as they are or adds the store
    file: the directories stay the same and every path stays named. *)
Lemma stored_files (w : world) (v : json) (w1 : world) :
  stored w v w1 →
  same_dirs (fs w1) (fs w)
  ∧ (∀ path, path ≠ METADATA_FILENAME → fs w1 !! path = fs w !! path)
  ∧ (∀ path, is_Some (Os.lookup (fs w) path) → is_Some (Os.lookup (fs w1) path))
  ∧ Os.lookup (fs w1) METADATA_FILENAME ≠ Some Dir.
Proof.
  intros [(text & Hfile & _ & ->)|(Hnone & _ & ->)].
  - split_and!; [apply same_dirs_refl|done|done|by rewrite Hfile].
  - cbn [fs set_fs]. split_and!.
    + apply same_dirs_write. by rewrite Hnone.
    + intros path Hpath. by rewrite lookup_insert_ne.
    + intros path. apply is_Some_lookup_insert.
    + rewrite lookup_metadata_file, lookup_insert_eq. done.
Qed.

(** The paths the loop writes have a separator. *)
Lemma written_path_has_sep (base directory : string) (ts : list Soup.tag) (path : string) :
  directory ≠ "" → occurs "/" directory = false →
  path ∈ (writes_of base directory ts).*1 → occurs "/" path = true.
Proof.
  intros Hnamed Hdir Hin. apply list_elem_of_fmap in Hin as ([p d] & -> & Hin).
  apply list_elem_of_omap in Hin as (t & _ & Hwrite).
  apply write_of_Some in Hwrite as (_ & ref & _ & _ & _ & _ & _ & _ & -> & _).
  simpl. rewrite join_under_directory by (done || apply asset_file_name_no_sep).
  rewrite !occurs_app. simpl. by rewrite orb_true_r.
Qed.

(** X13. Downloading a page a second time, right after a download of it
    that ended, with the answers of the remote side unchanged and a store
    that still reads as a dict: the second download ends too, and every
    file other than [metadata.json] is exactly as the first download left
    it.  Only the store is written again, with the clock read once
    more. *)
Theorem download_again_changes_only_the_store (url : string) (w w1 : world)
    (response : response) :
  is_valid_url url = true →
  http_get url USER_AGENT_HEADER = Some response →
  status_code response = 200 →
  download_url url w = (Ok tt, w1) →
  (∀ text, fs w1 !! METADATA_FILENAME = Some (File text) →
           ∃ store, json_loads text = Some (JDict store)) →
  ∃ w2, download_url url w1 = (Ok tt, w2)
        ∧ (∀ path, path ≠ METADATA_FILENAME → fs w2 !! path = fs w1 !! path)
        ∧ (∃ text, fs w2 !! METADATA_FILENAME = Some (File text))
        ∧ clock w2 = S (clock w1)
        ∧ stdout w2 = stdout w1.
Proof.
  intros Hvalid Hget Hstatus Hrun Hreadable.
  set (page := Path.basename url +:+ ".html") in *.
  set (links := ({["links" := JInt (get_number_of_links (content response))]}
                 : gmap string json)) in *.
  rewrite (download_url_fetched _ _ _ Hvalid Hget Hstatus) in Hrun. fold page links in Hrun.
  destruct (download_assets url (content response) (add_request (url, USER_AGENT_HEADER) w))
    as [[out|e] wa] eqn:Hassets; [|done].
  destruct (Os.write_file page out wa) as [[[]|e] wb] eqn:Hwrite; [|done].
  apply download_assets_ok in Hassets as (soup' & Hsoup & ->).
  apply write_file_ok in Hwrite as [Hwritable ->].
  apply store_metadata_ok in Hrun as (store0 & wc & Hstored & ->).
  destruct (stored_files _ _ _ Hstored) as (Hdirs_c & Hframe_c & Hsome_c & Hfile_c).
  cbn [fs set_fs] in Hdirs_c, Hframe_c, Hsome_c.
  destruct (download_assets_soup_ok _ _ _ _ _ Hsoup)
    as (Hnamed & before & _ & Hthere & Hfs & Hdirs & _ & _ & Hsim).
  set (base := base_url_of url (html_parser (content response))) in *.
  set (directory := Path.basename url) in *.
  set (ws := writes_of base directory (Soup.tags (html_parser (content response)))) in *.
  set (text1 := json_dumps _ _).
  assert (occurs "/" directory = false) as Hdir
    by by destruct (basename_final_segment url).
  assert (page ≠ METADATA_FILENAME) as Hpage by apply page_file_is_not_the_store.
  (* the files after the first download *)
  assert (same_dirs (<[METADATA_FILENAME:=File text1]> (fs wc)) before) as Hdirs1.
  { eapply same_dirs_trans; [by apply same_dirs_write|].
    eapply same_dirs_trans; [exact Hdirs_c|].
    eapply same_dirs_trans; [|exact Hdirs].
    apply same_dirs_write. by destruct Hwritable as (_ & ? & _). }
  assert (is_Some (Os.lookup (<[METADATA_FILENAME:=File text1]> (fs wc)) directory))
    as Hthere1.
  { apply is_Some_lookup_insert, Hsome_c, is_Some_lookup_insert.
    rewrite Hfs. by apply is_Some_lookup_apply_writes. }
  assert ((<[METADATA_FILENAME:=File text1]> (fs wc)) !! page = Some (File (soup_str soup')))
    as Hpage1.
  { rewrite lookup_insert_ne by done. rewrite Hframe_c by done. apply lookup_insert_eq. }
  (* the assets, a second time *)
  destruct (Hsim (add_request (url, USER_AGENT_HEADER)
                    (set_fs (insert METADATA_FILENAME (File text1)) (tick wc))))
    as (v' & Hsoup2 & Hfs2 & _ & Hout2 & Hclock2); [done|done|].
  cbn [fs stdout clock set_fs add_request tick] in Hfs2, Hout2, Hclock2.
  fold ws in Hfs2.
  assert (fs v' = <[METADATA_FILENAME:=File text1]> (fs wc)) as Hsame.
  { rewrite Hfs2. apply map_eq. intros path. rewrite lookup_apply_writes.
    destruct (last_write path ws) as [data|] eqn:Hlast; [|done].
    assert (occurs "/" path = true) as Hsep.
    { apply (written_path_has_sep base directory
               (Soup.tags (html_parser (content response)))); [done|done|].
      destruct (decide (path ∈ ws.*1)) as [|Hnotin]; [done|].
      apply last_write_None in Hnotin. congruence. }
    assert (path ≠ METADATA_FILENAME) as Hnot_store by (intros ->; done).
    assert (path ≠ page) as Hnot_page.
    { intros Heq. rewrite Heq in Hsep. unfold page, directory in Hsep.
      by rewrite page_file_no_sep in Hsep. }
    rewrite lookup_insert_ne by done. rewrite Hframe_c by done.
    rewrite lookup_insert_ne by done. by rewrite Hfs, lookup_apply_writes, Hlast. }
  (* the page file and the store, a second time *)
  set (vb := set_fs (insert page (File (soup_str soup'))) v').
  assert (fs vb = <[METADATA_FILENAME:=File text1]> (fs wc)) as Hsame_b.
  { unfold vb. cbn [fs set_fs]. rewrite Hsame. by apply insert_id. }
  destruct (Hreadable text1) as [store1 Hloads].
  { cbn [fs set_fs tick]. apply lookup_insert_eq. }
  assert (stored vb (JDict store1) vb) as Hstored_b.
  { left. exists text1. split_and!; [|done|done].
    rewrite lookup_metadata_file, Hsame_b. apply lookup_insert_eq. }
  eexists. split_and!.
  - rewrite (download_url_fetched _ _ _ Hvalid Hget Hstatus).
    unfold download_assets. rewrite bind_run, Hsoup2, ret_run. fold page links.
    rewrite (write_file_writable page _ v').
    + exact (store_metadata_run directory links vb store1 vb Hstored_b).
    + apply page_file_writable. unfold page. rewrite lookup_page_file.
      change (fs v' !! page ≠ Some Dir). by rewrite Hsame, Hpage1.
  - intros path Hpath. cbn [fs set_fs tick]. rewrite lookup_insert_ne by done.
    by rewrite Hsame_b.
  - eexists. cbn [fs set_fs tick]. apply lookup_insert_eq.
  - cbn [clock set_fs tick]. unfold vb. cbn [clock set_fs]. by rewrite Hclock2.
  - cbn [stdout set_fs tick]. unfold vb. cbn [stdout set_fs]. by rewrite Hout2.
Qed.

End MoreOnDownload.

(** ** Whole runs *)

Lemma grows_refl (w : world) : grows w w.
Proof. split_and!; [done|by eauto|done|done|done]. Qed.

Lemma grows_trans (w1 w2 w3 : world) : grows w1 w2 → grows w2 w3 → grows w1 w3.
Proof.
  intros (Hd1 & Hf1 & Ho1 & Hn1 & Hc1) (Hd2 & Hf2 & Ho2 & Hn2 & Hc2). split_and!.
  - intros path Hp. by apply Hd2, Hd1.
  - intros path data Hp. destruct (Hf1 _ _ Hp) as [data' Hp']. by eapply Hf2.
  - by etrans.
  - by etrans.
  - lia.
Qed.

Lemma keeps_ret {A} (a : A) : keeps (ret a).
Proof. intros w res w' [= <- <-]. apply grows_refl. Qed.

Lemma keeps_raise {A} (e : exn) : keeps (@raise A e).
Proof. intros w res w' [= <- <-]. apply grows_refl. Qed.

Lemma keeps_bind {A B} (c : M A) (k : A → M B) :
  keeps c → (∀ a, keeps (k a)) → keeps (c ≫= k).
Proof.
  intros Hc Hk w res w' Hrun. rewrite bind_run in Hrun.
  destruct (c w) as [[a|e] w1] eqn:Hcw.
  - exact (grows_trans _ _ _ (Hc _ _ _ Hcw) (Hk a _ _ _ Hrun)).
  - injection Hrun as <- <-. exact (Hc _ _ _ Hcw).
Qed.

Lemma writable_not_dir (files : gmap string fnode) (path : string) :
  writable files path → files !! path ≠ Some Dir.
Proof.
  intros (Hnamed & Hfile & _). unfold Os.lookup in Hfile.
  rewrite decide_False in Hfile by done.
  by destruct (decide (path = "." ∨ path = "..")).
Qed.

Lemma grows_write (w : world) (path data : string) :
  fs w !! path ≠ Some Dir → grows w (set_fs (insert path (File data)) w).
Proof.
  intros Hfile. split_and!; [| |done|done|done]; cbn [fs set_fs].
  - intros p Hp. rewrite lookup_insert_ne; [done|]. by intros ->.
  - intros p d Hp. destruct (decide (path = p)) as [->|Hne].
    + rewrite lookup_insert_eq. by eexists.
    + rewrite lookup_insert_ne by done. by eexists.
Qed.

Lemma keeps_write_file (path data : string) : keeps (Os.write_file path data).
Proof.
  intros w [[]|e] w' Hrun.
  - apply write_file_ok in Hrun as [Hwritable ->].
    by apply grows_write, writable_not_dir.
  - destruct (write_file_cases path data w) as [Hok|[e' Hraise]].
    + by rewrite Hok in Hrun.
    + rewrite Hraise in Hrun. injection Hrun as _ <-. apply grows_refl.
Qed.

Lemma keeps_makedirs (name : string) : keeps (Os.makedirs name).
Proof.
  intros w res w'. unfold Os.makedirs.
  destruct (decide (name = "")); [intros [= <- <-]; apply grows_refl|].
  destruct (Os.lookup (fs w) name) as [x|] eqn:Hlookup;
    intros [= <- <-]; [apply grows_refl|].
  unfold Os.lookup in Hlookup. rewrite decide_False in Hlookup by done.
  destruct (decide (name = "." ∨ name = "..")); [done|].
  split_and!; [| |done|done|done]; cbn [fs set_fs].
  - intros p Hp. rewrite lookup_insert_ne; [done|]. intros ->. by rewrite Hlookup in Hp.
  - intros p d Hp. rewrite lookup_insert_ne; [by eexists|]. intros ->.
    by rewrite Hlookup in Hp.
Qed.

Lemma keeps_path_exists (p : string) : keeps (Os.path_exists p).
Proof. intros w res w' [= <- <-]. apply grows_refl. Qed.

Lemma keeps_read_file (p : string) : keeps (Os.read_file p).
Proof.
  intros w res w'. unfold Os.read_file.
  destruct (Os.lookup (fs w) p) as [[|data]|]; intros [= <- <-]; apply grows_refl.
Qed.

Lemma keeps_print (line : string) : keeps (print line).
Proof.
  intros w res w' [= <- <-]. split_and!; [done|by eauto| |done|done].
  cbn [stdout add_stdout]. by apply prefix_app_r.
Qed.

Lemma keeps_setitem (obj : json) (key : string) (value : json) :
  keeps (setitem obj key value).
Proof. destruct obj; (apply keeps_ret || apply keeps_raise). Qed.

Lemma keeps_contains (key : string) (obj : json) : keeps (contains key obj).
Proof. destruct obj; (apply keeps_ret || apply keeps_raise). Qed.

Lemma keeps_getitem (obj : json) (key : string) : keeps (getitem obj key).
Proof.
  destruct obj; try apply keeps_raise. unfold getitem.
  destruct (_ !! key); [apply keeps_ret|apply keeps_raise].
Qed.

Lemma filter_none {A} (P : A → Prop) `{∀ x, Decision (P x)} (l : list A) :
  Forall (λ x, ¬ P x) l → filter P l = [].
Proof.
  induction 1 as [|x l Hx _ IH]; [done|]. by rewrite filter_cons, decide_False, IH.
Qed.

Section WholeRuns.

Context `{Libraries}.

#[local] Arguments dict_item : simpl never.
#[local] Arguments Py.endswith_any : simpl never.
#[local] Arguments asset_file_name : simpl never.
#[local] Arguments Path.join : simpl never.
#[local] Arguments Path.basename : simpl never.

Lemma keeps_requests_get (url : string) (headers : list (string * string)) :
  keeps (requests_get url headers).
Proof.
  intros w res w'. unfold requests_get.
  destruct (http_get url headers); intros [= <- <-];
    (split_and!; [done|by eauto|done| |done]);
    cbn [network add_request]; by apply prefix_app_r.
Qed.

Lemma keeps_datetime_now : keeps datetime_now.
Proof.
  intros w res w' [= <- <-]. split_and!; [done|by eauto|done|done|].
  cbn [clock tick]. lia.
Qed.

Lemma keeps_json_load (path : string) : keeps (json_load path).
Proof.
  apply keeps_bind; [apply keeps_read_file|]. intros text.
  destruct (json_loads text); [apply keeps_ret|apply keeps_raise].
Qed.

Lemma keeps_read_metadata_file : keeps read_metadata_file.
Proof.
  apply keeps_bind; [apply keeps_path_exists|]. intros present.
  apply keeps_bind; [|intros _; apply keeps_json_load].
  destruct (negb present); [apply keeps_write_file|apply keeps_ret].
Qed.

Lemma keeps_store_metadata (identifier : string) (values : gmap string json) :
  keeps (store_metadata identifier values).
Proof.
  apply keeps_bind; [apply keeps_read_metadata_file|]. intros metadata.
  apply keeps_bind; [apply keeps_datetime_now|]. intros now.
  apply keeps_bind; [apply keeps_setitem|]. intros metadata'.
  apply keeps_write_file.
Qed.

Lemma keeps_download_asset (base directory : string) (soup : Soup.t) (asset : Soup.ref) :
  keeps (download_asset base directory soup asset).
Proof.
  unfold download_asset.
  destruct (Soup.name soup asset ≫= dict_item ASSET_TAG_ATTRIBUTES) as [attr|];
    [|apply keeps_raise].
  destruct (Soup.get soup asset attr) as [ref|]; [|apply keeps_ret].
  destruct (negb (Py.truthy ref)); [apply keeps_ret|]. cbv zeta.
  destruct (negb (Py.endswith_any _ _)); [apply keeps_ret|].
  apply keeps_bind; [apply keeps_requests_get|]. intros response.
  destruct (negb (status_code response =? 200)); [apply keeps_ret|].
  apply keeps_bind; [apply keeps_write_file|]. intros _. apply keeps_ret.
Qed.

Lemma keeps_download_asset_loop (base directory : string) (assets : list Soup.ref) :
  ∀ soup, keeps (download_asset_loop base directory assets soup).
Proof.
  induction assets as [|asset rest IH]; intros soup; [apply keeps_ret|].
  cbn [download_asset_loop]. apply keeps_bind; [apply keeps_download_asset|done].
Qed.

Lemma keeps_download_assets (url body : string) : keeps (download_assets url body).
Proof.
  apply keeps_bind; [|intros soup; apply keeps_ret].
  apply keeps_bind; [apply keeps_path_exists|]. intros present.
  apply keeps_bind; [|intros _; apply keeps_download_asset_loop].
  destruct (negb present); [apply keeps_makedirs|apply keeps_ret].
Qed.

Lemma keeps_download_url (url : string) : keeps (download_url url).
Proof.
  unfold download_url. destruct (negb (is_valid_url url)); [apply keeps_print|].
  apply keeps_bind; [apply keeps_requests_get|]. intros response.
  destruct (negb (status_code response =? 200)); [apply keeps_print|]. cbv zeta.
  apply keeps_bind; [apply keeps_download_assets|]. intros content.
  apply keeps_bind; [apply keeps_write_file|]. intros _. apply keeps_store_metadata.
Qed.

Lemma keeps_download (urls : list string) : keeps (download urls).
Proof.
  induction urls as [|url rest IH]; [apply keeps_ret|].
  cbn [download]. apply keeps_bind; [apply keeps_download_url|done].
Qed.

Lemma keeps_fetch_metadata (urls : list string) : keeps (fetch_metadata urls).
Proof.
  apply keeps_bind; [apply keeps_read_metadata_file|]. intros metadata.
  induction urls as [|url rest IH]; [apply keeps_ret|].
  cbn [fetch_metadata_loop]. apply keeps_bind; [|done].
  apply keeps_bind; [apply keeps_contains|]. intros found.
  destruct (negb found); [apply keeps_print|].
  apply keeps_bind; [apply keeps_getitem|]. intros record. apply keeps_print.
Qed.

(** X14. A run of the program in either mode, however it ends, removes
    nothing: a path that named a directory still names a directory, a
    path that named a file still names a file, and the lines printed,
    the requests sent and the clock only go on from where they were. *)
Theorem run_removes_nothing (metadata : bool) (urls : list string) (w : world)
    (res : result unit) (w' : world) :
  main metadata urls w = (res, w') →
  (∀ path, fs w !! path = Some Dir → fs w' !! path = Some Dir)
  ∧ (∀ path data, fs w !! path = Some (File data) →
       ∃ data', fs w' !! path = Some (File data'))
  ∧ stdout w `prefix_of` stdout w'
  ∧ network w `prefix_of` network w'
  ∧ (clock w ≤ clock w')%nat.
Proof.
  intros Hrun. change (grows w w'). revert Hrun. unfold main.
  destruct metadata; [apply keeps_fetch_metadata|apply keeps_download].
Qed.

(** One turn of the loop of [download], however it ends: what it prints,
    the requests it sends that carry headers, and the clock when it
    ends. *)
Lemma download_url_effects (url : string) (w : world) (res : result unit) (w' : world) :
  download_url url w = (res, w') →
  stdout w' = stdout w ++ option_list (skip_line url)
  ∧ (∃ new, network w' = network w ++ new
            ∧ filter (λ req : request, req.2 ≠ []) new
              = if is_valid_url url then [(url, USER_AGENT_HEADER)] else [])
  ∧ (returned res →
     clock w' = (clock w + match skip_line url with Some _ => 0 | None => 1 end)%nat).
Proof.
  unfold skip_line. destruct (is_valid_url url) eqn:Hvalid.
  2:{ unfold download_url. rewrite Hvalid. cbn [negb]. intros [= <- <-].
      split_and!; [done| |intros _; cbn; lia]. exists []. by rewrite app_nil_r. }
  cbn [negb].
  destruct (http_get url USER_AGENT_HEADER) as [response|] eqn:Hget.
  2:{ unfold download_url. rewrite Hvalid. cbn [negb]. rewrite bind_run.
      unfold requests_get. rewrite Hget. intros [= <- <-].
      split_and!; [by rewrite app_nil_r| |done]. by exists [(url, USER_AGENT_HEADER)]. }
  destruct (status_code response =? 200) eqn:Hstatus.
  2:{ unfold download_url. rewrite Hvalid. cbn [negb]. rewrite bind_run.
      unfold requests_get. rewrite Hget, Hstatus. cbn [negb]. intros [= <- <-].
      split_and!; [done| |intros _; cbn; lia]. by exists [(url, USER_AGENT_HEADER)]. }
  cbn [negb option_list]. apply Z.eqb_eq in Hstatus.
  rewrite (download_url_fetched _ _ _ Hvalid Hget Hstatus).
  unfold download_assets. rewrite bind_run.
  destruct (download_assets_soup url (content response)
              (add_request (url, USER_AGENT_HEADER) w)) as [[soup'|e] wa] eqn:Hassets.
  all: destruct (download_assets_soup_facts _ _ _ _ _ Hassets)
         as (Houta & Hclocka & (sent & Hneta & Hprefix & _) & _).
  all: assert (filter (λ req : request, req.2 ≠ []) sent = []) as Hsent
         by (apply filter_none, Forall_forall; intros req Hreq Hheaders;
             eapply elem_of_prefix in Hreq; [|exact Hprefix];
             by apply elem_of_planned_requests in Hreq as (_ & _ & _ & _ & _ & ?)).
  all: assert (∃ new, network wa = network w ++ new
                      ∧ filter (λ req : request, req.2 ≠ []) new
                        = [(url, USER_AGENT_HEADER)]) as Hnet
         by (exists ((url, USER_AGENT_HEADER) :: sent); split;
             [by rewrite Hneta; cbn [network add_request]; rewrite <-app_assoc
             |by rewrite filter_cons_True, Hsent]).
  all: cbn [stdout clock add_request] in Houta, Hclocka.
  2:{ intros [= <- <-]. split_and!; [by rewrite app_nil_r|done|done]. }
  rewrite ret_run.
  destruct (write_file_cases (Path.basename url +:+ ".html") (soup_str soup') wa)
    as [Hwrite|[e Hwrite]]; rewrite Hwrite.
  2:{ intros [= <- <-]. split_and!; [by rewrite app_nil_r|done|done]. }
  intros Hstore.
  destruct (store_metadata_frame _ _ _ _ _ Hstore) as (Houtm & Hnetm & _).
  cbn [stdout network set_fs] in Houtm, Hnetm.
  split_and!; [by rewrite app_nil_r, Houtm|by rewrite Hnetm|].
  destruct res as [[]|e]; [intros _|done].
  apply store_metadata_ok in Hstore as (store & wc & Hstored & ->).
  cbn [clock set_fs tick].
  assert (clock wc = clock wa) as ->; [|lia].
  by destruct Hstored as [(text & _ & _ & ->)|(_ & _ & ->)].
Qed.

(** X15. What [download] prints: one line for each URL it skips, in the
    order of the arguments, and nothing else.  A URL is skipped when the
    validator rejects it ([Invalid url: ...]) or when it is answered with
    a status other than 200 ([Failed to download url: ...]); nothing is
    printed for a page that is downloaded.  A run that raises has
    printed a first part of these lines; a run that ends has printed all
    of them and has read the clock once for each URL not skipped. *)
Theorem download_prints_one_line_per_skipped_url (urls : list string) (w : world)
    (res : result unit) (w' : world) :
  download urls w = (res, w') →
  ∃ lines,
    stdout w' = stdout w ++ lines
    ∧ lines `prefix_of` omap skip_line urls
    ∧ (returned res →
       lines = omap skip_line urls
       ∧ clock w' = (clock w + length (filter (λ url, skip_line url = None) urls))%nat).
Proof.
  revert w. induction urls as [|url rest IH]; intros w.
  { intros [= <- <-]. exists []. split_and!; [by rewrite app_nil_r|done|].
    intros _. split; [done|]. cbn. lia. }
  cbn [download]. rewrite bind_run.
  destruct (download_url url w) as [[[]|e] w1] eqn:Hurl;
    destruct (download_url_effects _ _ _ _ Hurl) as (Hout & _ & Hclock).
  - intros Hrest. destruct (IH _ Hrest) as (lines & Hlines & Hprefix & Hall).
    exists (option_list (skip_line url) ++ lines).
    rewrite omap_cons_match, filter_cons. split_and!.
    + by rewrite Hlines, Hout, <-app_assoc.
    + destruct (skip_line url); [by apply prefix_cons|done].
    + intros Hres. destruct (Hall Hres) as [-> ->]. rewrite (Hclock I).
      destruct (skip_line url).
      * rewrite decide_False by done. split; [done|lia].
      * rewrite decide_True by done. split; [done|]. cbn [length]. lia.
  - intros [= <- <-]. exists (option_list (skip_line url)).
    rewrite omap_cons_match. split_and!; [done| |done].
    destruct (skip_line url); [apply prefix_cons, prefix_nil|apply prefix_nil].
Qed.

(** X16. The page requests of [download]: among the requests of a run,
    those that carry headers are one GET with the [User-Agent] header
    for each URL the validator accepts, in the order of the arguments
    and without de-duplication (a URL listed twice is requested
    twice).  A run that raises has sent a
    first part of them, a run that ends all of them; every other request
    of the run carries no headers. *)
Theorem download_requests_each_valid_url (urls : list string) (w : world)
    (res : result unit) (w' : world) :
  download urls w = (res, w') →
  ∃ new,
    network w' = network w ++ new
    ∧ filter (λ req : request, req.2 ≠ []) new
      `prefix_of` ((λ url, (url, USER_AGENT_HEADER))
                   <$> filter (λ url, is_valid_url url = true) urls)
    ∧ (returned res →
       filter (λ req : request, req.2 ≠ []) new
       = (λ url, (url, USER_AGENT_HEADER))
         <$> filter (λ url, is_valid_url url = true) urls).
Proof.
  revert w. induction urls as [|url rest IH]; intros w.
  { intros [= <- <-]. exists []. split_and!; [by rewrite app_nil_r|done|done]. }
  cbn [download]. rewrite bind_run.
  destruct (download_url url w) as [[[]|e] w1] eqn:Hurl;
    destruct (download_url_effects _ _ _ _ Hurl) as (_ & (sent & Hnet & Hsent) & _).
  - intros Hrest. destruct (IH _ Hrest) as (new & Hnew & Hprefix & Hall).
    exists (sent ++ new). rewrite filter_app, Hsent, filter_cons. split_and!.
    + by rewrite Hnew, Hnet, <-app_assoc.
    + destruct (is_valid_url url).
      * rewrite decide_True by done. by apply prefix_cons.
      * by rewrite decide_False.
    + intros Hres. rewrite (Hall Hres). destruct (is_valid_url url).
      * by rewrite decide_True.
      * by rewrite decide_False.
  - intros [= <- <-]. exists sent. rewrite Hsent, filter_cons.
    split_and!; [done| |done]. destruct (is_valid_url url).
    + rewrite decide_True by done. apply prefix_cons, prefix_nil.
    + apply prefix_nil.
Qed.

Lemma parent_under_directory (directory name : string) :
  occurs "/" name = false → Path.parent (directory +:+ "/" +:+ name) = Some directory.
Proof.
  intros Hname. induction directory as [|c d IH].
  - change (Path.parent (String "/" name) = Some EmptyString).
    cbn [Path.parent]. by rewrite (parent_no_sep name Hname).
  - change (Path.parent (String c (d +:+ "/" +:+ name)) = Some (String c d)).
    cbn [Path.parent]. by rewrite IH.
Qed.

(** No file can be written under a name that is a regular file. *)
Lemma write_file_under_file (directory name data held : string) (w : world) :
  directory ≠ "" → occurs "/" directory = false → occurs "/" name = false →
  Os.lookup (fs w) directory = Some (File held) →
  Os.write_file (Path.join directory name) data w = (Raise NotADirectoryError, w).
Proof.
  intros Hnamed Hdir Hname Hheld. rewrite join_under_directory by done.
  unfold Os.write_file. rewrite decide_False by by destruct directory.
  rewrite parent_under_directory by done. cbv zeta.
  destruct directory as [|c d]; [done|]. by rewrite Hheld.
Qed.

(** The loop over the asset tags when the page directory is a regular
    file: no file is changed, and the loop raises at the first asset
    that is answered with status 200, if not before. *)
Lemma download_asset_loop_blocked (base directory held : string) (assets : list Soup.ref)
    (cur : Soup.t) :
  directory ≠ "" → occurs "/" directory = false →
  (∀ r, r ∈ assets →
        ∃ t, Soup.tags cur !! r = Some t ∧ is_Some (dict_item ASSET_TAG_ATTRIBUTES t.1)) →
  ∀ (w : world) (res : result Soup.t) (w' : world),
  Os.lookup (fs w) directory = Some (File held) →
  download_asset_loop base directory assets cur w = (res, w') →
  fs w' = fs w
  ∧ (writes_of base directory (tags_at cur assets) ≠ [] →
     ∃ e, res = Raise e
          ∧ (all_answered base (tags_at cur assets) → e = NotADirectoryError)).
Proof.
  intros Hnamed Hdir. induction assets as [|r0 rest IH]; intros Htags w res w' Hheld Hrun.
  { injection Hrun as <- <-. done. }
  destruct (Htags r0) as (t0 & Ht0 & Hattr0); [by left|].
  assert (∀ r, r ∈ rest → ∃ t, Soup.tags cur !! r = Some t
            ∧ is_Some (dict_item ASSET_TAG_ATTRIBUTES t.1)) as Htags_rest.
  { intros r Hr. apply Htags. by right. }
  specialize (IH Htags_rest).
  cbn [download_asset_loop] in Hrun. rewrite bind_run in Hrun.
  rewrite (download_asset_run _ _ _ _ _ _ Ht0 Hattr0) in Hrun.
  rewrite (tags_at_cons _ _ _ _ Ht0), writes_of_cons. unfold write_of.
  assert (∀ P : Prop, (all_answered base (tags_at cur rest) → P) →
            all_answered base (t0 :: tags_at cur rest) → P) as Hrest_answered.
  { intros P HP Hall. apply HP. intros t a f n Hin. apply Hall. by right. }
  destruct (fetch_of base t0) as [[[attr full_url] file_name]|] eqn:Hfetch.
  2:{ destruct (IH _ _ _ Hheld Hrun) as [Hfs Hraise]. split; [done|].
      intros Hws. destruct (Hraise Hws) as (e & -> & He). exists e. split; [done|].
      by apply Hrest_answered. }
  destruct (http_get full_url []) as [response|] eqn:Hget.
  2:{ injection Hrun as <- <-. split; [done|]. intros _. eexists. split; [done|].
      intros Hall. destruct (Hall t0 attr full_url file_name) as [x Hx];
        [by left|done|congruence]. }
  destruct (status_code response =? 200) eqn:Hstatus.
  2:{ destruct (IH (add_request (full_url, []) w) _ _ Hheld Hrun) as [Hfs Hraise].
      split; [done|].
      intros Hws. destruct (Hraise Hws) as (e & -> & He). exists e. split; [done|].
      by apply Hrest_answered. }
  apply fetch_of_reference in Hfetch as (ref & _ & _ & -> & _).
  rewrite (write_file_under_file directory _ _ held) in Hrun;
    [|done|done|apply asset_file_name_no_sep|done].
  injection Hrun as <- <-. split; [done|]. intros _. by eexists.
Qed.

(** X17. A page whose identifier is the name of a regular file (as
    [page.html] is after [page] was downloaded) and that has an asset
    answered with status 200 cannot be downloaded: the turn of the loop
    raises, with [NotADirectoryError] when every asset request is
    answered, and no file is changed: the asset and the page file are
    not written, no record is made and nothing is printed. *)
Theorem page_named_like_a_file_is_not_downloaded (url : string) (w : world)
    (response : response) (held : string) (t : Soup.tag) (path data : string) :
  is_valid_url url = true →
  http_get url USER_AGENT_HEADER = Some response →
  status_code response = 200 →
  Os.lookup (fs w) (Path.basename url) = Some (File held) →
  t ∈ Soup.tags (html_parser (content response)) →
  write_of (base_url_of url (html_parser (content response))) (Path.basename url) t
  = Some (path, data) →
  ∃ e w',
    download_url url w = (Raise e, w')
    ∧ (all_answered (base_url_of url (html_parser (content response)))
         (Soup.tags (html_parser (content response))) → e = NotADirectoryError)
    ∧ fs w' = fs w ∧ stdout w' = stdout w ∧ clock w' = clock w.
Proof.
  intros Hvalid Hget Hstatus Hheld Hin Hwrite.
  rewrite (download_url_fetched _ _ _ Hvalid Hget Hstatus).
  unfold download_assets. rewrite bind_run.
  destruct (download_assets_soup url (content response)
              (add_request (url, USER_AGENT_HEADER) w)) as [res wa] eqn:Hassets.
  destruct (download_assets_soup_facts _ _ _ _ _ Hassets) as (Hout & Hclock & _).
  destruct (download_assets_soup_run _ _ _ _ _ Hassets)
    as [(Hempty & _)|(Hnamed & w1 & Hw1 & Hloop)].
  { rewrite Hempty in Hheld. done. }
  destruct Hw1 as [[_ ->]|[Hnone _]]; [|cbn [fs add_request] in Hnone; congruence].
  assert (occurs "/" (Path.basename url) = false) as Hdir
    by by destruct (basename_final_segment url).
  destruct (download_asset_loop_blocked _ _ held _ _ Hnamed Hdir
              (asset_tags_found (html_parser (content response)))
              (add_request (url, USER_AGENT_HEADER) w) _ _ Hheld Hloop)
    as [Hfs Hraise].
  rewrite tags_at_find_all, writes_of_asset_tags in Hraise.
  destruct Hraise as (e & -> & He).
  { intros Hnil. assert ((path, data) ∈ writes_of
                           (base_url_of url (html_parser (content response)))
                           (Path.basename url)
                           (Soup.tags (html_parser (content response)))) as Hp.
    { apply list_elem_of_omap. by exists t. }
    rewrite Hnil in Hp. by apply elem_of_nil in Hp. }
  exists e, wa. split_and!; [done| |done|done|done].
  intros Hall. apply He. intros t' a f n Hin'. apply Hall.
  by apply list_elem_of_filter in Hin' as [_ ?].
Qed.

End WholeRuns.

(** ** The further properties on the sample pages *)

Section MoreRuns.

#[local] Existing Instance Pages.libraries.

Import Pages MorePages.

Lemma download_assets_again_witness :
  let w1 := (download_assets "https://example.com/a/b.html"
               (Sample.soup_str gallery) fresh).2 in
  ∃ w2, (download_assets "https://example.com/a/b.html" (Sample.soup_str gallery) w1).2 = w2
        ∧ fs w2 = fs w1.
Proof.
  pose (run := download_assets "https://example.com/a/b.html"
                 (Sample.soup_str gallery) fresh).
  destruct (download_assets_again_changes_no_file "https://example.com/a/b.html"
              (Sample.soup_str gallery)
              (match run.1 with Ok out => out | Raise _ => "" end) fresh run.2)
    as (w2 & new & Hrun & Hfs & _).
  { vm_compute. reflexivity. }
  exists w2. split; [|exact Hfs]. cbv zeta. fold run. rewrite Hrun. reflexivity.
Defined.

Lemma downloaded_asset_witness :
  ∃ held, fs (download_assets_soup "https://example.com/a/b.html"
                (Sample.soup_str gallery) fresh).2 !! "b.html/style.css"
          = Some (File held).
Proof.
  pose (run := download_assets_soup "https://example.com/a/b.html"
                 (Sample.soup_str gallery) fresh).
  destruct (downloaded_asset_is_stored_and_referenced "https://example.com/a/b.html"
              (Sample.soup_str gallery) fresh
              (match run.1 with Ok soup' => soup' | Raise _ => [] end) run.2
              2 ("link", {["href" := "style.css"]}) "b.html/style.css" "body {}")
    as (_ & Hheld & _).
  { vm_compute. reflexivity. }
  { reflexivity. }
  { vm_compute. reflexivity. }
  exact Hheld.
Defined.


Lemma asset_requests_witness :
  ∃ new : list request,
    network (download_assets_soup "https://example.com/a/b.html"
               (Sample.soup_str gallery) fresh).2 = network fresh ++ new
    ∧ Forall (λ req : request, req.2 = []) new.
Proof.
  pose (run := download_assets_soup "https://example.com/a/b.html"
                 (Sample.soup_str gallery) fresh).
  destruct (asset_requests_follow_the_document "https://example.com/a/b.html"
              (Sample.soup_str gallery) fresh run.1 run.2)
    as (new & Hnew & _ & _ & Hplain).
  { apply surjective_pairing. }
  exists new. split; [exact Hnew|exact Hplain].
Defined.

Lemma rewriting_witness :
  anchors_in_document
    (match (download_assets_soup "https://example.com/a/b.html"
              (Sample.soup_str gallery) fresh).1 with
     | Ok soup' => soup'
     | Raise _ => []
     end)
  = anchors_in_document (html_parser (Sample.soup_str gallery)).
Proof.
  pose (run := download_assets_soup "https://example.com/a/b.html"
                 (Sample.soup_str gallery) fresh).
  destruct (rewriting_touches_only_asset_references "https://example.com/a/b.html"
              (Sample.soup_str gallery) fresh
              (match run.1 with Ok soup' => soup' | Raise _ => [] end) run.2)
    as (_ & _ & _ & Hanchors).
  { vm_compute. reflexivity. }
  exact Hanchors.
Defined.

Lemma display_mode_witness :
  network (fetch_metadata ["https://example.com/page"] (with_store "[]")).2
  = network (with_store "[]").
Proof.
  pose (run := fetch_metadata ["https://example.com/page"] (with_store "[]")).
  destruct (display_mode_only_reads ["https://example.com/page"] (with_store "[]")
              run.1 run.2)
    as (Hnet & _).
  { apply surjective_pairing. }
  exact Hnet.
Defined.

Lemma unreadable_store_witness :
  read_metadata_file (with_store "{") = (Raise JSONDecodeError, with_store "{").
Proof.
  destruct (unreadable_store_raises (with_store "{") JSONDecodeError) as (Hread & _).
  { right. exists "{". split; [reflexivity|]. split; reflexivity. }
  exact Hread.
Defined.

Lemma store_that_is_no_object_witness :
  store_metadata "page" {["links" := JInt 1]} (with_store "3")
  = (Raise TypeError, tick (with_store "3")).
Proof.
  destruct (store_that_is_no_object_raises (with_store "3") "3" (JInt 3))
    as (Hupsert & _).
  { reflexivity. }
  { vm_compute. reflexivity. }
  { intros items. discriminate. }
  apply Hupsert.
Defined.

Lemma upsert_then_display_witness :
  ∃ w1 w2,
    store_metadata "page" {["links" := JInt 1]} fresh = (Ok tt, w1)
    ∧ fetch_metadata ["https://example.com/page"; "https://example.com/other"] w1
      = (Ok tt, w2)
    ∧ fs w2 = fs w1.
Proof.
  destruct (upsert_then_display "page" {["links" := JInt 1]}
              ["https://example.com/page"; "https://example.com/other"] fresh ∅
              (set_fs (insert METADATA_FILENAME (File (json_dumps None (JDict ∅)))) fresh))
    as (w1 & w2 & Hupsert & Hdisplay & _ & Hfs).
  { right. split; [reflexivity|]. split; reflexivity. }
  { vm_compute. reflexivity. }
  exists w1, w2. split; [exact Hupsert|]. split; [exact Hdisplay|exact Hfs].
Defined.

Lemma fetched_page_witness :
  ∃ w', download_url "https://example.com/page" fresh = (Ok tt, w')
        ∧ clock w' = 1%nat.
Proof.
  pose (run := download_assets_soup "https://example.com/page" (Sample.soup_str page)
                 (add_request ("https://example.com/page", USER_AGENT_HEADER) fresh)).
  destruct (fetched_page_is_written_and_recorded "https://example.com/page" fresh
              (Response 200 (Sample.soup_str page))
              (match run.1 with Ok soup' => soup' | Raise _ => [] end) run.2 ∅
              (set_fs (insert METADATA_FILENAME (File (json_dumps None (JDict ∅))))
                 (set_fs (insert "page.html"
                            (File (soup_str
                                     (match run.1 with Ok soup' => soup' | Raise _ => [] end))))
                    run.2)))
    as (w' & Hrun & _ & _ & _ & _ & _ & _ & _ & Hclock).
  { reflexivity. }
  { reflexivity. }
  { reflexivity. }
  { vm_compute. reflexivity. }
  { vm_compute. discriminate. }
  { right. split; [reflexivity|]. split; reflexivity. }
  exists w'. split; [exact Hrun|exact Hclock].
Defined.

Lemma download_again_witness :
  let w1 := (download_url "https://example.com/page" fresh).2 in
  ∃ w2, download_url "https://example.com/page" w1 = (Ok tt, w2)
        ∧ fs w2 !! "page/pic.png" = fs w1 !! "page/pic.png"
        ∧ clock w2 = S (clock w1).
Proof.
  pose (run := download_url "https://example.com/page" fresh).
  destruct (download_again_changes_only_the_store "https://example.com/page" fresh run.2
              (Response 200 (Sample.soup_str page)))
    as (w2 & Hrun & Hfiles & _ & Hclock & _).
  { reflexivity. }
  { reflexivity. }
  { reflexivity. }
  { vm_compute. reflexivity. }
  { intros text Htext. vm_compute in Htext. injection Htext as <-.
    eexists. vm_compute. reflexivity. }
  exists w2. split; [exact Hrun|]. split; [|exact Hclock].
  apply Hfiles. discriminate.
Defined.

Lemma run_removes_nothing_witness :
  let w1 := (main false ["https://example.com/page"] fresh).2 in
  fs (main false ["https://example.com/a/b.html"; "not a url"] w1).2 !! "page" = Some Dir.
Proof.
  pose (w1 := (main false ["https://example.com/page"] fresh).2).
  pose (run := main false ["https://example.com/a/b.html"; "not a url"] w1).
  destruct (run_removes_nothing false ["https://example.com/a/b.html"; "not a url"] w1
              run.1 run.2)
    as (Hdirs & _).
  { apply surjective_pairing. }
  apply Hdirs. vm_compute. reflexivity.
Defined.

Lemma skipped_urls_witness :
  ∃ lines,
    stdout (download ["not a url"; "https://example.com/moved"; "https://example.com/page"]
              fresh).2 = stdout fresh ++ lines
    ∧ lines `prefix_of`
        omap skip_line ["not a url"; "https://example.com/moved"; "https://example.com/page"].
Proof.
  pose (run := download ["not a url"; "https://example.com/moved"; "https://example.com/page"]
                 fresh).
  destruct (download_prints_one_line_per_skipped_url
              ["not a url"; "https://example.com/moved"; "https://example.com/page"]
              fresh run.1 run.2)
    as (lines & Hlines & Hprefix & _).
  { apply surjective_pairing. }
  exists lines. split; [exact Hlines|exact Hprefix].
Defined.

Lemma page_requests_witness :
  ∃ new,
    network (download ["not a url"; "https://example.com/moved"; "https://example.com/page"]
               fresh).2 = network fresh ++ new
    ∧ filter (λ req : request, req.2 ≠ []) new
      `prefix_of` ((λ url, (url, USER_AGENT_HEADER))
                   <$> filter (λ url, is_valid_url url = true)
                         ["not a url"; "https://example.com/moved";
                          "https://example.com/page"]).
Proof.
  pose (run := download ["not a url"; "https://example.com/moved"; "https://example.com/page"]
                 fresh).
  destruct (download_requests_each_valid_url
              ["not a url"; "https://example.com/moved"; "https://example.com/page"]
              fresh run.1 run.2)
    as (new & Hnew & Hprefix & _).
  { apply surjective_pairing. }
  exists new. split; [exact Hnew|exact Hprefix].
Defined.

Lemma page_named_like_a_file_witness :
  ∃ e w', download_url "https://example.com/page" with_file_page = (Raise e, w')
          ∧ fs w' = fs with_file_page.
Proof.
  destruct (page_named_like_a_file_is_not_downloaded "https://example.com/page"
              with_file_page (Response 200 (Sample.soup_str page)) "notes"
              ("img", {["src" := "pic.png"]}) "page/pic.png" "PNG")
    as (e & w' & Hrun & _ & Hfs & _).
  { reflexivity. }
  { reflexivity. }
  { reflexivity. }
  { reflexivity. }
  { apply (list_elem_of_lookup_2 _ 3%nat). reflexivity. }
  { vm_compute. reflexivity. }
  exists e, w'. split; [exact Hrun|exact Hfs].
Defined.

End MoreRuns.

Section OfflineRuns.

Import Pages MorePages.

Lemma unreachable_page_witness :
  @download page_offline ["https://example.com/moved"; "https://example.com/page";
                          "https://example.com/a/b.html"] fresh
  = (Raise ConnectionError,
     add_request ("https://example.com/page", USER_AGENT_HEADER)
       (@download page_offline ["https://example.com/moved"] fresh).2).
Proof.
  destruct (@unreachable_page_ends_the_run page_offline ["https://example.com/moved"]
              "https://example.com/page" ["https://example.com/a/b.html"] fresh
              (@download page_offline ["https://example.com/moved"] fresh).2)
    as (Hrun & _).
  { vm_compute. reflexivity. }
  { reflexivity. }
  { reflexivity. }
  exact Hrun.
Defined.

Lemma unreachable_asset_witness :
  ∃ e w', @download image_offline ["https://example.com/page"; "https://example.com/moved"]
            fresh = (Raise e, w')
          ∧ fs w' !! "page.html" = fs fresh !! "page.html"
          ∧ stdout w' = stdout fresh.
Proof.
  destruct (@unreachable_asset_ends_the_run image_offline "https://example.com/page"
              ["https://example.com/moved"] fresh (Response 200 (Sample.soup_str page))
              ("img", {["src" := "pic.png"]}) "src" "https://example.com/pic.png" "pic.png")
    as (e & w' & Hrun & Hpage & _ & Hout & _).
  { reflexivity. }
  { reflexivity. }
  { reflexivity. }
  { apply (list_elem_of_lookup_2 _ 3%nat). reflexivity. }
  { vm_compute. reflexivity. }
  { reflexivity. }
  exists e, w'. split; [exact Hrun|]. split; [exact Hpage|exact Hout].
Defined.

End OfflineRuns.
